(** * DiagramOffline: stability diagrams, patches and the diagram-set loader

    A shallow embedding of [src/datasets/diagram_offline.py].  Python values
    are modelled as the code uses them: integer indices as [Z] with Python's
    negative-index wrap-around, floats as IEEE-754 values ([spec_float],
    binary64 for numpy arrays and binary32 for [torch.float] tensors),
    exceptions as an explicit error type, generators as the list of yielded
    items together with the exception that ended them (if any), and decoded
    JSON as a small tree type traversed with Python's dict/list semantics. *)

From Stdlib Require Import ZArith String Ascii List Bool Lia.
From Stdlib Require Import Floats.SpecFloat.
Import ListNotations.
Local Open Scope Z_scope.

(* ================================================================== *)
(** * Python runtime: exceptions, indexing, slicing, ranges            *)
(* ================================================================== *)

(** The causes for which the modelled code can see a [ValueError]. *)
Inductive value_error : Type :=
| FolderNotFound      (* raised by load_diagrams itself, lines 283-285 *)
| RangeStepZero       (* range() arg 3 must not be zero *)
| InvalidLiteral      (* float() on a string that is no number *)
| NotAMember          (* ChargeRegime(name) with an unknown name *)
| InvalidGeometry     (* shapely refusing a degenerate coordinate list *)
| InvalidJSON         (* json.loads on a line that is no JSON document *)
| MalformedTable.     (* numpy.loadtxt on ragged or non-numeric rows *)

Inductive exn : Type :=
| IndexError
| KeyError
| TypeError
| AttributeError
| StopIteration
| OSError
| OverflowError
| ValueError (why : value_error).

Inductive result (A : Type) : Type :=
| Ok (a : A)
| Raise (e : exn).
Arguments Ok {A} a.
Arguments Raise {A} e.

Definition bind {A B : Type} (x : result A) (k : A -> result B) : result B :=
  match x with
  | Ok a => k a
  | Raise e => Raise e
  end.

Declare Scope py_scope.
Delimit Scope py_scope with py.
Notation "x <- c ;; k" := (bind c (fun x => k))
  (at level 61, c at next level, right associativity) : py_scope.
Notation "' p <- c ;; k" := (bind c (fun x => let p := x in k))
  (at level 61, p pattern, c at next level, right associativity) : py_scope.
Local Open Scope py_scope.

(** [for x in l: acc = body(acc, x)], stopping at the first exception. *)
Fixpoint for_each {A S : Type} (l : list A) (body : S -> A -> result S)
  (s : S) : result S :=
  match l with
  | [] => Ok s
  | a :: l' => s' <- body s a ;; for_each l' body s'
  end.

(** [seq[i]] for a list, tuple or numpy vector: negative indices count from
    the end, anything outside [-len, len) raises [IndexError]. *)
Definition py_index {A : Type} (l : list A) (i : Z) : result A :=
  let n := Z.of_nat (length l) in
  let j := if i <? 0 then i + n else i in
  if (0 <=? j) && (j <? n)
  then match nth_error l (Z.to_nat j) with
       | Some a => Ok a
       | None => Raise IndexError
       end
  else Raise IndexError.

(** An index is out of range for Python when it is neither a position
    counted from the start nor one counted from the end. *)
Definition out_of_range {A : Type} (l : list A) (i : Z) : Prop :=
  Z.of_nat (length l) <= i \/ i < - Z.of_nat (length l).

(** One bound of [seq[a:b]]: negative bounds count from the end and every
    bound is clamped to [0, len]. *)
Definition slice_bound (n i : Z) : Z :=
  if i <? 0 then Z.max (i + n) 0 else Z.min i n.

Definition slice_len (n a b : Z) : nat :=
  Z.to_nat (slice_bound n b - slice_bound n a).

Definition py_slice {A : Type} (l : list A) (a b : Z) : list A :=
  let n := Z.of_nat (length l) in
  firstn (slice_len n a b) (skipn (Z.to_nat (slice_bound n a)) l).

(** [len(range(0, stop, step))] for a non-zero step. *)
Definition range_len (stop step : Z) : Z :=
  if 0 <? step
  then (if 0 <? stop then (stop - 1) / step + 1 else 0)
  else (if stop <? 0 then (- stop - 1) / (- step) + 1 else 0).

(** [range(0, stop, step)]. *)
Definition py_range (stop step : Z) : result (list Z) :=
  if step =? 0 then Raise (ValueError RangeStepZero)
  else Ok (map (fun k => Z.of_nat k * step)
               (seq 0 (Z.to_nat (range_len stop step)))).

(** The starts [range(0, size - patch, step)] visits along one axis. *)
Definition starts (size patch step : Z) : list Z :=
  map (fun k => Z.of_nat k * step)
      (seq 0 (Z.to_nat (range_len (size - patch) step))).

(** [any(...)] over an already built list of booleans. *)
Definition py_any (l : list bool) : bool := existsb (fun b => b) l.

(* ================================================================== *)
(** * Generators                                                       *)
(* ================================================================== *)

(** A generator run to its end: the items it yielded, in order, and the
    exception that terminated it ([None] when it was simply exhausted). *)
Record run (A : Type) : Type := mkRun {
  yielded : list A;
  raised : option exn
}.
Arguments mkRun {A} yielded raised.
Arguments yielded {A} r.
Arguments raised {A} r.

Definition gen_done {A : Type} : run A := mkRun [] None.
Definition gen_raise {A : Type} (e : exn) : run A := mkRun [] (Some e).
Definition gen_yield {A : Type} (a : A) : run A := mkRun [a] None.

Definition gen_seq {A : Type} (r1 r2 : run A) : run A :=
  match raised r1 with
  | Some _ => r1
  | None => mkRun (yielded r1 ++ yielded r2) (raised r2)
  end.

Definition gen_try {A B : Type} (x : result A) (k : A -> run B) : run B :=
  match x with
  | Ok a => k a
  | Raise e => gen_raise e
  end.

Fixpoint gen_for {A B : Type} (l : list A) (body : A -> run B) : run B :=
  match l with
  | [] => gen_done
  | a :: l' => gen_seq (body a) (gen_for l' body)
  end.

(* ================================================================== *)
(** * Numbers                                                          *)
(* ================================================================== *)

(** numpy's float64 and torch's float32, as IEEE-754 values. *)
Definition f64 : Type := spec_float.
Definition f32 : Type := spec_float.

Definition f64_mul : f64 -> f64 -> f64 := SFmul 53 1024.
Definition f64_add : f64 -> f64 -> f64 := SFadd 53 1024.

(** An int64 entry of [np.arange] promoted to float64. *)
Definition f64_of_int (z : Z) : f64 := binary_normalize 53 1024 z 0 false.

(** [torch.tensor(a, dtype=torch.float)] on one float64 entry: rounding to
    the nearest binary32 value. *)
Definition f32_of_f64 (x : f64) : f32 :=
  match x with
  | S754_finite s m e => binary_normalize 24 128 (cond_Zopp s (Zpos m)) e s
  | _ => x
  end.

(** The real number a finite float stands for, as mantissa * 2^exponent,
    compared exactly. Infinities and NaN are never equal to anything here. *)
Definition dyadic (x : spec_float) : option (Z * Z) :=
  match x with
  | S754_zero _ => Some (0, 0)
  | S754_finite s m e => Some (cond_Zopp s (Zpos m), e)
  | _ => None
  end.

Definition same_real (x y : spec_float) : bool :=
  match dyadic x, dyadic y with
  | Some (m1, e1), Some (m2, e2) =>
      let e := Z.min e1 e2 in
      (m1 * 2 ^ (e1 - e)) =? (m2 * 2 ^ (e2 - e))
  | _, _ => false
  end.

(** The entries of a matrix that single precision holds exactly. *)
Definition f32_exact (v : f64) : Prop := same_real (f32_of_f64 v) v = true.

(* ================================================================== *)
(** * Tensors                                                          *)
(* ================================================================== *)

(** A two-dimensional tensor: its rows and its number of columns (kept
    apart so that a tensor without rows still has a width). *)
Record Tensor : Type := mkTensor {
  cells : list (list f32);
  width : nat
}.

Definition tensor_wf (t : Tensor) : Prop :=
  Forall (fun r => length r = width t) (cells t).

(** [t.shape], as (rows, columns). *)
Definition shape (t : Tensor) : Z * Z :=
  (Z.of_nat (length (cells t)), Z.of_nat (width t)).

(** [t[y0:y1, x0:x1]]. *)
Definition tensor_slice (t : Tensor) (y0 y1 x0 x1 : Z) : Tensor :=
  {| cells := map (fun r => py_slice r x0 x1) (py_slice (cells t) y0 y1);
     width := slice_len (Z.of_nat (width t)) x0 x1 |}.

(* ================================================================== *)
(** * External collaborators                                           *)
(* ================================================================== *)

(** Shapely geometries keep the coordinate list they were built from. *)
Definition Point : Type := (f64 * f64)%type.

Record LineString : Type := mkLineString { line_coords : list (f64 * f64) }.

Record Polygon : Type := mkPolygon { shell : list (f64 * f64) }.

(** [Polygon(coords)]: shapely refuses a ring of one or two points. *)
Definition new_Polygon (coords : list (f64 * f64)) : result Polygon :=
  match coords with
  | [_] | [_; _] => Raise (ValueError InvalidGeometry)
  | _ => Ok (mkPolygon coords)
  end.

(** [LineString(coords)]: shapely refuses a line of a single point. *)
Definition new_LineString (coords : list (f64 * f64)) : result LineString :=
  match coords with
  | [_] => Raise (ValueError InvalidGeometry)
  | _ => Ok (mkLineString coords)
  end.

(** The two shapely predicates the code calls; their implementation (GEOS)
    is outside the repository. *)
Class Shapely : Type := {
  contains : Polygon -> Point -> bool;
  intersects : LineString -> Polygon -> bool
}.

(** The enumeration [classes.data_structures.ChargeRegime] is not among the
    source files; the code only uses its member [UNKNOWN] and its lookup by
    value, [ChargeRegime(name)], which refuses a name that is no member. *)
Class ChargeRegimes : Type := {
  ChargeRegime : Type;
  UNKNOWN : ChargeRegime;
  ChargeRegime_of_value : string -> option ChargeRegime
}.

(** The options of [utils.settings.settings] that the modelled code reads. *)
Record Settings : Type := mkSettings {
  use_ewma : bool;
  load_parasitic_lines : bool
}.

(* ================================================================== *)
(** * The diagram entity                                               *)
(* ================================================================== *)

Section Entity.
Context {CR : ChargeRegimes} {G : Shapely}.

(** The fields [__init__] sets (lines 45-52). *)
Record DiagramOffline : Type := mkDiagramOffline {
  name : string;
  x_axes : list f64;
  y_axes : list f64;
  values : Tensor;
  values_norm : option Tensor;
  transition_lines : option (list LineString);
  charge_areas : option (list (ChargeRegime * Polygon))
}.

Definition __init__ (file_basename : string) (x y : list f64) (v : Tensor)
  (lines : option (list LineString))
  (areas : option (list (ChargeRegime * Polygon))) : DiagramOffline :=
  {| name := file_basename; x_axes := x; y_axes := y; values := v;
     values_norm := None; transition_lines := lines; charge_areas := areas |}.

(** [any([line.intersects(patch_shape) for line in self.transition_lines])]:
    iterating an absent list is a [TypeError]. *)
Definition any_line_intersects (lines : option (list LineString))
  (patch_shape : Polygon) : result bool :=
  match lines with
  | None => Raise TypeError
  | Some ls => Ok (py_any (map (fun line => intersects line patch_shape) ls))
  end.

(** What [get_patches] yields, with the loop variables [(patch_x, patch_y)]
    at the yield kept beside the pair [(patch, label)]. *)
Record patch_item : Type := mkPatchItem {
  window : Z * Z;
  patch : Tensor;
  label : bool
}.

(** Lines 102-147. *)
Definition get_patches (settings : Settings) (self : DiagramOffline)
  (patch_size overlap label_offset : Z * Z) : run patch_item :=
  let '(patch_size_x, patch_size_y) := patch_size in
  let '(overlap_size_x, overlap_size_y) := overlap in
  let '(label_offset_x, label_offset_y) := label_offset in
  let '(diagram_size_y, diagram_size_x) := shape (values self) in
  let patch_size_x :=
    if use_ewma settings then patch_size_x + 3 else patch_size_x in
  gen_try (py_range (diagram_size_y - patch_size_y)
                    (patch_size_y - overlap_size_y)) (fun ys =>
  gen_for ys (fun patch_y =>
    let start_y := patch_y in
    let end_y := patch_y + patch_size_y in
    gen_try (py_index (y_axes self) (start_y + label_offset_y))
      (fun start_y_v =>
    gen_try (py_index (y_axes self) (end_y - label_offset_y))
      (fun end_y_v =>
    gen_try (py_range (diagram_size_x - patch_size_x)
                      (patch_size_x - overlap_size_x)) (fun xs =>
    gen_for xs (fun patch_x =>
      let start_x := patch_x in
      let end_x := patch_x + patch_size_x in
      gen_try (py_index (x_axes self)
                 (start_x + label_offset_x
                  + (if use_ewma settings then 1 else 0) * 3))
        (fun start_x_v =>
      gen_try (py_index (x_axes self) (end_x - label_offset_x))
        (fun end_x_v =>
      gen_try (new_Polygon [(start_x_v, start_y_v); (end_x_v, start_y_v);
                            (end_x_v, end_y_v); (start_x_v, end_y_v)])
        (fun patch_shape =>
      let patch := tensor_slice (values self) start_y end_y start_x end_x in
      gen_try (any_line_intersects (transition_lines self) patch_shape)
        (fun label =>
      gen_yield (mkPatchItem (patch_x, patch_y) patch label))))))))))).

(** The item yielded for the window at (x, y) when nothing fails, with the
    extended window off and no label offset. *)
Definition plain_item (self : DiagramOffline) (ls : list LineString)
  (psx psy : Z) (y x : Z) : patch_item :=
  let X := fun i => nth (Z.to_nat i) (x_axes self) (S754_zero false) in
  let Y := fun i => nth (Z.to_nat i) (y_axes self) (S754_zero false) in
  mkPatchItem (x, y)
    (tensor_slice (values self) y (y + psy) x (x + psx))
    (py_any (map (fun line =>
                    intersects line
                      (mkPolygon [(X x, Y y); (X (x + psx), Y y);
                                  (X (x + psx), Y (y + psy));
                                  (X x, Y (y + psy))])) ls)).

(** The loop of lines 167-172. *)
Fixpoint first_containing (areas : list (ChargeRegime * Polygon))
  (point : Point) : ChargeRegime :=
  match areas with
  | [] => UNKNOWN
  | (regime, area) :: rest =>
      if contains area point then regime else first_containing rest point
  end.

(** Lines 157-172. *)
Definition get_charge (self : DiagramOffline) (coord_x coord_y : Z)
  : result ChargeRegime :=
  match (volt_x <- py_index (x_axes self) coord_x ;;
         volt_y <- py_index (y_axes self) coord_y ;;
         Ok (volt_x, volt_y)) with
  | Raise IndexError => Ok UNKNOWN
  | Raise e => Raise e
  | Ok point =>
      match charge_areas self with
      | None => Raise TypeError
      | Some areas => Ok (first_containing areas point)
      end
  end.

(** Lines 186-203. *)
Definition is_line_in_patch (self : DiagramOffline)
  (coordinate patch_size offsets : Z * Z) : result bool :=
  let '(coord_x, coord_y) := coordinate in
  let '(size_x, size_y) := patch_size in
  let '(offset_x, offset_y) := offsets in
  start_x_v <- py_index (x_axes self) (coord_x + offset_x) ;;
  start_y_v <- py_index (y_axes self) (coord_y + offset_y) ;;
  end_x_v <- py_index (x_axes self) (coord_x + size_x - offset_x) ;;
  end_y_v <- py_index (y_axes self) (coord_y + size_y - offset_y) ;;
  patch_shape <- new_Polygon [(start_x_v, start_y_v); (end_x_v, start_y_v);
                              (end_x_v, end_y_v); (start_x_v, end_y_v)] ;;
  any_line_intersects (transition_lines self) patch_shape.

End Entity.

(* ================================================================== *)
(** * Strings                                                          *)
(* ================================================================== *)

Local Open Scope string_scope.

(** [c.upper()] on an ASCII character. *)
Definition upper_ascii (c : ascii) : ascii :=
  let n := nat_of_ascii c in
  if (Nat.leb 97 n && Nat.leb n 122)%bool then ascii_of_nat (n - 32) else c.

(** [s.upper()]. *)
Fixpoint py_upper (s : string) : string :=
  match s with
  | EmptyString => EmptyString
  | String c s' => String (upper_ascii c) (py_upper s')
  end.

(** [sub in s] for two strings. *)
Fixpoint str_contains (sub s : string) : bool :=
  (prefix sub s
   || match s with
      | EmptyString => false
      | String _ s' => str_contains sub s'
      end)%bool.

(** [name.rfind('.')], scanning from position [pos]. *)
Fixpoint rfind_dot (name : string) (pos : nat) (found : option nat)
  : option nat :=
  match name with
  | EmptyString => found
  | String c rest =>
      rfind_dot rest (S pos) (if Ascii.eqb c "." then Some pos else found)
  end.

(** [pathlib.PurePath.stem] of a final path component: the name without its
    last suffix, a leading or trailing dot not counting as one. *)
Definition stem (name : string) : string :=
  match rfind_dot name 0 None with
  | Some i =>
      if (Nat.ltb 0 i && Nat.ltb i (String.length name - 1))%bool
      then substring 0 i name
      else name
  | None => name
  end.

(** [x in l] for a string and a list of strings. *)
Definition str_in (x : string) (l : list string) : bool :=
  existsb (String.eqb x) l.

(* ================================================================== *)
(** * Decoded JSON and Python's dynamic access                         *)
(* ================================================================== *)

(** What [json.loads] returns. A dict is kept as its items in insertion
    order, its keys pairwise distinct. *)
#[local] Unset Elimination Schemes.
Inductive json : Type :=
| JNull
| JBool (b : bool)
| JInt (z : Z)
| JFloat (f : f64)
| JStr (s : string)
| JList (l : list json)
| JDict (items : list (string * json)).
#[local] Set Elimination Schemes.

Fixpoint assoc {A : Type} (k : string) (items : list (string * A))
  : option A :=
  match items with
  | [] => None
  | (k', v) :: rest => if String.eqb k k' then Some v else assoc k rest
  end.

(** [v[key]] with a string key. *)
Definition getitem (v : json) (key : string) : result json :=
  match v with
  | JDict items =>
      match assoc key items with
      | Some x => Ok x
      | None => Raise KeyError
      end
  | _ => Raise TypeError
  end.

(** [v[0]]. *)
Definition getitem0 (v : json) : result json :=
  match v with
  | JList l => py_index l 0
  | JStr s =>
      match s with
      | EmptyString => Raise IndexError
      | String c _ => Ok (JStr (String c EmptyString))
      end
  | JDict _ => Raise KeyError
  | _ => Raise TypeError
  end.

(** [iter(v)], fully listed. *)
Definition py_iter (v : json) : result (list json) :=
  match v with
  | JList l => Ok l
  | JDict items => Ok (map (fun kv => JStr (fst kv)) items)
  | JStr s =>
      Ok (map (fun c => JStr (String c EmptyString)) (list_ascii_of_string s))
  | _ => Raise TypeError
  end.

(** [v.values()]. *)
Definition py_values (v : json) : result (list json) :=
  match v with
  | JDict items => Ok (map snd items)
  | _ => Raise AttributeError
  end.

(** [v.upper()]. *)
Definition json_upper (v : json) : result string :=
  match v with
  | JStr s => Ok (py_upper s)
  | _ => Raise AttributeError
  end.

(** [v == s] for a string literal [s]. *)
Definition json_eq_str (v : json) (s : string) : bool :=
  match v with
  | JStr s' => String.eqb s' s
  | _ => false
  end.

(** [v in l] for a list [l] of string literals. *)
Definition json_in_strs (v : json) (l : list string) : bool :=
  existsb (json_eq_str v) l.

(** [s in v] for a string literal [s]. *)
Definition str_in_json (s : string) (v : json) : result bool :=
  match v with
  | JStr s' => Ok (str_contains s s')
  | JList l => Ok (existsb (fun x => json_eq_str x s) l)
  | JDict items => Ok (existsb (fun kv => String.eqb (fst kv) s) items)
  | _ => Raise TypeError
  end.

(** [float(z)] for a Python integer: the nearest binary64 value, ties to
    even, and [OverflowError] ("int too large to convert to float") when
    that rounding leaves the finite range, that is from 2^1024 - 2^970 on
    in absolute value. *)
Definition float_of_int (z : Z) : result f64 :=
  match f64_of_int z with
  | S754_infinity _ => Raise OverflowError
  | f => Ok f
  end.

(** A JSON number used in float arithmetic, where Python converts an
    integer operand as [float] does. *)
Definition json_number (v : json) : result f64 :=
  match v with
  | JInt z => float_of_int z
  | JFloat f => Ok f
  | JBool b => float_of_int (if b then 1 else 0)
  | _ => Raise TypeError
  end.

(** Python's [float(str)] is a builtin outside the repository. *)
Class Builtins : Type := {
  float_of_str : string -> option f64
}.

(** [float(v)]. A float is returned as it is, infinities and NaN
    included. *)
Definition py_float {B : Builtins} (v : json) : result f64 :=
  match v with
  | JStr s =>
      match float_of_str s with
      | Some f => Ok f
      | None => Raise (ValueError InvalidLiteral)
      end
  | JInt z => float_of_int z
  | JBool b => float_of_int (if b then 1 else 0)
  | JFloat f => Ok f
  | _ => Raise TypeError
  end.

(** A lazy iterator such as [filter(pred, l)] or a generator expression:
    the items it produces, an exception raised while producing one taking
    that item's place and ending the list. *)
Definition lazy (A : Type) : Type := list (result A).

Fixpoint py_filter {A : Type} (pred : A -> result bool) (l : list A)
  : lazy A :=
  match l with
  | [] => []
  | a :: l' =>
      match pred a with
      | Ok true => Ok a :: py_filter pred l'
      | Ok false => py_filter pred l'
      | Raise e => [Raise e]
      end
  end.

(** [next(it)]. *)
Definition py_next {A : Type} (it : lazy A) : result A :=
  match it with
  | [] => Raise StopIteration
  | r :: _ => r
  end.

(** [for x in it: acc.append(body(x))]. *)
Fixpoint lazy_map {A B : Type} (body : A -> result B) (it : lazy A)
  : result (list B) :=
  match it with
  | [] => Ok []
  | Raise e :: _ => Raise e
  | Ok a :: it' => b <- body a ;; bs <- lazy_map body it' ;; Ok (b :: bs)
  end.

(** [try: body except StopIteration: handler]. *)
Definition except_StopIteration {A : Type} (body handler : result A)
  : result A :=
  match body with
  | Raise StopIteration => handler
  | r => r
  end.

Fixpoint map_result {A B : Type} (f : A -> result B) (l : list A)
  : result (list B) :=
  match l with
  | [] => Ok []
  | a :: l' => b <- f a ;; bs <- map_result f l' ;; Ok (b :: bs)
  end.

(* ================================================================== *)
(** * Grid loader                                                      *)
(* ================================================================== *)

(** The text of a grid file after decompression: its lines split at the
    delimiter, a cell that does not read as a number being [None]. *)
Definition csv_file : Type := list (list (option f64)).

(** What [numpy.loadtxt] returns: a vector when the text has a single row or
    a single column (or nothing at all), a matrix otherwise. *)
Inductive ndarray : Type :=
| Array1 (v : list f64)
| Array2 (rows : list (list f64)) (ncols : nat).

Fixpoint all_some {A : Type} (l : list (option A)) : option (list A) :=
  match l with
  | [] => Some []
  | None :: _ => None
  | Some a :: l' =>
      match all_some l' with
      | Some r => Some (a :: r)
      | None => None
      end
  end.

Definition is_blank {A : Type} (row : list A) : bool :=
  match row with
  | [] => true
  | _ => false
  end.

(** [np.loadtxt(file, delimiter=',')]: blank lines are skipped, a cell that
    is no number or a row of another length is a [ValueError]. *)
Definition loadtxt (file : csv_file) : result ndarray :=
  match all_some (map all_some (filter (fun r => negb (is_blank r)) file)) with
  | None => Raise (ValueError MalformedTable)
  | Some [] => Ok (Array1 [])
  | Some (r :: rest) =>
      if forallb (fun r' => Nat.eqb (length r') (length r)) rest
      then match rest, r with
           | [], _ => Ok (Array1 r)
           | _, [_] => Ok (Array1 (concat (r :: rest)))
           | _, _ => Ok (Array2 (r :: rest) (length r))
           end
      else Raise (ValueError MalformedTable)
  end.

(** [np.arange(n) * step + start]. *)
Definition arange_affine (n : nat) (step start : f64) : list f64 :=
  map (fun i => f64_add (f64_mul (f64_of_int (Z.of_nat i)) step) start)
      (seq 0 n).

(** Lines 404-418. Indexing a vector twice, as [compact_diagram[0][0]] does
    on a one-dimensional array, is an [IndexError]. *)
Definition _load_interpolated_csv (file_path : csv_file)
  (invert_y_axis : bool) : result (list f64 * list f64 * Tensor) :=
  compact_diagram <- loadtxt file_path ;;
  match compact_diagram with
  | Array1 _ => Raise IndexError
  | Array2 rows ncols =>
      row0 <- py_index rows 0 ;;
      x_start <- py_index row0 0 ;;
      y_start <- py_index row0 1 ;;
      step <- py_index row0 2 ;;
      let values := tl rows in
      let values := if invert_y_axis then rev values else values in
      let x := arange_affine ncols step x_start in
      let y := arange_affine (length values) step y_start in
      Ok (x, y, mkTensor (map (map f32_of_f64) values) ncols)
  end.

(* ================================================================== *)
(** * Annotation loader                                                *)
(* ================================================================== *)

(** [Diagram._coord_to_volt] is inherited from [datasets.diagram.Diagram],
    which is not among the source files; it maps pixel coordinates to volts
    given the axis extremes, the pixel size, the snap margin and the
    inversion flag. *)
Class DiagramBase : Type := {
  _coord_to_volt : list f64 -> f64 -> f64 -> f64 -> Z -> bool -> list f64
}.

Section Annotations.
Context {CR : ChargeRegimes} {DB : DiagramBase}.

(** The generator expression [(p[axis] for p in points)], consumed as
    numbers. *)
Definition pixel_coords (points : list json) (axis : string)
  : result (list f64) :=
  map_result (fun p => c <- getitem p axis ;; json_number c) points.

(** The two [_coord_to_volt] calls and the [zip] of lines 436-439 and
    461-465, for the point list stored under [key]. *)
Definition volt_coords (obj : json) (key : string) (x y : list f64)
  (pixel_size : f64) (snap : Z) : result (list (f64 * f64)) :=
  pts_x <- getitem obj key ;;
  it_x <- py_iter pts_x ;;
  x_first <- py_index x 0 ;;
  x_last <- py_index x (-1) ;;
  px <- pixel_coords it_x "x" ;;
  let obj_x := _coord_to_volt px x_first x_last pixel_size snap false in
  pts_y <- getitem obj key ;;
  it_y <- py_iter pts_y ;;
  y_first <- py_index y 0 ;;
  y_last <- py_index y (-1) ;;
  py <- pixel_coords it_y "y" ;;
  let obj_y := _coord_to_volt py y_first y_last pixel_size snap true in
  Ok (combine obj_x obj_y).

(** Lines 434-442. *)
Definition _load_lines_annotations (lines : lazy json) (x y : list f64)
  (pixel_size : f64) (snap : Z) : result (list LineString) :=
  lazy_map (fun line =>
    coords <- volt_coords line "line" x y pixel_size snap ;;
    new_LineString coords) lines.

(** [ChargeRegime(v)]. *)
Definition ChargeRegime_call (v : json) : result ChargeRegime :=
  match v with
  | JStr s =>
      match ChargeRegime_of_value s with
      | Some r => Ok r
      | None => Raise (ValueError NotAMember)
      end
  | _ => Raise (ValueError NotAMember)
  end.

(** The body of the loop of lines 460-466, for one raw record. *)
Definition load_charge_area (x y : list f64) (pixel_size : f64) (snap : Z)
  (area : json) : result (ChargeRegime * Polygon) :=
  coords <- volt_coords area "polygon" x y pixel_size snap ;;
  area_obj <- new_Polygon coords ;;
  area_name <- getitem area "name" ;;
  regime <- ChargeRegime_call area_name ;;
  Ok (regime, area_obj).

(** Lines 459-468. *)
Definition _load_charge_annotations (charge_areas : lazy json)
  (x y : list f64) (pixel_size : f64) (snap : Z)
  : result (list (ChargeRegime * Polygon)) :=
  lazy_map (load_charge_area x y pixel_size snap) charge_areas.

End Annotations.

(* ================================================================== *)
(** * Diagram-set loader                                               *)
(* ================================================================== *)

(** One child that [zip_dir.iterdir()] lists: its final path component and
    the text [gzip.open] reads from it ([None] when it cannot be opened or
    decompressed). *)
Record zip_entry : Type := mkZipEntry {
  entry_name : string;
  entry_file : option csv_file
}.

(** The archive, as the children found under each directory path. *)
Definition ZipFile : Type := list (string * list zip_entry).

Fixpoint ends_with_slash (s : string) : bool :=
  match s with
  | EmptyString => false
  | String c EmptyString => Ascii.eqb c "/"
  | String _ rest => ends_with_slash rest
  end.

(** [zipfile.Path.is_dir], which CPython defines as
    [not self.at or self.at.endswith("/")]: it looks at the path only. *)
Definition is_dir (at_path : string) : bool :=
  (String.eqb at_path "" || ends_with_slash at_path)%bool.

(** [zipfile.Path.iterdir]: the children of [at_path], none when the
    archive has nothing under it. *)
Definition iterdir (archive : ZipFile) (at_path : string) : list zip_entry :=
  match assoc at_path archive with
  | Some children => children
  | None => []
  end.

(** Lines 268-274. A line of the label file is [None] when it is no JSON
    document. An identifier that is no string is hashable or not; when it is,
    no later string lookup can find it, and it is left out. *)
Definition load_labels (annotations_file : list (option json))
  : result (list (string * json)) :=
  for_each annotations_file (fun labels json_row =>
    match json_row with
    | None => Raise (ValueError InvalidJSON)
    | Some label_data =>
        data_row <- getitem label_data "data_row" ;;
        diagram_id <- getitem data_row "external_id" ;;
        match diagram_id with
        | JStr s => Ok ((s, label_data) :: labels)
        | JList _ | JDict _ => Raise TypeError
        | _ => Ok labels
        end
    end) [].

(** [next(filter(lambda l: l['name'] == name, items))]. *)
Definition find_named (name : string) (items : json) : result json :=
  it <- py_iter items ;;
  py_next (py_filter (fun l => n <- getitem l "name" ;;
                               Ok (json_eq_str n name)) it).

(** Lines 307-309. *)
Definition project_annotations (label_data : json) : result json :=
  projects <- getitem label_data "projects" ;;
  vals <- py_values projects ;;
  project <- py_next (py_filter (fun l => n <- getitem l "name" ;;
                                          u <- json_upper n ;;
                                          Ok (String.eqb u "QDSD")) vals) ;;
  project_labels <- getitem project "labels" ;;
  first_label <- getitem0 project_labels ;;
  getitem first_label "annotations".

(** Lines 318-325. *)
Definition classifications {B : Builtins} (current_labels : json)
  : result (f64 * bool) :=
  cls <- getitem current_labels "classifications" ;;
  pixel_size_volt <- find_named "pixel_size_volt" cls ;;
  text_answer <- getitem pixel_size_volt "text_answer" ;;
  content <- getitem text_answer "content" ;;
  label_pixel_size <- py_float content ;;
  cls' <- getitem current_labels "classifications" ;;
  nb_dot <- find_named "nb_dot" cls' ;;
  radio_answer <- getitem nb_dot "radio_answer" ;;
  nb_dots <- getitem radio_answer "name" ;;
  Ok (label_pixel_size, json_eq_str nb_dots "single").

Section Loader.
Context {CR : ChargeRegimes} {DB : DiagramBase} {B : Builtins}.

(** The local variables that outlive one iteration of the loop. *)
Record load_state : Type := mkLoadState {
  diagrams : list DiagramOffline;
  nb_no_label : nat;
  nb_excluded : nat;
  nb_filtered : nat
}.

Definition no_label (st : load_state) : load_state :=
  mkLoadState (diagrams st) (S (nb_no_label st)) (nb_excluded st)
              (nb_filtered st).

Definition excluded (st : load_state) : load_state :=
  mkLoadState (diagrams st) (nb_no_label st) (S (nb_excluded st))
              (nb_filtered st).

Definition filtered (st : load_state) : load_state :=
  mkLoadState (diagrams st) (nb_no_label st) (nb_excluded st)
              (S (nb_filtered st)).

Definition append_diagram (st : load_state) (d : DiagramOffline)
  : load_state :=
  mkLoadState (diagrams st ++ [d])%list (nb_no_label st) (nb_excluded st)
              (nb_filtered st).

(** [white_list and not (file_basename in white_list)]: an absent and an
    empty list are both falsy. *)
Definition not_in_white_list (white_list : option (list string))
  (file_basename : string) : bool :=
  match white_list with
  | None => false
  | Some [] => false
  | Some l => negb (str_in file_basename l)
  end.

(** Lines 338-375: decoding the grid, loading the annotations and building
    the diagram, once the filters are passed. *)
Definition load_one (settings : Settings) (load_lines load_areas : bool)
  (st : load_state) (diagram_name : zip_entry) (file_basename : string)
  (current_labels : json) (label_pixel_size : f64) : result load_state :=
  match entry_file diagram_name with
  | None => Raise OSError
  | Some diagram_file =>
      '(x, y, values) <- _load_interpolated_csv diagram_file true ;;
      lines <-
        (if load_lines then
           let line_labels :=
             (["line_1"; "line_2"]
              ++ (if load_parasitic_lines settings then ["line_parasite"]
                  else []))%list in
           objects <- getitem current_labels "objects" ;;
           it <- py_iter objects ;;
           transition_lines <- _load_lines_annotations
             (py_filter (fun l => n <- getitem l "name" ;;
                                  Ok (json_in_strs n line_labels)) it)
             x y label_pixel_size 1 ;;
           Ok (Some transition_lines)
         else Ok None) ;;
      match lines with
      | Some [] => Ok (no_label st)
      | transition_lines =>
          areas <-
            (if load_areas then
               objects <- getitem current_labels "objects" ;;
               it <- py_iter objects ;;
               charge_area <- _load_charge_annotations
                 (py_filter (fun l => n <- getitem l "name" ;;
                                      str_in_json "electron" n) it)
                 x y label_pixel_size 1 ;;
               Ok (Some charge_area)
             else Ok None) ;;
          match areas with
          | Some [] => Ok (no_label st)
          | charge_area =>
              Ok (append_diagram st
                    (__init__ file_basename x y values transition_lines
                              charge_area))
          end
      end
  end.

(** The body of the loop, lines 293-377. *)
Definition load_entry (settings : Settings) (labels : list (string * json))
  (single_dot load_lines load_areas : bool)
  (white_list : option (list string)) (st : load_state)
  (diagram_name : zip_entry) : result load_state :=
  let file_basename := stem (entry_name diagram_name) in
  if not_in_white_list white_list file_basename then Ok (excluded st)
  else
    match assoc (file_basename ++ ".png") labels with
    | None => Ok (no_label st)
    | Some label_data =>
        match project_annotations label_data with
        | Raise StopIteration => Ok (no_label st)
        | Raise e => Raise e
        | Ok current_labels =>
            match classifications current_labels with
            | Raise StopIteration => Ok (no_label st)
            | Raise e => Raise e
            | Ok (label_pixel_size, is_single_dot) =>
                if negb (Bool.eqb single_dot is_single_dot)
                then Ok (filtered st)
                else load_one settings load_lines load_areas st diagram_name
                              file_basename current_labels label_pixel_size
            end
        end
    end.

(** Lines 268-391, with the three counters that the closing log lines
    report kept beside the list that is returned. [pixel_size_mV] is the
    text of [pixel_size * 1000] as the f-string of line 280 formats it. *)
Definition load_diagrams_run (settings : Settings)
  (pixel_size_mV research_group : string) (diagrams_path : ZipFile)
  (labels_path : list (option json))
  (single_dot load_lines load_areas : bool)
  (white_list : option (list string)) : result load_state :=
  labels <- load_labels labels_path ;;
  let in_zip_path := pixel_size_mV ++ "mV/" ++ research_group ++ "/" in
  if negb (is_dir in_zip_path) then Raise (ValueError FolderNotFound)
  else
    for_each (iterdir diagrams_path in_zip_path)
      (load_entry settings labels single_dot load_lines load_areas white_list)
      (mkLoadState [] 0 0 0).

(** What the caller receives. *)
Definition load_diagrams (settings : Settings)
  (pixel_size_mV research_group : string) (diagrams_path : ZipFile)
  (labels_path : list (option json))
  (single_dot load_lines load_areas : bool)
  (white_list : option (list string)) : result (list DiagramOffline) :=
  st <- load_diagrams_run settings pixel_size_mV research_group diagrams_path
          labels_path single_dot load_lines load_areas white_list ;;
  Ok (diagrams st).

(** The conditions under which the loop skips a file without reading its
    grid: it is outside the whitelist; or no label record, no project
    record or no classification is found for it; or its dot count is not
    the requested one. *)
Definition skip_reason (labels : list (string * json)) (single_dot : bool)
  (white_list : option (list string)) (diagram_name : zip_entry) : Prop :=
  let file_basename := stem (entry_name diagram_name) in
  not_in_white_list white_list file_basename = true
  \/ assoc (file_basename ++ ".png") labels = None
  \/ exists label_data,
       assoc (file_basename ++ ".png") labels = Some label_data
       /\ (project_annotations label_data = Raise StopIteration
           \/ exists current_labels,
                project_annotations label_data = Ok current_labels
                /\ (classifications current_labels = Raise StopIteration
                    \/ exists label_pixel_size is_single_dot,
                         classifications current_labels
                         = Ok (label_pixel_size, is_single_dot)
                         /\ is_single_dot <> single_dot)).

End Loader.

(* ================================================================== *)
(** * Reference instances of the collaborators, for concrete runs      *)
(* ================================================================== *)

Local Open Scope Z_scope.

(** ** Planar geometry in exact arithmetic *)

(** A finite binary64 value as an integer multiple of 2^-1074 (the smallest
    positive binary64 value), so that sign tests are exact. *)
Definition exact (x : f64) : option Z :=
  match dyadic x with
  | Some (m, e) => Some (m * 2 ^ (e + 1074))
  | None => None
  end.

Definition exact_point (p : f64 * f64) : option (Z * Z) :=
  match exact (fst p), exact (snd p) with
  | Some a, Some b => Some (a, b)
  | _, _ => None
  end.

(** Twice the signed area of the triangle a, b, c. *)
Definition orient (a b c : Z * Z) : Z :=
  (fst b - fst a) * (snd c - snd a) - (snd b - snd a) * (fst c - fst a).

Definition within (lo hi v : Z) : bool :=
  (Z.min lo hi <=? v) && (v <=? Z.max lo hi).

Definition on_segment (a b p : Z * Z) : bool :=
  (orient a b p =? 0) && within (fst a) (fst b) (fst p)
  && within (snd a) (snd b) (snd p).

Definition segments_meet (a b c d : Z * Z) : bool :=
  let o1 := Z.sgn (orient a b c) in
  let o2 := Z.sgn (orient a b d) in
  let o3 := Z.sgn (orient c d a) in
  let o4 := Z.sgn (orient c d b) in
  (negb (o1 =? o2) && negb (o3 =? o4) && negb (o1 * o2 =? 0)
   && negb (o3 * o4 =? 0))
  || on_segment a b c || on_segment a b d
  || on_segment c d a || on_segment c d b.

(** The segments joining consecutive points of a list. *)
Fixpoint segments (pts : list (Z * Z)) : list ((Z * Z) * (Z * Z)) :=
  match pts with
  | a :: (b :: _) as rest => (a, b) :: segments rest
  | _ => []
  end.

(** The edges of the ring through the points, closing edge included. *)
Definition ring_edges (pts : list (Z * Z)) : list ((Z * Z) * (Z * Z)) :=
  match pts with
  | [] => []
  | a :: _ => segments (pts ++ [a])
  end.

(** Does the ray from [p] towards larger x cross the edge (a, b)? *)
Definition ray_crosses (p : Z * Z) (edge : (Z * Z) * (Z * Z)) : bool :=
  let '(a, b) := edge in
  if (snd p <? snd a) && (snd b <=? snd p) then 0 <? orient b a p
  else if (snd p <? snd b) && (snd a <=? snd p) then 0 <? orient a b p
  else false.

(** Strictly inside the ring: off every edge, and an odd number of edges
    crossed by the ray. *)
Definition strictly_inside (ring : list (Z * Z)) (p : Z * Z) : bool :=
  let edges := ring_edges ring in
  negb (existsb (fun e => on_segment (fst e) (snd e) p) edges)
  && Nat.odd (length (filter (ray_crosses p) edges)).

Definition exact_contains (area : Polygon) (point : Point) : bool :=
  match all_some (map exact_point (shell area)), exact_point point with
  | Some ring, Some p => strictly_inside ring p
  | _, _ => false
  end.

Definition exact_intersects (line : LineString) (area : Polygon) : bool :=
  match all_some (map exact_point (line_coords line)),
        all_some (map exact_point (shell area)) with
  | Some pts, Some ring =>
      existsb (fun s =>
                 existsb (fun e => segments_meet (fst s) (snd s)
                                                 (fst e) (snd e))
                         (ring_edges ring))
              (segments pts)
      || match pts with
         | p :: _ => strictly_inside ring p
         | [] => false
         end
  | _, _ => false
  end.

Definition exact_geometry : Shapely :=
  {| contains := exact_contains; intersects := exact_intersects |}.

(** ** An enumeration of charge regimes *)

(** Modelled from the spec: the enumeration [ChargeRegime] of
    [classes.data_structures], "an enumerated tag (including an explicit
    UNKNOWN sentinel) parsed from a string label"; the member values are
    the names the loader selects with ['electron' in name]. *)
Inductive electron_regime : Type :=
| REGIME_UNKNOWN
| ELECTRON_0
| ELECTRON_1
| ELECTRON_2.

Definition electron_regime_of_value (s : string) : option electron_regime :=
  if String.eqb s "unknown" then Some REGIME_UNKNOWN
  else if String.eqb s "0_electron" then Some ELECTRON_0
  else if String.eqb s "1_electron" then Some ELECTRON_1
  else if String.eqb s "2_electrons" then Some ELECTRON_2
  else None.

Definition electron_regimes : ChargeRegimes :=
  {| ChargeRegime := electron_regime;
     UNKNOWN := REGIME_UNKNOWN;
     ChargeRegime_of_value := electron_regime_of_value |}.

(** ** Decimal literals *)

Definition digit_of (c : ascii) : option Z :=
  let n := nat_of_ascii c in
  if (Nat.leb 48 n && Nat.leb n 57)%bool then Some (Z.of_nat (n - 48))
  else None.

(** The digits of [s] read in base ten, after [acc], with their number. *)
Fixpoint read_digits (s : string) (acc : Z) (count : Z)
  : option (Z * Z * string) :=
  match s with
  | EmptyString => Some (acc, count, EmptyString)
  | String c rest =>
      match digit_of c with
      | Some d => read_digits rest (10 * acc + d) (count + 1)
      | None => Some (acc, count, s)
      end
  end.

(** [float(s)] for the plain literals [digits] and [digits.digits], with an
    optional minus sign; the other spellings Python reads are refused. *)
Definition decimal_float (s : string) : option f64 :=
  let '(neg, body) :=
    match s with
    | String "-" rest => (true, rest)
    | _ => (false, s)
    end in
  match read_digits body 0 0 with
  | Some (int_part, n, rest) =>
      if n =? 0 then None
      else
        let sign := if neg then (-1) else 1 in
        match rest with
        | EmptyString => Some (f64_of_int (sign * int_part))
        | String "." frac =>
            match read_digits frac int_part 0 with
            | Some (numerator, k, EmptyString) =>
                Some (SFdiv 53 1024 (f64_of_int (sign * numerator))
                            (f64_of_int (10 ^ k)))
            | _ => None
            end
        | _ => None
        end
  | None => None
  end.

Definition decimal_builtins : Builtins :=
  {| float_of_str := decimal_float |}.

(** ** Pixel-to-volt conversion *)

Definition f64_sub : f64 -> f64 -> f64 := SFsub 53 1024.
Definition f64_leb : f64 -> f64 -> bool := SFleb.

(** Modelled from the spec: [Diagram._coord_to_volt] of
    [datasets/diagram.py]: "volt = pixel * pixel_size_volt + axis_min_volt
    (or the axis-max-relative formula when invert is set)", then "any
    converted coordinate within snap_margin_px * pixel_size_volt of either
    axis extreme is clamped exactly to that extreme". *)
Definition spec_coord_to_volt (coord : list f64) (min_v max_v : f64)
  (value_step : f64) (snap : Z) (is_y : bool) : list f64 :=
  let margin := f64_mul (f64_of_int snap) value_step in
  map (fun p =>
         let volt :=
           if is_y then f64_sub max_v (f64_mul p value_step)
           else f64_add (f64_mul p value_step) min_v in
         if f64_leb (SFabs (f64_sub volt min_v)) margin then min_v
         else if f64_leb (SFabs (f64_sub volt max_v)) margin then max_v
         else volt)
      coord.

Definition spec_diagram_base : DiagramBase :=
  {| _coord_to_volt := spec_coord_to_volt |}.

(** ** Sample data *)

Section Samples.
#[local] Existing Instances exact_geometry electron_regimes
  spec_diagram_base.

(** The axis 0, 1, ..., n-1 (volts). *)
Definition unit_axis (n : nat) : list f64 :=
  map (fun i => f64_of_int (Z.of_nat i)) (seq 0 n).

(** An h-by-w grid of zeros. *)
Definition zeros (h w : nat) : Tensor :=
  mkTensor (repeat (repeat (S754_zero false) w) h) w.

Definition volt_point (x y : Z) : f64 * f64 := (f64_of_int x, f64_of_int y).

(** The axis-parallel square with corners (lo, lo) and (hi, hi). *)
Definition square (lo hi : Z) : Polygon :=
  mkPolygon [volt_point lo lo; volt_point hi lo; volt_point hi hi;
             volt_point lo hi].

(** A diagram of [n] by [n] pixels over the unit axes, with one transition
    line from (2, 0) to (2, n) and two nested charge regions. *)
Definition sample_diagram (n : nat) : DiagramOffline :=
  __init__ "sample" (unit_axis n) (unit_axis n) (zeros n n)
    (Some [mkLineString [volt_point 2 0; volt_point 2 (Z.of_nat n)]])
    (Some [(ELECTRON_1, square 0 4); (ELECTRON_2, square 1 6)]).

(** The same grid and axes without any annotation. *)
Definition bare_diagram (n : nat) : DiagramOffline :=
  __init__ "bare" (unit_axis n) (unit_axis n) (zeros n n) None None.

Definition no_ewma : Settings := mkSettings false false.
Definition with_ewma : Settings := mkSettings true false.

(** The first window yielded with the extended window on. *)
Definition ewma_item : patch_item :=
  nth 0 (yielded (get_patches with_ewma (sample_diagram 21) (5, 10) (0, 0)
                              (1, 1)))
      (mkPatchItem (0, 0) (zeros 0 0) false).

(** The second window yielded with the extended window off. *)
Definition plain_second_item : patch_item :=
  nth 1 (yielded (get_patches no_ewma (sample_diagram 21) (10, 10) (0, 0)
                              (1, 1)))
      (mkPatchItem (0, 0) (zeros 0 0) false).

(** 1/10 and 1/1000 rounded to binary64. *)
Definition tenth : f64 := SFdiv 53 1024 (f64_of_int 1) (f64_of_int 10).
Definition milli : f64 := SFdiv 53 1024 (f64_of_int 1) (f64_of_int 1000).

(** A grid file: origin (0, 0), step 0.001, three rows of four values. *)
Definition sample_matrix : list (list f64) :=
  [[f64_of_int 1; f64_of_int 2; f64_of_int 3; f64_of_int 4];
   [f64_of_int 5; f64_of_int 6; f64_of_int 7; f64_of_int 8];
   [tenth; f64_of_int 10; f64_of_int 11; f64_of_int 12]].

Definition sample_csv : csv_file :=
  map (map Some)
      ([S754_zero false; S754_zero false; milli; S754_zero false]
       :: sample_matrix).

Definition pixel (x y : Z) : json := JDict [("x", JInt x); ("y", JInt y)].

Definition classification_text (name content : string) : json :=
  JDict [("name", JStr name);
         ("text_answer", JDict [("content", JStr content)])].

Definition classification_radio (name answer : string) : json :=
  JDict [("name", JStr name);
         ("radio_answer", JDict [("name", JStr answer)])].

(** The annotation objects of the sample records: one transition line and
    one charge area. *)
Definition sample_objects : json :=
  JList [JDict [("name", JStr "line_1");
                ("line", JList [pixel 1 0; pixel 2 2])];
         JDict [("name", JStr "1_electron");
                ("polygon", JList [pixel 0 0; pixel 3 0; pixel 3 2])]].

(** One line of the label file: the record of [external_id] with a single
    project named [project] holding the given classifications. *)
Definition label_row (external_id project : string)
  (classification_list : list json) : json :=
  let annotations :=
    JDict [("classifications", JList classification_list);
           ("objects", sample_objects)] in
  let project_record :=
    JDict [("name", JStr project);
           ("labels", JList [JDict [("annotations", annotations)]])] in
  JDict [("data_row", JDict [("external_id", JStr external_id)]);
         ("projects", JDict [("p0", project_record)])].

(** A complete record, and one without the pixel_size_volt field. *)
Definition complete_row (external_id : string) : json :=
  label_row external_id "qdsd"
    [classification_text "pixel_size_volt" "0.001";
     classification_radio "nb_dot" "single"].

Definition row_without_pixel_size (external_id : string) : json :=
  label_row external_id "qdsd" [classification_radio "nb_dot" "double"].

Definition sample_labels : list (option json) :=
  [Some (complete_row "d1.png"); Some (row_without_pixel_size "d2.png")].

Definition sample_archive : ZipFile :=
  [("1.0mV/louis/",
    [mkZipEntry "d1.csv" (Some sample_csv);
     mkZipEntry "d2.csv" (Some sample_csv);
     mkZipEntry "d3.csv" (Some sample_csv)])].

(** The label index [load_labels] builds from [sample_labels]: the latest
    record first. *)
Definition sample_index : list (string * json) :=
  [("d2.png", row_without_pixel_size "d2.png");
   ("d1.png", complete_row "d1.png")].

(** Two raw charge-area records, and the axes they are mapped on. *)
Definition sample_area_records : list json :=
  [JDict [("name", JStr "1_electron");
          ("polygon", JList [pixel 0 0; pixel 3 0; pixel 3 2])];
   JDict [("name", JStr "2_electrons");
          ("polygon", JList [pixel 0 2; pixel 3 2; pixel 0 0])]].

Definition sample_x_axis : list f64 := arange_affine 4 milli (S754_zero false).
Definition sample_y_axis : list f64 := arange_affine 3 milli (S754_zero false).

(** The regions the loader builds from the two records. *)
Definition sample_regions : list (electron_regime * Polygon) :=
  match _load_charge_annotations (map Ok sample_area_records) sample_x_axis
          sample_y_axis milli 1 with
  | Ok regions => regions
  | Raise _ => []
  end.

End Samples.

(* ================================================================== *)
(** * Single patches and normalization                                 *)
(* ================================================================== *)

Local Open Scope string_scope.
Local Open Scope Z_scope.

(** The outcome of a call into torch: beside the exceptions of [exn],
    [patch.min()] on a tensor without elements raises a [RuntimeError]. *)
Inductive torch_result (A : Type) : Type :=
| Returns (a : A)
| Throws (e : exn)
| RuntimeError.
Arguments Returns {A} a.
Arguments Throws {A} e.
Arguments RuntimeError {A}.

(** The tensor arithmetic the code calls; its implementation is outside
    the repository. [tensor_min] and [tensor_max] are [t.min()] and
    [t.max()] on a tensor that has elements, [f32_sub] and [f32_div] the
    entry-wise operations with a zero-dimensional tensor operand,
    [f32_sub_scalar] and [f32_div_scalar] those with a Python float. *)
Class Torch : Type := {
  tensor_min : list (list f32) -> f32;
  tensor_max : list (list f32) -> f32;
  f32_sub : f32 -> f32 -> f32;
  f32_div : f32 -> f32 -> f32;
  f32_sub_scalar : f32 -> f64 -> f32;
  f32_div_scalar : f32 -> f64 -> f32
}.

(** An entry-wise operation on a tensor. *)
Definition tensor_map (f : f32 -> f32) (t : Tensor) : Tensor :=
  mkTensor (map (map f) (cells t)) (width t).

(** [t.numel() == 0]. *)
Definition no_element (t : Tensor) : bool :=
  match concat (cells t) with
  | [] => true
  | _ => false
  end.

Section Patches.
Context {CR : ChargeRegimes} {T : Torch}.

(** Lines 75-90. [normalization] is [settings.normalization], a string or
    [None]. *)
Definition get_patch (normalization : option string)
  (self : DiagramOffline) (coordinate patch_size : Z * Z)
  (normalized : bool) : torch_result Tensor :=
  let '(coord_x, coord_y) := coordinate in
  let '(size_x, size_y) := patch_size in
  let slice_of := fun t =>
    tensor_slice t coord_y (coord_y + size_y) coord_x (coord_x + size_x) in
  let mode :=
    match normalization with
    | Some s => s
    | None => ""
    end in
  if normalized && String.eqb mode "train-set" then
    match values_norm self with
    | None => Throws TypeError
    | Some norm => Returns (slice_of norm)
    end
  else if normalized && String.eqb mode "patch" then
    let patch := slice_of (values self) in
    if no_element patch then RuntimeError
    else
      let min_value := tensor_min (cells patch) in
      let max_value := tensor_max (cells patch) in
      Returns (tensor_map (fun v => f32_div (f32_sub v min_value)
                                            (f32_sub max_value min_value))
                          patch)
  else Returns (slice_of (values self)).

(** The assignment of lines 483-484 on one diagram. *)
Definition set_values_norm (min_value max_value : f64)
  (diagram : DiagramOffline) : DiagramOffline :=
  mkDiagramOffline (name diagram) (x_axes diagram) (y_axes diagram)
    (values diagram)
    (Some (tensor_map
             (fun v => f32_div_scalar (f32_sub_scalar v min_value)
                                      (f64_sub max_value min_value))
             (values diagram)))
    (transition_lines diagram) (charge_areas diagram).

(** Lines 477-484, the diagrams after the call standing for the in-place
    update. [load_normalization] is the outcome of the call of line 480,
    which is not made in the oracle mode. *)
Definition normalize_diagrams (autotuning_use_oracle : bool)
  (load_normalization : result (f64 * f64))
  (diagrams : list DiagramOffline) : result (list DiagramOffline) :=
  if autotuning_use_oracle then Ok diagrams
  else
    '(min_value, max_value) <- load_normalization ;;
    Ok (map (set_values_norm min_value max_value) diagrams).

End Patches.

(** ** What a load leaves behind *)

(** [l1] is [l2] with some elements left out, the others in their order. *)
Inductive subsequence {A : Type} : list A -> list A -> Prop :=
| subsequence_nil : subsequence [] []
| subsequence_skip (x : A) (l1 l2 : list A) :
    subsequence l1 l2 -> subsequence l1 (x :: l2)
| subsequence_take (x : A) (l1 l2 : list A) :
    subsequence l1 l2 -> subsequence (x :: l1) (x :: l2).

Section Loaded.
Context {CR : ChargeRegimes} {B : Builtins}.

(** The shape of a diagram that the loader builds: axes as long as the
    sides of a well-formed grid of at least one row and three columns, no
    normalized grid yet, and annotations present and non-empty exactly
    when they were asked for. *)
Definition well_loaded (load_lines load_areas : bool)
  (diagram : DiagramOffline) : Prop :=
  length (x_axes diagram) = width (values diagram)
  /\ length (y_axes diagram) = length (cells (values diagram))
  /\ tensor_wf (values diagram)
  /\ (3 <= width (values diagram))%nat
  /\ (1 <= length (cells (values diagram)))%nat
  /\ values_norm diagram = None
  /\ (if load_lines
      then exists ls, transition_lines diagram = Some ls /\ ls <> []
      else transition_lines diagram = None)
  /\ (if load_areas
      then exists areas, charge_areas diagram = Some areas /\ areas <> []
      else charge_areas diagram = None).

(** A file that passes the four filters of the loop: it is within the
    whitelist, and its label record holds the project's annotations with
    both classification fields and the requested dot count. *)
Definition selected (labels : list (string * json)) (single_dot : bool)
  (white_list : option (list string)) (diagram_name : zip_entry) : Prop :=
  let file_basename := stem (entry_name diagram_name) in
  not_in_white_list white_list file_basename = false
  /\ exists label_data current_labels label_pixel_size,
       assoc (file_basename ++ ".png") labels = Some label_data
       /\ project_annotations label_data = Ok current_labels
       /\ classifications current_labels = Ok (label_pixel_size, single_dot).

(** The files counted so far, one way or another. *)
Definition accounted (st : load_state) : nat :=
  (length (diagrams st) + nb_no_label st + nb_excluded st
   + nb_filtered st)%nat.

End Loaded.

(** Does the string hold a dot? *)
Fixpoint has_dot (s : string) : bool :=
  match s with
  | EmptyString => false
  | String c rest => (Ascii.eqb c "." || has_dot rest)%bool
  end.

(** ** Reference tensor arithmetic: IEEE binary32 *)

Definition ieee_min (a b : f32) : f32 :=
  match a, b with
  | S754_nan, _ | _, S754_nan => S754_nan
  | _, _ => if SFltb b a then b else a
  end.

Definition ieee_max (a b : f32) : f32 :=
  match a, b with
  | S754_nan, _ | _, S754_nan => S754_nan
  | _, _ => if SFltb a b then b else a
  end.

Definition reduce (op : f32 -> f32 -> f32) (rows : list (list f32)) : f32 :=
  match concat rows with
  | [] => S754_nan
  | v :: rest => fold_left op rest v
  end.

Definition ieee_torch : Torch :=
  {| tensor_min := reduce ieee_min;
     tensor_max := reduce ieee_max;
     f32_sub := SFsub 24 128;
     f32_div := SFdiv 24 128;
     f32_sub_scalar := fun v s => SFsub 24 128 v (f32_of_f64 s);
     f32_div_scalar := fun v s => SFdiv 24 128 v (f32_of_f64 s) |}.

(** ** More sample data *)

Section MoreSamples.
#[local] Existing Instances exact_geometry electron_regimes
  spec_diagram_base decimal_builtins ieee_torch.

(** A grid whose entry at row y, column x is 10*y + x. *)
Definition ramp (h w : nat) : Tensor :=
  mkTensor (map (fun y =>
                   map (fun x => f32_of_f64 (f64_of_int
                                               (Z.of_nat (10 * y + x))))
                       (seq 0 w))
                (seq 0 h)) w.

Definition ramp_diagram (n : nat) : DiagramOffline :=
  __init__ "ramp" (unit_axis n) (unit_axis n) (ramp n n)
    (Some [mkLineString [volt_point 2 0; volt_point 2 (Z.of_nat n)]])
    (Some [(ELECTRON_1, square 0 4)]).

(** A label record that cannot be indexed: it has no data_row. *)
Definition row_without_data_row : json :=
  JDict [("projects", JDict [])].

(** A charge-area record whose name is no charge regime. *)
Definition many_electrons_record : json :=
  JDict [("name", JStr "many_electrons");
         ("polygon", JList [pixel 0 0; pixel 3 0; pixel 3 2])].

(** The global statistics of a normalization: minimum 0, maximum 40. *)
Definition sample_statistics : f64 * f64 := (f64_of_int 0, f64_of_int 40).

Definition normalized_ramp : DiagramOffline :=
  set_values_norm (f64_of_int 0) (f64_of_int 40) (ramp_diagram 4).

(** The diagram that the sample archive gives for the file d1.csv. *)
Definition loaded_d1 : list DiagramOffline :=
  match load_diagrams no_ewma "1.0" "louis" sample_archive sample_labels
          true true true None with
  | Ok loaded => loaded
  | Raise _ => []
  end.

End MoreSamples.

(* ================================================================== *)
(** * Properties of the Python runtime model                           *)
(* ================================================================== *)

Local Open Scope list_scope.

Lemma py_index_nth {A : Type} (l : list A) (i : Z) (d : A) :
  0 <= i < Z.of_nat (length l) ->
  py_index l i = Ok (nth (Z.to_nat i) l d).
Proof.
  intros [Hlo Hhi]. unfold py_index.
  destruct (Z.ltb_spec i 0) as [Hneg | _]; [lia |].
  destruct (Z.leb_spec 0 i) as [_ | Hneg]; [| lia].
  destruct (Z.ltb_spec i (Z.of_nat (length l))) as [_ | Hge]; [| lia].
  cbn [andb].
  assert (Hn : (Z.to_nat i < length l)%nat) by lia.
  rewrite (nth_error_nth' l d Hn). reflexivity.
Qed.

Lemma py_index_out_of_range {A : Type} (l : list A) (i : Z) :
  Z.of_nat (length l) <= i \/ i < - Z.of_nat (length l) ->
  py_index l i = Raise IndexError.
Proof.
  intros Hout. unfold py_index.
  destruct (Z.ltb_spec i 0) as [Hneg | Hpos].
  - destruct (Z.leb_spec 0 (i + Z.of_nat (length l))) as [Hle | _];
      [| reflexivity].
    destruct (Z.ltb_spec (i + Z.of_nat (length l)) (Z.of_nat (length l)))
      as [_ | _]; cbn [andb]; [| reflexivity].
    lia.
  - destruct (Z.leb_spec 0 i) as [_ | _]; [| reflexivity].
    destruct (Z.ltb_spec i (Z.of_nat (length l))) as [Hlt | _];
      cbn [andb]; [| reflexivity].
    lia.
Qed.

Lemma py_index_raises {A : Type} (l : list A) (i : Z) (e : exn) :
  py_index l i = Raise e -> e = IndexError.
Proof.
  unfold py_index.
  destruct ((0 <=? (if i <? 0 then i + Z.of_nat (length l) else i))
            && ((if i <? 0 then i + Z.of_nat (length l) else i)
                <? Z.of_nat (length l))).
  - destruct (nth_error l _); congruence.
  - congruence.
Qed.

Lemma slice_bound_id (n i : Z) : 0 <= i <= n -> slice_bound n i = i.
Proof.
  intros H. unfold slice_bound.
  destruct (Z.ltb_spec i 0); lia.
Qed.

Lemma py_slice_length {A : Type} (l : list A) (a b : Z) :
  0 <= a <= b -> b <= Z.of_nat (length l) ->
  length (py_slice l a b) = Z.to_nat (b - a).
Proof.
  intros Hab Hb. unfold py_slice, slice_len.
  rewrite !slice_bound_id by lia.
  rewrite length_firstn, length_skipn. lia.
Qed.

Lemma py_slice_In {A : Type} (l : list A) (a b : Z) (x : A) :
  In x (py_slice l a b) -> In x l.
Proof.
  unfold py_slice. intros H.
  set (k := Z.to_nat (slice_bound (Z.of_nat (length l)) a)) in *.
  set (n := slice_len (Z.of_nat (length l)) a b) in *.
  rewrite <- (firstn_skipn k l). apply in_or_app. right.
  rewrite <- (firstn_skipn n (skipn k l)). apply in_or_app. left. exact H.
Qed.

Lemma tensor_slice_shape (t : Tensor) (y0 y1 x0 x1 : Z) :
  tensor_wf t ->
  0 <= y0 <= y1 -> y1 <= fst (shape t) ->
  0 <= x0 <= x1 -> x1 <= snd (shape t) ->
  shape (tensor_slice t y0 y1 x0 x1) = (y1 - y0, x1 - x0)
  /\ tensor_wf (tensor_slice t y0 y1 x0 x1).
Proof.
  intros Hwf Hy Hy1 Hx Hx1. unfold shape in *. cbn [fst snd] in *.
  split.
  - unfold tensor_slice. cbn [cells width].
    rewrite length_map, py_slice_length by lia.
    unfold slice_len. rewrite !slice_bound_id by lia.
    f_equal; lia.
  - unfold tensor_wf, tensor_slice in *. cbn [cells width].
    apply Forall_forall. intros r Hr.
    apply in_map_iff in Hr. destruct Hr as [r0 [<- Hr0]].
    apply py_slice_In in Hr0.
    rewrite Forall_forall in Hwf. specialize (Hwf r0 Hr0).
    rewrite py_slice_length by lia.
    unfold slice_len. rewrite !slice_bound_id by lia.
    reflexivity.
Qed.

(** ** Ranges *)

Lemma range_len_spec (stop step : Z) (k : nat) :
  0 < step ->
  (Z.of_nat k < range_len stop step <-> Z.of_nat k * step < stop).
Proof.
  intros Hstep. unfold range_len.
  destruct (Z.ltb_spec 0 step) as [_ | ?]; [| lia].
  destruct (Z.ltb_spec 0 stop) as [Hstop | Hstop].
  - split; intros H.
    + assert (Hk : Z.of_nat k <= (stop - 1) / step) by lia.
      pose proof (Z.mul_div_le (stop - 1) step Hstep) as Hd.
      nia.
    + assert (Hk : Z.of_nat k <= (stop - 1) / step).
      { apply Z.div_le_lower_bound; lia. }
      lia.
  - split; intros H; [lia | nia].
Qed.

Lemma range_len_nonneg (stop step : Z) : 0 < step -> 0 <= range_len stop step.
Proof.
  intros Hstep. unfold range_len.
  destruct (Z.ltb_spec 0 step) as [_ | ?]; [| lia].
  destruct (Z.ltb_spec 0 stop) as [Hstop | Hstop]; [| lia].
  assert (0 <= (stop - 1) / step) by (apply Z.div_pos; lia). lia.
Qed.

Lemma py_range_pos (stop step : Z) :
  0 < step ->
  py_range stop step
  = Ok (map (fun k => Z.of_nat k * step)
            (seq 0 (Z.to_nat (range_len stop step)))).
Proof.
  intros Hstep. unfold py_range.
  destruct (Z.eqb_spec step 0); [lia | reflexivity].
Qed.

Lemma py_range_In (stop step : Z) (l : list Z) (k : Z) :
  0 < step -> py_range stop step = Ok l ->
  (In k l <-> exists i, 0 <= i /\ k = i * step /\ k < stop).
Proof.
  intros Hstep Hr. rewrite py_range_pos in Hr by assumption.
  injection Hr as <-. rewrite in_map_iff. split.
  - intros [n [<- Hn]]. apply in_seq in Hn.
    exists (Z.of_nat n). repeat split; try lia.
    apply range_len_spec; [assumption |].
    pose proof (range_len_nonneg stop step Hstep). lia.
  - intros [i [Hi [-> Hlt]]]. exists (Z.to_nat i).
    rewrite Z2Nat.id by assumption. split; [reflexivity |].
    apply in_seq. split; [lia |].
    assert (Z.of_nat (Z.to_nat i) < range_len stop step).
    { apply range_len_spec; [assumption |]. rewrite Z2Nat.id; assumption. }
    lia.
Qed.

(** ** Generators *)

Lemma gen_for_In {A B : Type} (l : list A) (body : A -> run B) (b : B) :
  In b (yielded (gen_for l body)) ->
  exists a, In a l /\ In b (yielded (body a)).
Proof.
  induction l as [| a l IH]; cbn [gen_for].
  - intros [].
  - unfold gen_seq. destruct (raised (body a)) eqn:E.
    + intros H. exists a. split; [left; reflexivity | exact H].
    + cbn [yielded]. intros H. apply in_app_or in H.
      destruct H as [H | H].
      * exists a. split; [left; reflexivity | exact H].
      * destruct (IH H) as [a' [Ha' Hb]].
        exists a'. split; [right; exact Ha' | exact Hb].
Qed.

Lemma gen_for_runs {A B : Type} (l : list A) (body : A -> run B)
  (F : A -> list B) :
  (forall a, In a l -> body a = mkRun (F a) None) ->
  gen_for l body = mkRun (flat_map F l) None.
Proof.
  induction l as [| a l IH]; intros H; cbn [gen_for flat_map].
  - reflexivity.
  - rewrite (H a) by (left; reflexivity).
    rewrite IH by (intros; apply H; right; assumption).
    reflexivity.
Qed.

(* ================================================================== *)
(** * Properties of the diagram entity                                 *)
(* ================================================================== *)

Section EntityProperties.
Context {CR : ChargeRegimes} {G : Shapely}.

(** X1: an index at or beyond the end of its axis, or before its wrapped
    start, makes [get_charge] answer [UNKNOWN], with or without regions. *)
Lemma get_charge_out_of_range (self : DiagramOffline) (coord_x coord_y : Z) :
  out_of_range (x_axes self) coord_x \/ out_of_range (y_axes self) coord_y ->
  get_charge self coord_x coord_y = Ok UNKNOWN.
Proof.
  intros H. unfold get_charge, bind.
  destruct (py_index (x_axes self) coord_x) as [vx | e] eqn:Ex.
  - destruct H as [H | H].
    + rewrite py_index_out_of_range in Ex by exact H. discriminate.
    + rewrite py_index_out_of_range by exact H. reflexivity.
  - apply py_index_raises in Ex. subst e. reflexivity.
Qed.

(** X2: with a region list present, [get_charge] always returns. *)
Lemma get_charge_never_raises (self : DiagramOffline) (coord_x coord_y : Z)
  (areas : list (ChargeRegime * Polygon)) :
  charge_areas self = Some areas ->
  exists regime, get_charge self coord_x coord_y = Ok regime.
Proof.
  intros Ha. unfold get_charge, bind.
  destruct (py_index (x_axes self) coord_x) as [vx | e] eqn:Ex.
  - destruct (py_index (y_axes self) coord_y) as [vy | e] eqn:Ey.
    + rewrite Ha. eexists. reflexivity.
    + apply py_index_raises in Ey. subst e. eexists. reflexivity.
  - apply py_index_raises in Ex. subst e. eexists. reflexivity.
Qed.

Lemma get_charge_in_range (self : DiagramOffline) (coord_x coord_y : Z)
  (d : f64) :
  0 <= coord_x < Z.of_nat (length (x_axes self)) ->
  0 <= coord_y < Z.of_nat (length (y_axes self)) ->
  get_charge self coord_x coord_y =
  match charge_areas self with
  | None => Raise TypeError
  | Some areas =>
      Ok (first_containing areas (nth (Z.to_nat coord_x) (x_axes self) d,
                                  nth (Z.to_nat coord_y) (y_axes self) d))
  end.
Proof.
  intros Hx Hy. unfold get_charge, bind.
  rewrite (py_index_nth _ _ d Hx), (py_index_nth _ _ d Hy). reflexivity.
Qed.

Lemma first_containing_app (before after : list (ChargeRegime * Polygon))
  (regime : ChargeRegime) (area : Polygon) (point : Point) :
  Forall (fun ra => contains (snd ra) point = false) before ->
  contains area point = true ->
  first_containing (before ++ (regime, area) :: after) point = regime.
Proof.
  intros Hb Ha. induction Hb as [| [r a] before Hra Hb IH]; cbn.
  - rewrite Ha. reflexivity.
  - cbn in Hra. rewrite Hra. exact IH.
Qed.

(** C10: on a diagram built without charge areas, [get_charge] at any
    in-range pixel raises (a [TypeError], from iterating the absent list)
    instead of answering [UNKNOWN]. *)
Theorem get_charge_absent_areas_raises (self : DiagramOffline)
  (coord_x coord_y : Z) :
  charge_areas self = None ->
  0 <= coord_x < Z.of_nat (length (x_axes self)) ->
  0 <= coord_y < Z.of_nat (length (y_axes self)) ->
  get_charge self coord_x coord_y = Raise TypeError
  /\ get_charge self coord_x coord_y <> Ok UNKNOWN.
Proof.
  intros Hnone Hx Hy.
  rewrite (get_charge_in_range self coord_x coord_y (S754_zero false) Hx Hy).
  rewrite Hnone. split; [reflexivity | discriminate].
Qed.

(** What every item yielded by [get_patches] was computed from. [ext] is
    the widening of the extended-window mode. *)
Lemma get_patches_inv (settings : Settings) (self : DiagramOffline)
  (psx psy ovx ovy ox oy : Z) (item : patch_item) :
  In item (yielded (get_patches settings self (psx, psy) (ovx, ovy)
                                (ox, oy))) ->
  let ext := if use_ewma settings then 3 else 0 in
  exists px py ys xs sxv syv exv eyv ls,
    window item = (px, py)
    /\ py_range (fst (shape (values self)) - psy) (psy - ovy) = Ok ys
    /\ In py ys
    /\ py_range (snd (shape (values self)) - (psx + ext)) (psx + ext - ovx)
       = Ok xs
    /\ In px xs
    /\ py_index (y_axes self) (py + oy) = Ok syv
    /\ py_index (y_axes self) (py + psy - oy) = Ok eyv
    /\ py_index (x_axes self) (px + ox + ext) = Ok sxv
    /\ py_index (x_axes self) (px + (psx + ext) - ox) = Ok exv
    /\ transition_lines self = Some ls
    /\ patch item
       = tensor_slice (values self) py (py + psy) px (px + (psx + ext))
    /\ label item
       = py_any (map (fun line =>
                        intersects line
                          (mkPolygon [(sxv, syv); (exv, syv);
                                      (exv, eyv); (sxv, eyv)])) ls).
Proof.
  unfold get_patches, shape. cbn [fst snd].
  assert (Hext : forall z, z + (if use_ewma settings then 1 else 0) * 3
                           = z + (if use_ewma settings then 3 else 0)).
  { intros z. destruct (use_ewma settings); reflexivity. }
  assert (Hps : (if use_ewma settings then psx + 3 else psx)
                = psx + (if use_ewma settings then 3 else 0)).
  { destruct (use_ewma settings); lia. }
  rewrite Hps. clear Hps.
  set (ext := if use_ewma settings then 3 else 0) in *.
  intros H.
  destruct (py_range _ (psy - ovy)) as [ys | e] eqn:Eys;
    cbn [gen_try gen_raise yielded] in H; [| contradiction].
  apply gen_for_In in H. destruct H as [py [Hpy H]].
  destruct (py_index (y_axes self) (py + oy)) as [syv | e] eqn:Esy;
    cbn [gen_try gen_raise yielded] in H; [| contradiction].
  destruct (py_index (y_axes self) (py + psy - oy)) as [eyv | e] eqn:Eey;
    cbn [gen_try gen_raise yielded] in H; [| contradiction].
  destruct (py_range _ (psx + ext - ovx)) as [xs | e] eqn:Exs;
    cbn [gen_try gen_raise yielded] in H; [| contradiction].
  apply gen_for_In in H. destruct H as [px [Hpx H]].
  rewrite Hext in H.
  destruct (py_index (x_axes self) (px + ox + ext)) as [sxv | e] eqn:Esx;
    cbn [gen_try gen_raise yielded] in H; [| contradiction].
  destruct (py_index (x_axes self) (px + (psx + ext) - ox))
    as [exv | e] eqn:Eex;
    cbn [gen_try gen_raise yielded new_Polygon] in H; [| contradiction].
  unfold any_line_intersects in H.
  destruct (transition_lines self) as [ls |] eqn:Els;
    cbn [gen_try gen_raise gen_yield yielded] in H; [| contradiction].
  destruct H as [<- | []].
  exists px, py, ys, xs, sxv, syv, exv, eyv, ls.
  cbn [window patch label]. repeat split; assumption || reflexivity.
Qed.

Lemma is_line_in_patch_eval (self : DiagramOffline)
  (cx cy sx sy ox oy : Z) (sxv syv exv eyv : f64) (ls : list LineString) :
  py_index (x_axes self) (cx + ox) = Ok sxv ->
  py_index (y_axes self) (cy + oy) = Ok syv ->
  py_index (x_axes self) (cx + sx - ox) = Ok exv ->
  py_index (y_axes self) (cy + sy - oy) = Ok eyv ->
  transition_lines self = Some ls ->
  is_line_in_patch self (cx, cy) (sx, sy) (ox, oy)
  = Ok (py_any (map (fun line =>
                       intersects line
                         (mkPolygon [(sxv, syv); (exv, syv);
                                     (exv, eyv); (sxv, eyv)])) ls)).
Proof.
  intros Hsx Hsy Hex Hey Hls. unfold is_line_in_patch, bind.
  rewrite Hsx, Hsy, Hex, Hey. cbn [new_Polygon].
  unfold any_line_intersects. rewrite Hls. reflexivity.
Qed.

(** C5: with the extended window off, the label of every window that
    [get_patches] yields is what [is_line_in_patch] answers for that
    window's top-left corner, the same patch size and the same offsets: the
    same rectangle, the same any-line-intersects test. (The line list need
    not be assumed present: nothing is yielded when it is absent.) *)
Theorem get_patches_label_is_line_in_patch (settings : Settings)
  (self : DiagramOffline) (patch_size overlap label_offset : Z * Z)
  (item : patch_item) :
  use_ewma settings = false ->
  In item (yielded (get_patches settings self patch_size overlap
                                label_offset)) ->
  is_line_in_patch self (window item) patch_size label_offset
  = Ok (label item).
Proof.
  destruct patch_size as [psx psy], overlap as [ovx ovy],
    label_offset as [ox oy].
  intros Hewma Hin. apply get_patches_inv in Hin. rewrite Hewma in Hin.
  cbn zeta in Hin.
  destruct Hin as (px & py & ys & xs & sxv & syv & exv & eyv & ls
                   & Hw & _ & _ & _ & _ & Hsy & Hey & Hsx & Hex & Hls
                   & _ & Hlabel).
  rewrite Hw, Hlabel.
  apply is_line_in_patch_eval; try assumption.
  - rewrite <- Hsx. f_equal. lia.
  - rewrite <- Hex. f_equal. lia.
Qed.

(** C3: with the extended window on, every yielded patch is the slice of
    the raw values over the rows of the window and over the columns of the
    window preceded by 3 more columns on the low-X side (so, on a
    well-formed grid and with forward steps, 3 columns wider than the
    requested size and no taller), while its label is the one of the
    unextended window: the rectangle of [is_line_in_patch] for the requested
    patch size, shrunk by the label offset, placed 3 columns after the start
    of the slice. *)
Theorem get_patches_ewma_window (settings : Settings)
  (self : DiagramOffline) (psx psy ovx ovy ox oy : Z) (item : patch_item) :
  use_ewma settings = true ->
  In item (yielded (get_patches settings self (psx, psy) (ovx, ovy)
                                (ox, oy))) ->
  let inner_x := fst (window item) + 3 in
  let inner_y := snd (window item) in
  patch item = tensor_slice (values self) inner_y (inner_y + psy)
                            (inner_x - 3) (inner_x + psx)
  /\ is_line_in_patch self (inner_x, inner_y) (psx, psy) (ox, oy)
     = Ok (label item)
  /\ (tensor_wf (values self) -> 0 <= psx -> 0 <= psy ->
      ovx < psx + 3 -> ovy < psy ->
      shape (patch item) = (psy, psx + 3)).
Proof.
  intros Hewma Hin. apply get_patches_inv in Hin. rewrite Hewma in Hin.
  cbn zeta in Hin.
  destruct Hin as (px & py & ys & xs & sxv & syv & exv & eyv & ls
                   & Hw & Hys & Hpy & Hxs & Hpx & Hsy & Hey & Hsx & Hex
                   & Hls & Hpatch & Hlabel).
  rewrite Hw. cbn [fst snd]. cbn zeta.
  replace (px + 3 - 3) with px by lia.
  replace (px + 3 + psx) with (px + (psx + 3)) by lia.
  split; [exact Hpatch |]. split.
  - rewrite Hlabel. apply is_line_in_patch_eval; try assumption.
    + rewrite <- Hsx. f_equal. lia.
    + rewrite <- Hex. f_equal. lia.
  - intros Hwf Hpsx Hpsy Hovx Hovy.
    apply (py_range_In _ _ _ py) in Hys; [| lia].
    apply (py_range_In _ _ _ px) in Hxs; [| lia].
    apply Hys in Hpy. apply Hxs in Hpx.
    destruct Hpy as [j [Hj [Hpy Hylt]]]. destruct Hpx as [i [Hi [Hpx Hxlt]]].
    rewrite Hpatch.
    replace (psy, psx + 3)
      with (py + psy - py, px + (psx + 3) - px) by (f_equal; lia).
    apply tensor_slice_shape; try assumption; nia.
Qed.

(** What the loader of charge areas returns, read against its input: one
    region per raw record, in the order of the records. *)
Lemma lazy_map_Forall2 {A B : Type} (body : A -> result B) (it : lazy A)
  (out : list B) :
  lazy_map body it = Ok out <->
  exists raws, it = map Ok raws
               /\ Forall2 (fun raw o => body raw = Ok o) raws out.
Proof.
  revert out. induction it as [| r it IH]; intros out; cbn [lazy_map].
  - split.
    + intros H. injection H as <-. exists []. split; constructor.
    + intros [raws [Hmap HF]]. destruct raws; [| discriminate].
      inversion HF. reflexivity.
  - destruct r as [a | e].
    + unfold bind. split.
      * intros H. destruct (body a) as [b |] eqn:Eb; [| discriminate].
        destruct (lazy_map body it) as [bs |] eqn:Ebs; [| discriminate].
        injection H as <-.
        destruct (proj1 (IH bs) eq_refl) as [raws [-> HF]].
        exists (a :: raws). split; [reflexivity |].
        constructor; assumption.
      * intros [raws [Hmap HF]].
        destruct raws as [| a' raws]; [discriminate |].
        cbn [map] in Hmap. injection Hmap as <- ->.
        inversion HF as [| ? b ? bs Hb HF' ]; subst.
        rewrite Hb.
        rewrite (proj2 (IH bs)) by (exists raws; split; [reflexivity | exact HF']).
        reflexivity.
    + split; [discriminate |].
      intros [raws [Hmap _]]. destruct raws; discriminate.
Qed.

End EntityProperties.

Section PatchGrid.
Context {CR : ChargeRegimes} {G : Shapely}.

Lemma map_flat_map {A B C : Type} (f : B -> C) (g : A -> list B)
  (l : list A) :
  map f (flat_map g l) = flat_map (fun a => map f (g a)) l.
Proof.
  induction l as [| a l IH]; cbn; [reflexivity |].
  rewrite map_app, IH. reflexivity.
Qed.

Lemma flat_map_map {A B C : Type} (h : A -> B) (g : B -> list C)
  (l : list A) :
  flat_map g (map h l) = flat_map (fun a => g (h a)) l.
Proof.
  induction l as [| a l IH]; cbn; [reflexivity |].
  rewrite IH. reflexivity.
Qed.

Lemma flat_map_singleton {A B : Type} (f : A -> B) (l : list A) :
  flat_map (fun a => [f a]) l = map f l.
Proof.
  induction l as [| a l IH]; cbn; [reflexivity |].
  rewrite IH. reflexivity.
Qed.

Lemma starts_In (size patch step k : Z) :
  0 < step ->
  (In k (starts size patch step)
   <-> exists i, 0 <= i /\ k = i * step /\ k + patch < size).
Proof.
  intros Hstep. unfold starts.
  rewrite (py_range_In (size - patch) step _ k Hstep
             (py_range_pos _ _ Hstep)).
  split; intros [i [Hi [Hk Hlt]]]; exists i; repeat split; lia.
Qed.

Lemma get_patches_plain_run (settings : Settings) (self : DiagramOffline)
  (psx psy ovx ovy : Z) (ls : list LineString) :
  use_ewma settings = false ->
  length (x_axes self) = width (values self) ->
  length (y_axes self) = length (cells (values self)) ->
  transition_lines self = Some ls ->
  0 <= ovx < psx -> 0 <= ovy < psy ->
  get_patches settings self (psx, psy) (ovx, ovy) (0, 0)
  = mkRun (flat_map
             (fun y => map (plain_item self ls psx psy y)
                           (starts (snd (shape (values self))) psx
                                   (psx - ovx)))
             (starts (fst (shape (values self))) psy (psy - ovy)))
          None.
Proof.
  intros Hewma Hlx Hly Hls Hx Hy.
  unfold get_patches, shape. cbn [fst snd]. rewrite Hewma.
  rewrite py_range_pos by lia. cbn [gen_try].
  fold (starts (Z.of_nat (length (cells (values self)))) psy (psy - ovy)).
  apply gen_for_runs. intros y Hiny.
  apply starts_In in Hiny; [| lia]. destruct Hiny as [j [Hj [Hyj Hylt]]].
  assert (Hy0 : 0 <= y) by nia.
  rewrite (py_index_nth (y_axes self) (y + 0) (S754_zero false)) by lia.
  cbn [gen_try].
  rewrite (py_index_nth (y_axes self) (y + psy - 0) (S754_zero false))
    by lia.
  cbn [gen_try].
  rewrite py_range_pos by lia. cbn [gen_try].
  fold (starts (Z.of_nat (width (values self))) psx (psx - ovx)).
  rewrite <- flat_map_singleton.
  apply gen_for_runs. intros x Hinx.
  apply starts_In in Hinx; [| lia]. destruct Hinx as [i [Hi [Hxi Hxlt]]].
  assert (Hx0 : 0 <= x) by nia.
  cbn [Z.mul].
  rewrite (py_index_nth (x_axes self) (x + 0 + 0) (S754_zero false)) by lia.
  cbn [gen_try].
  rewrite (py_index_nth (x_axes self) (x + psx - 0) (S754_zero false))
    by lia.
  cbn [gen_try new_Polygon].
  unfold any_line_intersects. rewrite Hls. cbn [gen_try].
  unfold gen_yield, plain_item.
  rewrite !Z.add_0_r, !Z.sub_0_r. reflexivity.
Qed.

(** C1, amended: with the extended window off, no label offset, axes as
    long as the sides of a well-formed grid, a line list present and
    0 <= overlap < patch_size, the generator ends without an exception; its
    windows are, row after row, the multiples of [patch_size - overlap]
    whose window ends strictly before the last index of the axis
    (start + patch_size < size), so that a full patch ending exactly on
    the boundary is not produced either; every patch has the requested
    shape. On a (20, 20) grid with patches of (10, 10) and no overlap this
    is the single window at (0, 0). *)
Theorem get_patches_windows (settings : Settings) (self : DiagramOffline)
  (psx psy ovx ovy : Z) (ls : list LineString) :
  use_ewma settings = false ->
  tensor_wf (values self) ->
  length (x_axes self) = width (values self) ->
  length (y_axes self) = length (cells (values self)) ->
  transition_lines self = Some ls ->
  0 <= ovx < psx -> 0 <= ovy < psy ->
  let r := get_patches settings self (psx, psy) (ovx, ovy) (0, 0) in
  let size_y := fst (shape (values self)) in
  let size_x := snd (shape (values self)) in
  raised r = None
  /\ map window (yielded r)
     = flat_map (fun y => map (fun x => (x, y))
                              (starts size_x psx (psx - ovx)))
                (starts size_y psy (psy - ovy))
  /\ (forall x y,
        In (x, y) (map window (yielded r)) <->
        exists i j, 0 <= i /\ 0 <= j
                    /\ x = i * (psx - ovx) /\ y = j * (psy - ovy)
                    /\ x + psx < size_x /\ y + psy < size_y)
  /\ Forall (fun item => shape (patch item) = (psy, psx)) (yielded r)
  /\ (shape (values self) = (20, 20) -> (psx, psy) = (10, 10) ->
      (ovx, ovy) = (0, 0) -> map window (yielded r) = [(0, 0)]).
Proof.
  intros Hewma Hwf Hlx Hly Hls Hx Hy. cbn zeta.
  rewrite (get_patches_plain_run settings self psx psy ovx ovy ls)
    by assumption.
  cbn [raised yielded].
  assert (Hwin :
    map window
      (flat_map (fun y => map (plain_item self ls psx psy y)
                              (starts (snd (shape (values self))) psx
                                      (psx - ovx)))
                (starts (fst (shape (values self))) psy (psy - ovy)))
    = flat_map (fun y => map (fun x => (x, y))
                             (starts (snd (shape (values self))) psx
                                     (psx - ovx)))
               (starts (fst (shape (values self))) psy (psy - ovy))).
  { rewrite map_flat_map. apply flat_map_ext. intros y.
    rewrite map_map. reflexivity. }
  split; [reflexivity |]. split; [exact Hwin |]. split; [| split].
  - intros x y. rewrite Hwin, in_flat_map. split.
    + intros [y' [Hy' Hin]]. apply in_map_iff in Hin.
      destruct Hin as [x' [Heq Hx']]. injection Heq as -> ->.
      apply starts_In in Hy'; [| lia]. apply starts_In in Hx'; [| lia].
      destruct Hy' as [j [Hj [-> Hjl]]]. destruct Hx' as [i [Hi [-> Hil]]].
      exists i, j. repeat split; assumption.
    + intros [i [j [Hi [Hj [-> [-> [Hil Hjl]]]]]]].
      exists (j * (psy - ovy)). split.
      * apply starts_In; [lia |]. exists j. repeat split; assumption.
      * apply (in_map (fun x => (x, j * (psy - ovy)))).
        apply starts_In; [lia |].
        exists i. repeat split; assumption.
  - apply Forall_forall. intros item Hin.
    apply in_flat_map in Hin. destruct Hin as [y [Hy' Hin]].
    apply in_map_iff in Hin. destruct Hin as [x [<- Hx']].
    apply starts_In in Hy'; [| lia]. apply starts_In in Hx'; [| lia].
    destruct Hy' as [j [Hj [Hyj Hjl]]]. destruct Hx' as [i [Hi [Hxi Hil]]].
    unfold plain_item. cbn [patch].
    replace (psy, psx) with (y + psy - y, x + psx - x) by (f_equal; lia).
    apply tensor_slice_shape; try assumption; nia.
  - intros Hshape Hps Hov. rewrite Hwin, Hshape.
    injection Hps as -> ->. injection Hov as -> ->. reflexivity.
Qed.

End PatchGrid.

(* ================================================================== *)
(** * Properties of the charge lookup and of the annotation loader     *)
(* ================================================================== *)

Section ChargeLookup.
Context {CR : ChargeRegimes} {G : Shapely} {DB : DiagramBase}.

(** C7: at an in-range pixel whose volt-space point lies inside a region
    of the list, [get_charge] answers the regime of the first such region
    in list order, whatever regions follow it (the later ones may contain
    the point as well); and the loader of charge areas returns a list
    exactly when every raw record loads, the regions then standing in the
    order of the records they were built from. *)
Theorem get_charge_first_region_in_record_order (self : DiagramOffline)
  (coord_x coord_y : Z) (before after : list (ChargeRegime * Polygon))
  (regime : ChargeRegime) (area : Polygon)
  (it : lazy json) (x y : list f64) (pixel_size : f64) (snap : Z)
  (out : list (ChargeRegime * Polygon)) :
  0 <= coord_x < Z.of_nat (length (x_axes self)) ->
  0 <= coord_y < Z.of_nat (length (y_axes self)) ->
  charge_areas self = Some (before ++ (regime, area) :: after) ->
  let point := (nth (Z.to_nat coord_x) (x_axes self) (S754_zero false),
                nth (Z.to_nat coord_y) (y_axes self) (S754_zero false)) in
  Forall (fun ra => contains (snd ra) point = false) before ->
  contains area point = true ->
  get_charge self coord_x coord_y = Ok regime
  /\ (_load_charge_annotations it x y pixel_size snap = Ok out <->
      exists raws,
        it = map Ok raws
        /\ Forall2 (fun raw region =>
                      load_charge_area x y pixel_size snap raw = Ok region)
                   raws out).
Proof.
  intros Hx Hy Hareas point Hbefore Harea. split.
  - rewrite (get_charge_in_range self coord_x coord_y (S754_zero false)
               Hx Hy).
    rewrite Hareas. f_equal.
    apply first_containing_app; assumption.
  - unfold _load_charge_annotations. apply lazy_map_Forall2.
Qed.

End ChargeLookup.

(* ================================================================== *)
(** * Properties of the grid loader                                    *)
(* ================================================================== *)

Lemma all_some_map_Some {A : Type} (l : list A) :
  all_some (map Some l) = Some l.
Proof.
  induction l as [| a l IH]; cbn; [reflexivity |].
  rewrite IH. reflexivity.
Qed.

Lemma filter_nonblank {A : Type} (rows : list (list A)) (n : nat) :
  (0 < n)%nat -> Forall (fun r => length r = n) rows ->
  filter (fun r => negb (is_blank r)) rows = rows.
Proof.
  intros Hn H. induction H as [| r rows Hr H IH]; cbn; [reflexivity |].
  destruct r; cbn in *; [lia |]. rewrite IH. reflexivity.
Qed.

Lemma arange_affine_spec (n : nat) (step start : f64) :
  length (arange_affine n step start) = n
  /\ forall i, (i < n)%nat ->
       nth_error (arange_affine n step start) i
       = Some (f64_add (f64_mul (f64_of_int (Z.of_nat i)) step) start).
Proof.
  unfold arange_affine. split.
  - rewrite length_map, length_seq. reflexivity.
  - intros i Hi.
    rewrite nth_error_map, nth_error_seq.
    destruct (Nat.ltb_spec i n); [reflexivity | lia].
Qed.

(** What the loader returns on a table whose row 0 starts with
    (x_start, y_start, step) and whose other rows are [matrix]. *)
Lemma load_interpolated_csv_table (x_start y_start step : f64)
  (pad : list f64) (matrix : list (list f64)) (invert_y_axis : bool) :
  matrix <> [] ->
  Forall (fun r => length r = (3 + length pad)%nat) matrix ->
  _load_interpolated_csv
    (map (map Some) ((x_start :: y_start :: step :: pad) :: matrix))
    invert_y_axis
  = Ok (arange_affine (3 + length pad) step x_start,
        arange_affine (length matrix) step y_start,
        mkTensor (map (map f32_of_f64)
                      (if invert_y_axis then rev matrix else matrix))
                 (3 + length pad)).
Proof.
  intros Hne Hrows. unfold _load_interpolated_csv, loadtxt.
  set (table := (x_start :: y_start :: step :: pad) :: matrix).
  assert (Htable : Forall (fun r => length r = (3 + length pad)%nat) table).
  { constructor; [reflexivity | exact Hrows]. }
  rewrite (filter_nonblank (map (map Some) table) (3 + length pad)).
  2: lia.
  2: { apply Forall_map. eapply Forall_impl; [| exact Htable].
       intros r Hr. cbn beta. rewrite length_map. exact Hr. }
  rewrite map_map.
  rewrite (map_ext _ (fun r => Some r)) by (intros; apply all_some_map_Some).
  rewrite all_some_map_Some. unfold table.
  assert (Hall : forallb (fun r' => Nat.eqb (length r')
                                     (length (x_start :: y_start :: step
                                                      :: pad))) matrix
                 = true).
  { apply forallb_forall. intros r Hr. rewrite Forall_forall in Hrows.
    rewrite (Hrows r Hr). cbn [length]. apply Nat.eqb_refl. }
  rewrite Hall.
  destruct matrix as [| r0 rest]; [contradiction |].
  cbv beta iota. unfold bind.
  rewrite (py_index_nth _ 0 (x_start :: y_start :: step :: pad))
    by (cbn [length]; lia).
  cbn [Z.to_nat nth].
  rewrite (py_index_nth _ 0 x_start) by (cbn [length]; lia).
  rewrite (py_index_nth _ 1 x_start) by (cbn [length]; lia).
  rewrite (py_index_nth _ 2 x_start) by (cbn [length]; lia).
  change (Z.to_nat 0) with 0%nat. change (Z.to_nat 1) with 1%nat.
  change (Z.to_nat 2) with 2%nat. cbn [nth tl].
  destruct invert_y_axis; rewrite ?length_rev; reflexivity.
Qed.

Lemma Forall2_map_same {A B : Type} (f : A -> B) (P : A -> Prop)
  (R : B -> A -> Prop) (l : list A) :
  (forall a, P a -> R (f a) a) -> Forall P l -> Forall2 R (map f l) l.
Proof.
  intros HPR H. induction H as [| a l Ha H IH]; cbn; constructor; auto.
Qed.

(** C6, amended: on a table whose row 0 starts with (x_start, y_start,
    step) and whose other rows form a matrix as wide as row 0, the loader
    returns x_axis[i] = i*step + x_start for i below the width and
    y_axis[j] = j*step + y_start for j below the height (in binary64
    arithmetic), and the matrix with every entry rounded to single
    precision, its rows in the same order when invert_y is false and in
    exactly the reverse order when it is true; the entries come back as the
    same numbers when single precision holds each of them exactly. *)
Theorem load_interpolated_csv_axes_and_rows (x_start y_start step : f64)
  (pad : list f64) (matrix : list (list f64)) (invert_y_axis : bool) :
  matrix <> [] ->
  Forall (fun r => length r = (3 + length pad)%nat) matrix ->
  let rows := if invert_y_axis then rev matrix else matrix in
  exists x_axis y_axis values,
    _load_interpolated_csv
      (map (map Some) ((x_start :: y_start :: step :: pad) :: matrix))
      invert_y_axis
    = Ok (x_axis, y_axis, values)
    /\ shape values
       = (Z.of_nat (length matrix), Z.of_nat (3 + length pad))
    /\ length x_axis = (3 + length pad)%nat
    /\ (forall i, (i < 3 + length pad)%nat ->
          nth_error x_axis i
          = Some (f64_add (f64_mul (f64_of_int (Z.of_nat i)) step) x_start))
    /\ length y_axis = length matrix
    /\ (forall j, (j < length matrix)%nat ->
          nth_error y_axis j
          = Some (f64_add (f64_mul (f64_of_int (Z.of_nat j)) step) y_start))
    /\ cells values = map (map f32_of_f64) rows
    /\ (Forall (Forall f32_exact) matrix ->
        Forall2 (Forall2 (fun loaded original =>
                            same_real loaded original = true))
                (cells values) rows).
Proof.
  intros Hne Hrows rows.
  eexists _, _, _. split.
  { apply load_interpolated_csv_table; assumption. }
  destruct (arange_affine_spec (3 + length pad) step x_start) as [Hlx Hx].
  destruct (arange_affine_spec (length matrix) step y_start) as [Hly Hy].
  unfold shape. cbn [cells width].
  repeat split; try assumption.
  - rewrite length_map. f_equal.
    destruct invert_y_axis; rewrite ?length_rev; reflexivity.
  - intros Hexact.
    assert (Hrows_exact : Forall (Forall f32_exact) rows).
    { unfold rows. destruct invert_y_axis; [| exact Hexact].
      apply Forall_rev. exact Hexact. }
    fold rows.
    apply (Forall2_map_same _ (Forall f32_exact)); [| exact Hrows_exact].
    intros row Hrow.
    apply (Forall2_map_same _ f32_exact); [| exact Hrow].
    intros v Hv. exact Hv.
Qed.

(* ================================================================== *)
(** * Properties of the diagram-set loader                             *)
(* ================================================================== *)

Section LoaderProperties.
Context {CR : ChargeRegimes} {DB : DiagramBase} {B : Builtins}.

Lemma find_named_missing (name : string) (items : list json) :
  Forall (fun l => exists n, getitem l "name" = Ok n
                             /\ json_eq_str n name = false) items ->
  find_named name (JList items) = Raise StopIteration.
Proof.
  intros H. unfold find_named. cbn [py_iter bind].
  induction H as [| l items [n [Hn Hneq]] H IH]; cbn [py_filter].
  - reflexivity.
  - rewrite Hn. cbn [bind]. rewrite Hneq. exact IH.
Qed.

Lemma classifications_missing_pixel_size (current_labels : json)
  (items : list json) :
  getitem current_labels "classifications" = Ok (JList items) ->
  Forall (fun l => exists n, getitem l "name" = Ok n
                             /\ json_eq_str n "pixel_size_volt" = false)
         items ->
  classifications current_labels = Raise StopIteration.
Proof.
  intros Hcls Hitems. unfold classifications.
  rewrite Hcls. cbn [bind].
  rewrite (find_named_missing _ _ Hitems). reflexivity.
Qed.

(** C4: a grid file that passes the whitelist, whose label record is found
    and holds the project's annotations, but whose classifications hold no
    entry named pixel_size_volt, is skipped with the unlabeled counter
    incremented and the filtered and excluded counters untouched, whatever
    the requested dot count and whatever the record says of the dot count.
    The cascade is ordered. First the whitelist: the same file outside a
    whitelist is counted as excluded whatever the label index holds for
    it, be it no record at all or a record that cannot be read. Then the
    label record: without one the file is counted as unlabeled. Then the
    project record and the classification fields: when either lookup finds
    nothing the file is counted as unlabeled whatever dot count is asked
    for. Last the dot count: a file is counted as filtered only once both
    classification fields were extracted. *)
Theorem load_entry_missing_pixel_size_is_unlabeled (settings : Settings)
  (labels : list (string * json)) (single_dot load_lines load_areas : bool)
  (white_list : option (list string)) (st : load_state)
  (diagram_name : zip_entry) (label_data current_labels : json)
  (items : list json) :
  let file_basename := stem (entry_name diagram_name) in
  not_in_white_list white_list file_basename = false ->
  assoc (file_basename ++ ".png")%string labels = Some label_data ->
  project_annotations label_data = Ok current_labels ->
  getitem current_labels "classifications" = Ok (JList items) ->
  Forall (fun l => exists n, getitem l "name" = Ok n
                             /\ json_eq_str n "pixel_size_volt" = false)
         items ->
  load_entry settings labels single_dot load_lines load_areas white_list st
             diagram_name
  = Ok (no_label st)
  /\ nb_no_label (no_label st) = S (nb_no_label st)
  /\ nb_filtered (no_label st) = nb_filtered st
  /\ nb_excluded (no_label st) = nb_excluded st
  /\ diagrams (no_label st) = diagrams st
  /\ (forall white_list' labels' single_dot',
        not_in_white_list white_list' file_basename = true ->
        load_entry settings labels' single_dot' load_lines load_areas
                   white_list' st diagram_name
        = Ok (excluded st)
        /\ nb_excluded (excluded st) = S (nb_excluded st)
        /\ nb_no_label (excluded st) = nb_no_label st
        /\ nb_filtered (excluded st) = nb_filtered st)
  /\ (forall labels' single_dot',
        assoc (file_basename ++ ".png")%string labels' = None ->
        load_entry settings labels' single_dot' load_lines load_areas
                   white_list st diagram_name
        = Ok (no_label st))
  /\ (forall labels' label_data' single_dot',
        assoc (file_basename ++ ".png")%string labels' = Some label_data' ->
        project_annotations label_data' = Raise StopIteration ->
        load_entry settings labels' single_dot' load_lines load_areas
                   white_list st diagram_name
        = Ok (no_label st))
  /\ (forall labels' label_data' current_labels' single_dot',
        assoc (file_basename ++ ".png")%string labels' = Some label_data' ->
        project_annotations label_data' = Ok current_labels' ->
        classifications current_labels' = Raise StopIteration ->
        load_entry settings labels' single_dot' load_lines load_areas
                   white_list st diagram_name
        = Ok (no_label st))
  /\ (forall labels' label_data' current_labels' label_pixel_size
             is_single_dot,
        assoc (file_basename ++ ".png")%string labels' = Some label_data' ->
        project_annotations label_data' = Ok current_labels' ->
        classifications current_labels'
        = Ok (label_pixel_size, is_single_dot) ->
        is_single_dot <> single_dot ->
        load_entry settings labels' single_dot load_lines load_areas
                   white_list st diagram_name
        = Ok (filtered st)
        /\ nb_filtered (filtered st) = S (nb_filtered st)
        /\ nb_no_label (filtered st) = nb_no_label st
        /\ nb_excluded (filtered st) = nb_excluded st).
Proof.
  intros file_basename Hwl Hlabel Hproject Hcls Hitems.
  split; [| split; [reflexivity |]; split; [reflexivity |];
            split; [reflexivity |]; split; [reflexivity |];
            split; [| split; [| split; [| split]]]].
  - unfold load_entry. fold file_basename.
    rewrite Hwl, Hlabel, Hproject.
    rewrite (classifications_missing_pixel_size _ _ Hcls Hitems).
    reflexivity.
  - intros white_list' labels' single_dot' Hout.
    split; [| repeat split].
    unfold load_entry. fold file_basename.
    rewrite Hout. reflexivity.
  - intros labels' single_dot' Hnone. unfold load_entry. fold file_basename.
    rewrite Hwl, Hnone. reflexivity.
  - intros labels' label_data' single_dot' Hl Hstop.
    unfold load_entry. fold file_basename.
    rewrite Hwl, Hl, Hstop. reflexivity.
  - intros labels' label_data' current_labels' single_dot' Hl Hp Hstop.
    unfold load_entry. fold file_basename.
    rewrite Hwl, Hl, Hp, Hstop. reflexivity.
  - intros labels' label_data' current_labels' label_pixel_size
      is_single_dot Hl Hp Hc Hdiff.
    split; [| repeat split].
    unfold load_entry. fold file_basename.
    rewrite Hwl, Hl, Hp, Hc.
    destruct single_dot, is_single_dot; cbn; congruence.
Qed.

Lemma for_each_invariant {A S : Type} (l : list A)
  (body : S -> A -> result S) (P : S -> Prop) (s s' : S) :
  (forall s a s', body s a = Ok s' -> P s -> P s') ->
  P s -> for_each l body s = Ok s' -> P s'.
Proof.
  intros Hbody. revert s. induction l as [| a l IH]; intros s Hs Hrun.
  - cbn in Hrun. injection Hrun as <-. exact Hs.
  - cbn [for_each] in Hrun. unfold bind in Hrun.
    destruct (body s a) as [s1 |] eqn:E1; [| discriminate].
    apply (IH s1); [| exact Hrun].
    apply (Hbody s a); assumption.
Qed.

(** Destructs, in a hypothesis that a chain of binds and matches returned
    [Ok], the scrutinees one after the other. *)
Ltac break_ok H :=
  repeat (unfold bind in H;
          match type of H with
          | Ok _ = Ok _ => fail 1
          | context [match ?x with _ => _ end] =>
              destruct x eqn:?; try discriminate H
          | context [if ?x then _ else _] =>
              destruct x eqn:?; try discriminate H
          end).

Lemma load_one_keeps_skip_counters (settings : Settings)
  (load_lines load_areas : bool) (st st' : load_state)
  (diagram_name : zip_entry) (file_basename : string)
  (current_labels : json) (label_pixel_size : f64) :
  load_one settings load_lines load_areas st diagram_name file_basename
           current_labels label_pixel_size = Ok st' ->
  nb_excluded st' = nb_excluded st /\ nb_filtered st' = nb_filtered st.
Proof.
  intros H. unfold load_one in H.
  break_ok H; injection H as <-; split; reflexivity.
Qed.

Lemma load_entry_nb_excluded (settings : Settings)
  (labels : list (string * json)) (single_dot load_lines load_areas : bool)
  (white_list : option (list string)) (st st' : load_state)
  (diagram_name : zip_entry) :
  load_entry settings labels single_dot load_lines load_areas white_list st
             diagram_name = Ok st' ->
  nb_excluded st'
  = (nb_excluded st
     + if not_in_white_list white_list (stem (entry_name diagram_name))
       then 1 else 0)%nat.
Proof.
  intros H. unfold load_entry in H.
  destruct (not_in_white_list white_list (stem (entry_name diagram_name))).
  - injection H as <-. cbn. lia.
  - destruct (assoc _ labels) as [label_data |];
      [| injection H as <-; cbn; lia].
    destruct (project_annotations label_data) as [current_labels | e].
    2: { destruct e; try discriminate H. injection H as <-. cbn. lia. }
    destruct (classifications current_labels) as [[ps is_single] | e].
    2: { destruct e; try discriminate H. injection H as <-. cbn. lia. }
    destruct (negb (Bool.eqb single_dot is_single)).
    + injection H as <-. cbn. lia.
    + apply load_one_keeps_skip_counters in H. lia.
Qed.

(** C9: an empty whitelist filters nothing. Every base name passes the
    whitelist test, the whole load runs as it does without a whitelist, and
    when it returns no diagram was counted as excluded. *)
Theorem load_diagrams_empty_white_list (settings : Settings)
  (pixel_size_mV research_group : string) (diagrams_path : ZipFile)
  (labels_path : list (option json))
  (single_dot load_lines load_areas : bool) :
  (forall file_basename, not_in_white_list (Some []) file_basename = false)
  /\ load_diagrams_run settings pixel_size_mV research_group diagrams_path
       labels_path single_dot load_lines load_areas (Some [])
     = load_diagrams_run settings pixel_size_mV research_group diagrams_path
         labels_path single_dot load_lines load_areas None
  /\ load_diagrams settings pixel_size_mV research_group diagrams_path
       labels_path single_dot load_lines load_areas (Some [])
     = load_diagrams settings pixel_size_mV research_group diagrams_path
         labels_path single_dot load_lines load_areas None
  /\ match load_diagrams_run settings pixel_size_mV research_group
             diagrams_path labels_path single_dot load_lines load_areas
             (Some []) with
     | Ok st => nb_excluded st = 0%nat
     | Raise _ => True
     end.
Proof.
  split; [intros; reflexivity |]. split; [reflexivity |].
  split; [reflexivity |].
  unfold load_diagrams_run.
  destruct (load_labels labels_path) as [labels | e]; cbn [bind];
    [| exact I].
  destruct (negb (is_dir _)); [exact I |].
  match goal with
  | |- match ?r with _ => _ end => destruct r as [st | e] eqn:Erun
  end; [| exact I].
  apply (for_each_invariant _ _ (fun s => nb_excluded s = 0%nat)) in Erun;
    [exact Erun | | reflexivity].
  intros s a s' Hbody Hs.
  apply load_entry_nb_excluded in Hbody. cbn in Hbody. lia.
Qed.

Lemma ends_with_slash_app (a b : string) :
  b <> EmptyString -> ends_with_slash (a ++ b)%string = ends_with_slash b.
Proof.
  intros Hb. induction a as [| c a IH]; [reflexivity |].
  cbn [append ends_with_slash]. rewrite <- IH.
  destruct (a ++ b)%string eqn:E; [| reflexivity].
  destruct a; cbn in E; [contradiction | discriminate].
Qed.

Lemma append_slash_nonempty (a : string) : (a ++ "/")%string <> EmptyString.
Proof. destruct a; discriminate. Qed.

(** The path of line 280 ends with a slash, so [zip_dir.is_dir()] holds
    whatever the archive contains. *)
Lemma is_dir_in_zip_path (pixel_size_mV research_group : string) :
  is_dir (pixel_size_mV ++ "mV/" ++ research_group ++ "/")%string = true.
Proof.
  unfold is_dir. apply orb_true_iff. right.
  rewrite ends_with_slash_app.
  2: { cbn. discriminate. }
  rewrite (ends_with_slash_app "mV/" (research_group ++ "/"))
    by apply append_slash_nonempty.
  rewrite (ends_with_slash_app research_group "/") by discriminate.
  reflexivity.
Qed.

(** The guard of lines 283-285 is never taken: the load is the label index
    followed by the loop over whatever [iterdir] lists. *)
Lemma load_diagrams_run_unguarded (settings : Settings)
  (pixel_size_mV research_group : string) (diagrams_path : ZipFile)
  (labels_path : list (option json))
  (single_dot load_lines load_areas : bool)
  (white_list : option (list string)) :
  load_diagrams_run settings pixel_size_mV research_group diagrams_path
    labels_path single_dot load_lines load_areas white_list
  = (labels <- load_labels labels_path ;;
     for_each
       (iterdir diagrams_path
                (pixel_size_mV ++ "mV/" ++ research_group ++ "/")%string)
       (load_entry settings labels single_dot load_lines load_areas
                   white_list)
       (mkLoadState [] 0 0 0)).
Proof.
  unfold load_diagrams_run. rewrite is_dir_in_zip_path. reflexivity.
Qed.

(** X4: with the subdirectory absent from the archive, the load returns
    the empty list as soon as the label index loads. *)
Lemma load_diagrams_absent_folder (settings : Settings)
  (pixel_size_mV research_group : string) (diagrams_path : ZipFile)
  (labels_path : list (option json)) (labels : list (string * json))
  (single_dot load_lines load_areas : bool)
  (white_list : option (list string)) :
  load_labels labels_path = Ok labels ->
  assoc (pixel_size_mV ++ "mV/" ++ research_group ++ "/")%string
        diagrams_path = None ->
  load_diagrams settings pixel_size_mV research_group diagrams_path
    labels_path single_dot load_lines load_areas white_list
  = Ok [].
Proof.
  intros Hlabels Habsent. unfold load_diagrams.
  rewrite load_diagrams_run_unguarded, Hlabels. cbn [bind].
  unfold iterdir. rewrite Habsent. reflexivity.
Qed.

Lemma load_entry_skips (settings : Settings)
  (labels : list (string * json)) (single_dot load_lines load_areas : bool)
  (white_list : option (list string)) (st : load_state)
  (diagram_name : zip_entry) :
  skip_reason labels single_dot white_list diagram_name ->
  exists st',
    load_entry settings labels single_dot load_lines load_areas white_list
               st diagram_name = Ok st'
    /\ diagrams st' = diagrams st.
Proof.
  unfold skip_reason, load_entry.
  destruct (not_in_white_list white_list (stem (entry_name diagram_name))).
  { intros _. eexists. split; reflexivity. }
  intros [Hwl | [Hnone | [label_data [Hsome Hrecord]]]].
  - discriminate.
  - rewrite Hnone. eexists. split; reflexivity.
  - rewrite Hsome.
    destruct Hrecord as [Hstop | [current_labels [Hproject Hcls]]].
    + rewrite Hstop. eexists. split; reflexivity.
    + rewrite Hproject.
      destruct Hcls as [Hstop | [ps [is_single [Hcls Hdiff]]]].
      * rewrite Hstop. eexists. split; reflexivity.
      * rewrite Hcls.
        destruct single_dot, is_single; cbn;
          try congruence; eexists; split; reflexivity.
Qed.

(** X3: the skips are ordinary control flow: when every file of the directory
    is skipped for one of these reasons, the load raises nothing and
    returns the empty list. *)
Theorem load_diagrams_all_skipped_returns_empty (settings : Settings)
  (pixel_size_mV research_group : string) (diagrams_path : ZipFile)
  (labels_path : list (option json)) (labels : list (string * json))
  (single_dot load_lines load_areas : bool)
  (white_list : option (list string)) :
  load_labels labels_path = Ok labels ->
  Forall (skip_reason labels single_dot white_list)
         (iterdir diagrams_path
                  (pixel_size_mV ++ "mV/" ++ research_group ++ "/")%string) ->
  load_diagrams settings pixel_size_mV research_group diagrams_path
    labels_path single_dot load_lines load_areas white_list
  = Ok [].
Proof.
  intros Hlabels Hskips. unfold load_diagrams.
  rewrite load_diagrams_run_unguarded, Hlabels. cbn [bind].
  assert (Hrun : forall st,
            exists st',
              for_each
                (iterdir diagrams_path
                   (pixel_size_mV ++ "mV/" ++ research_group ++ "/")%string)
                (load_entry settings labels single_dot load_lines load_areas
                            white_list) st = Ok st'
              /\ diagrams st' = diagrams st).
  { induction Hskips as [| e entries He Hskips IH]; intros st.
    - exists st. split; reflexivity.
    - destruct (load_entry_skips settings labels single_dot load_lines
                  load_areas white_list st e He) as [st1 [Hstep Hsame]].
      destruct (IH st1) as [st' [Hrest Hsame']].
      exists st'. cbn [for_each]. rewrite Hstep. cbn [bind].
      split; [exact Hrest | congruence]. }
  destruct (Hrun (mkLoadState [] 0 0 0)) as [st' [Hend Hnone]].
  rewrite Hend. cbn [bind]. cbn [diagrams] in Hnone. rewrite Hnone.
  reflexivity.
Qed.

End LoaderProperties.

(* ================================================================== *)
(** * The properties on concrete diagrams and archives                 *)
(* ================================================================== *)

Section Concrete.
#[local] Existing Instances exact_geometry electron_regimes
  decimal_builtins spec_diagram_base.

Ltac by_eval :=
  vm_compute; repeat split; first [reflexivity | discriminate].

Lemma zeros_wf (h w : nat) : tensor_wf (zeros h w).
Proof.
  unfold tensor_wf, zeros. cbn [cells width].
  apply Forall_forall. intros r Hr.
  apply repeat_spec in Hr. subst r. apply repeat_length.
Qed.

(** C1, as stated, fails: a diagram whose grid has shape (20, 20), read
    with the extended window off, patches of (10, 10), no overlap and no
    label offset, yields one patch and not four. *)
Lemma get_patches_20x20_single_patch :
  shape (values (sample_diagram 20)) = (20, 20)
  /\ use_ewma no_ewma = false
  /\ raised (get_patches no_ewma (sample_diagram 20) (10, 10) (0, 0) (0, 0))
     = None
  /\ map window
       (yielded (get_patches no_ewma (sample_diagram 20) (10, 10) (0, 0)
                             (0, 0)))
     = [(0, 0)]
  /\ length (yielded (get_patches no_ewma (sample_diagram 20) (10, 10)
                                  (0, 0) (0, 0)))
     <> 4%nat.
Proof. by_eval. Qed.

(** The amended C1 on a grid of shape (21, 21): the four windows. *)
Lemma get_patches_windows_on_21 :
  raised (get_patches no_ewma (sample_diagram 21) (10, 10) (0, 0) (0, 0))
  = None
  /\ map window
       (yielded (get_patches no_ewma (sample_diagram 21) (10, 10) (0, 0)
                             (0, 0)))
     = [(0, 0); (10, 0); (0, 10); (10, 10)]
  /\ Forall (fun item => shape (patch item) = (10, 10))
       (yielded (get_patches no_ewma (sample_diagram 21) (10, 10) (0, 0)
                             (0, 0))).
Proof.
  destruct (get_patches_windows no_ewma (sample_diagram 21) 10 10 0 0
              [mkLineString [volt_point 2 0; volt_point 2 21]]
              eq_refl (zeros_wf 21 21) eq_refl eq_refl eq_refl
              (conj (Z.le_refl 0) eq_refl) (conj (Z.le_refl 0) eq_refl))
    as [Hraised [Hwindows [_ [Hshapes _]]]].
  split; [exact Hraised |]. split; [| exact Hshapes].
  rewrite Hwindows. reflexivity.
Defined.

(** C2 at a failing input: the pixel (-5, -5) lies outside a diagram of 8 by
    8 pixels, yet the negative indices wrap to the pixel (3, 3) and the
    regime of the region around it is returned instead of [UNKNOWN]. *)
Lemma get_charge_negative_index_wraps :
  length (x_axes (sample_diagram 8)) = 8%nat
  /\ get_charge (sample_diagram 8) (-5) (-5) = Ok ELECTRON_1
  /\ get_charge (sample_diagram 8) (-5) (-5) = get_charge (sample_diagram 8) 3 3
  /\ get_charge (sample_diagram 8) (-5) (-5) <> Ok UNKNOWN.
Proof. by_eval. Qed.

Lemma ewma_item_yielded :
  In ewma_item
     (yielded (get_patches with_ewma (sample_diagram 21) (5, 10) (0, 0)
                           (1, 1))).
Proof. vm_compute. left. reflexivity. Defined.

(** C3 on the sample diagram: a requested width of 5 gives a slice of 8
    columns starting at column 0, labelled as the window starting at
    column 3. *)
Lemma get_patches_ewma_window_on_21 :
  patch ewma_item = tensor_slice (values (sample_diagram 21)) 0 10 0 8
  /\ is_line_in_patch (sample_diagram 21) (3, 0) (5, 10) (1, 1)
     = Ok (label ewma_item)
  /\ shape (patch ewma_item) = (10, 8).
Proof.
  destruct (get_patches_ewma_window with_ewma (sample_diagram 21)
              5 10 0 0 1 1 ewma_item eq_refl ewma_item_yielded)
    as [Hpatch [Hlabel Hshape]].
  split; [exact Hpatch |]. split; [exact Hlabel |].
  apply Hshape; [apply zeros_wf | | | |]; by_eval.
Defined.

Lemma plain_second_item_yielded :
  In plain_second_item
     (yielded (get_patches no_ewma (sample_diagram 21) (10, 10) (0, 0)
                           (1, 1))).
Proof. vm_compute. right. left. reflexivity. Defined.

(** C5 on the sample diagram, for the window at (10, 0). *)
Lemma get_patches_label_is_line_in_patch_on_21 :
  window plain_second_item = (10, 0)
  /\ is_line_in_patch (sample_diagram 21) (window plain_second_item)
       (10, 10) (1, 1)
     = Ok (label plain_second_item).
Proof.
  split; [reflexivity |].
  exact (get_patches_label_is_line_in_patch no_ewma (sample_diagram 21)
           (10, 10) (0, 0) (1, 1) plain_second_item eq_refl
           plain_second_item_yielded).
Defined.

(** C10 on the diagram without annotations. *)
Lemma get_charge_absent_areas_on_bare_diagram :
  get_charge (bare_diagram 8) 1 1 = Raise TypeError
  /\ get_charge (bare_diagram 8) 1 1 <> Ok UNKNOWN.
Proof.
  apply get_charge_absent_areas_raises; by_eval.
Defined.

(** C7 on the sample diagram: the pixel (2, 2) lies inside both regions,
    and the regime of the first one is returned; the two sample records load
    into two regions, the one of the first record first. *)
Lemma get_charge_first_region_on_sample :
  contains (square 0 4) (volt_point 2 2) = true
  /\ contains (square 1 6) (volt_point 2 2) = true
  /\ get_charge (sample_diagram 8) 2 2 = Ok ELECTRON_1
  /\ _load_charge_annotations (map Ok sample_area_records) sample_x_axis
       sample_y_axis milli 1
     = Ok sample_regions
  /\ map fst sample_regions = [ELECTRON_1; ELECTRON_2].
Proof.
  assert (Hx : 0 <= 2 < Z.of_nat (length (x_axes (sample_diagram 8))))
    by by_eval.
  assert (Hy : 0 <= 2 < Z.of_nat (length (y_axes (sample_diagram 8))))
    by by_eval.
  assert (Hin : contains (square 0 4)
                  (nth (Z.to_nat 2) (x_axes (sample_diagram 8))
                       (S754_zero false),
                   nth (Z.to_nat 2) (y_axes (sample_diagram 8))
                       (S754_zero false)) = true)
    by by_eval.
  destruct (get_charge_first_region_in_record_order (sample_diagram 8) 2 2
              [] [(ELECTRON_2, square 1 6)] ELECTRON_1 (square 0 4)
              (map Ok sample_area_records) sample_x_axis sample_y_axis
              milli 1 sample_regions
              Hx Hy eq_refl (Forall_nil _) Hin)
    as [Hcharge Hloader].
  split; [by_eval |]. split; [by_eval |]. split; [exact Hcharge |].
  split; [| reflexivity].
  apply Hloader. exists sample_area_records. split; [reflexivity |].
  remember sample_regions as regions eqn:Eregions.
  vm_compute in Eregions. subst regions. unfold sample_area_records.
  constructor; [vm_compute; reflexivity |].
  constructor; [vm_compute; reflexivity |].
  constructor.
Defined.

Lemma nb_dot_is_not_pixel_size :
  Forall (fun l => exists n, getitem l "name" = Ok n
                             /\ json_eq_str n "pixel_size_volt" = false)
         [classification_radio "nb_dot" "double"].
Proof.
  constructor; [| constructor].
  exists (JStr "nb_dot"). split; reflexivity.
Defined.

(** C4 on the sample index, single dots being asked for: the record of d2
    names a double dot and has no pixel_size_volt, and d2 counts as
    unlabeled, not as filtered; outside the whitelist d1 it counts as
    excluded, with its record and also with an empty label index, where a
    label lookup coming first would have counted it as unlabeled. *)
Lemma load_entry_missing_pixel_size_on_sample :
  load_entry no_ewma sample_index true true true None
             (mkLoadState [] 0 0 0) (mkZipEntry "d2.csv" (Some sample_csv))
  = Ok (mkLoadState [] 1 0 0)
  /\ load_entry no_ewma sample_index true true true (Some ["d1"%string])
                (mkLoadState [] 0 0 0)
                (mkZipEntry "d2.csv" (Some sample_csv))
     = Ok (mkLoadState [] 0 1 0)
  /\ load_entry no_ewma [] true true true (Some ["d1"%string])
                (mkLoadState [] 0 0 0)
                (mkZipEntry "d2.csv" (Some sample_csv))
     = Ok (mkLoadState [] 0 1 0)
  /\ load_entry no_ewma [] true true true None
                (mkLoadState [] 0 0 0)
                (mkZipEntry "d2.csv" (Some sample_csv))
     = Ok (mkLoadState [] 1 0 0).
Proof.
  destruct (load_entry_missing_pixel_size_is_unlabeled no_ewma sample_index
              true true true None (mkLoadState [] 0 0 0)
              (mkZipEntry "d2.csv" (Some sample_csv))
              (row_without_pixel_size "d2.png")
              (JDict [("classifications"%string,
                       JList [classification_radio "nb_dot" "double"]);
                      ("objects"%string, sample_objects)])
              [classification_radio "nb_dot" "double"]
              eq_refl eq_refl eq_refl eq_refl
              nb_dot_is_not_pixel_size)
    as [Hskip [_ [_ [_ [_ [Hwhite [Hnone _]]]]]]].
  split; [exact Hskip |].
  split; [exact (proj1 (Hwhite (Some ["d1"%string]) sample_index true
                               eq_refl)) |].
  split; [exact (proj1 (Hwhite (Some ["d1"%string]) [] true eq_refl)) |].
  exact (Hnone [] true eq_refl).
Defined.

Lemma sample_matrix_rows :
  Forall (fun r => length r = (3 + length [S754_zero false])%nat)
         sample_matrix.
Proof. repeat constructor. Defined.

Lemma sample_matrix_nonempty : sample_matrix <> [].
Proof. discriminate. Defined.

(** C6 on the sample grid file, loaded with the rows inverted. *)
Lemma load_interpolated_csv_on_sample :
  exists x_axis y_axis values,
    _load_interpolated_csv sample_csv true = Ok (x_axis, y_axis, values)
    /\ shape values = (3, 4)
    /\ nth_error x_axis 3
       = Some (f64_add (f64_mul (f64_of_int 3) milli) (S754_zero false))
    /\ cells values = map (map f32_of_f64) (rev sample_matrix).
Proof.
  destruct (load_interpolated_csv_axes_and_rows (S754_zero false)
              (S754_zero false) milli [S754_zero false] sample_matrix true
              sample_matrix_nonempty sample_matrix_rows)
    as (x_axis & y_axis & values & Hload & Hshape & _ & Hx & _ & _ & Hcells
        & _).
  exists x_axis, y_axis, values.
  split; [exact Hload |]. split; [exact Hshape |].
  split; [| exact Hcells].
  apply (Hx 3%nat). cbn. lia.
Defined.

(** C6, as stated, fails: the entry 0.1 of the encoded matrix is loaded as
    the nearest single-precision value, which is another number. *)
Lemma load_interpolated_csv_rounds_entries :
  exists x_axis y_axis values loaded,
    _load_interpolated_csv sample_csv false = Ok (x_axis, y_axis, values)
    /\ (row <- py_index sample_matrix 2 ;; py_index row 0) = Ok tenth
    /\ (row <- py_index (cells values) 2 ;; py_index row 0) = Ok loaded
    /\ same_real loaded tenth = false
    /\ cells values <> sample_matrix.
Proof.
  eexists _, _, _, _. split; [vm_compute; reflexivity |].
  split; [reflexivity |]. split; [vm_compute; reflexivity |].
  split; [reflexivity |]. vm_compute. discriminate.
Qed.

(** C8 at a failing input: the archive holds 1.0mV/louis/ only, the load
    asks for 2.0mV/louis/, and the empty list is returned instead of an
    exception. *)
Theorem load_diagrams_absent_folder_returns_empty :
  assoc "2.0mV/louis/"%string sample_archive = None
  /\ load_diagrams no_ewma "2.0" "louis" sample_archive sample_labels
       true true true None
     = Ok []
  /\ load_diagrams no_ewma "2.0" "louis" sample_archive sample_labels
       true true true None
     <> Raise (ValueError FolderNotFound).
Proof. by_eval. Qed.

(** On the sample diagram, whatever lies beyond either end of an axis is
    unknown: here the pixels (8, 0) and (0, -9). *)
Lemma get_charge_out_of_range_on_sample :
  get_charge (sample_diagram 8) 8 0 = Ok UNKNOWN
  /\ get_charge (sample_diagram 8) 0 (-9) = Ok UNKNOWN.
Proof.
  split; apply get_charge_out_of_range; [left; left | right; right];
    by_eval.
Defined.

Lemma get_charge_never_raises_on_sample :
  exists regime, get_charge (sample_diagram 8) (-20) 30 = Ok regime.
Proof.
  exact (get_charge_never_raises (sample_diagram 8) (-20) 30 _ eq_refl).
Defined.

(** [float] takes the integers up to the one that rounds to the largest
    finite binary64 value and refuses those from 2^1024 - 2^970 on. *)
Lemma float_of_int_range :
  (exists f, float_of_int (2 ^ 1024 - 2 ^ 970 - 1)%Z = Ok f)
  /\ float_of_int (2 ^ 1024 - 2 ^ 970)%Z = Raise OverflowError
  /\ float_of_int (- (2 ^ 1024 - 2 ^ 970))%Z = Raise OverflowError.
Proof.
  split; [eexists; vm_compute; reflexivity |].
  split; vm_compute; reflexivity.
Qed.

(** A record whose pixel size is the integer 10^400 is not a skipped one:
    [float] raises OverflowError at line 318, which no handler of the loop
    catches, and the load of the set aborts. *)
Lemma load_entry_huge_pixel_size_aborts :
  let huge_row :=
    label_row "d1.png" "qdsd"
      [JDict [("name"%string, JStr "pixel_size_volt");
              ("text_answer"%string,
               JDict [("content"%string, JInt (10 ^ 400)%Z)])];
       classification_radio "nb_dot" "double"] in
  load_entry no_ewma [("d1.png"%string, huge_row)] true true true None
             (mkLoadState [] 0 0 0) (mkZipEntry "d1.csv" (Some sample_csv))
  = Raise OverflowError
  /\ load_diagrams no_ewma "1.0" "louis" sample_archive [Some huge_row]
       true true true None
     = Raise OverflowError.
Proof. split; vm_compute; reflexivity. Qed.

Lemma sample_labels_load : load_labels sample_labels = Ok sample_index.
Proof. reflexivity. Defined.

Lemma sample_files_skipped :
  Forall (skip_reason sample_index false (Some ["d1"; "d2"]%string))
         (iterdir sample_archive "1.0mV/louis/").
Proof.
  constructor; [| constructor; [| constructor; [| constructor]]].
  - right. right. exists (complete_row "d1.png"). split; [reflexivity |].
    right. eexists. split; [reflexivity |].
    right. eexists _, true. split; [vm_compute; reflexivity | discriminate].
  - right. right. exists (row_without_pixel_size "d2.png").
    split; [reflexivity |].
    right. eexists. split; [reflexivity |]. left. reflexivity.
  - left. reflexivity.
Defined.

(** On the sample archive, asking for double dots within the whitelist
    d1, d2: d1 is filtered, d2 unlabeled, d3 excluded, and the empty list
    comes back. *)
Lemma load_diagrams_all_skipped_on_sample :
  load_diagrams no_ewma "1.0" "louis" sample_archive sample_labels
    false true true (Some ["d1"; "d2"]%string)
  = Ok [].
Proof.
  exact (load_diagrams_all_skipped_returns_empty no_ewma "1.0" "louis"
           sample_archive sample_labels sample_index false true true
           (Some ["d1"; "d2"]%string) sample_labels_load
           sample_files_skipped).
Defined.

(** On the sample archive, which has no directory 2.0mV/louis/. *)
Lemma load_diagrams_absent_folder_on_sample :
  load_diagrams no_ewma "2.0" "louis" sample_archive sample_labels
    true true true None
  = Ok [].
Proof.
  exact (load_diagrams_absent_folder no_ewma "2.0" "louis" sample_archive
           sample_labels sample_index true true true None
           sample_labels_load eq_refl).
Defined.

End Concrete.

(* ================================================================== *)
(** * Further properties of slices and patches                         *)
(* ================================================================== *)

Lemma slice_bound_range (n i : Z) : 0 <= n -> 0 <= slice_bound n i <= n.
Proof.
  intros Hn. unfold slice_bound. destruct (Z.ltb_spec i 0); lia.
Qed.

Lemma py_slice_length_any {A : Type} (l : list A) (a b : Z) :
  length (py_slice l a b) = slice_len (Z.of_nat (length l)) a b.
Proof.
  unfold py_slice, slice_len.
  pose proof (slice_bound_range (Z.of_nat (length l)) a (Zle_0_nat _)).
  pose proof (slice_bound_range (Z.of_nat (length l)) b (Zle_0_nat _)).
  rewrite length_firstn, length_skipn. lia.
Qed.

Lemma tensor_slice_shape_any (t : Tensor) (y0 y1 x0 x1 : Z) :
  shape (tensor_slice t y0 y1 x0 x1)
  = (Z.of_nat (slice_len (fst (shape t)) y0 y1),
     Z.of_nat (slice_len (snd (shape t)) x0 x1)).
Proof.
  unfold shape, tensor_slice. cbn [cells width fst snd].
  rewrite length_map, py_slice_length_any. reflexivity.
Qed.

Lemma slice_len_forward (n a size : Z) :
  0 <= n -> 0 <= a -> 0 <= size ->
  Z.of_nat (slice_len n a (a + size)) = Z.min (a + size) n - Z.min a n.
Proof.
  intros Hn Ha Hs. unfold slice_len, slice_bound.
  destruct (Z.ltb_spec (a + size) 0); [lia |].
  destruct (Z.ltb_spec a 0); lia.
Qed.

Lemma py_slice_map {A B : Type} (f : A -> B) (l : list A) (a b : Z) :
  py_slice (map f l) a b = map f (py_slice l a b).
Proof.
  unfold py_slice. rewrite length_map, skipn_map, firstn_map. reflexivity.
Qed.

Lemma tensor_slice_map (f : f32 -> f32) (t : Tensor) (y0 y1 x0 x1 : Z) :
  tensor_slice (tensor_map f t) y0 y1 x0 x1
  = tensor_map f (tensor_slice t y0 y1 x0 x1).
Proof.
  unfold tensor_slice, tensor_map. cbn [cells width].
  rewrite py_slice_map, !map_map. f_equal.
  apply map_ext. intros r. apply py_slice_map.
Qed.

Lemma tensor_map_shape (f : f32 -> f32) (t : Tensor) :
  shape (tensor_map f t) = shape t.
Proof.
  unfold shape, tensor_map. cbn [cells width].
  rewrite length_map. reflexivity.
Qed.

Section PatchProperties.
Context {CR : ChargeRegimes} {G : Shapely} {T : Torch}.

(** X5: every patch that [get_patches] yields is the patch [get_patch]
    extracts without normalization at the yielded window, for the patch
    size widened by the extended-window margin. *)
Theorem get_patches_patch_is_get_patch (settings : Settings)
  (normalization : option string) (self : DiagramOffline)
  (psx psy : Z) (overlap label_offset : Z * Z) (item : patch_item) :
  In item (yielded (get_patches settings self (psx, psy) overlap
                                label_offset)) ->
  get_patch normalization self (window item)
            (psx + (if use_ewma settings then 3 else 0), psy) false
  = Returns (patch item).
Proof.
  destruct overlap as [ovx ovy], label_offset as [ox oy].
  intros Hin. apply get_patches_inv in Hin. cbn zeta in Hin.
  destruct Hin as (px & py & ys & xs & sxv & syv & exv & eyv & ls
                   & Hw & _ & _ & _ & _ & _ & _ & _ & _ & _ & Hpatch & _).
  rewrite Hw, Hpatch. reflexivity.
Qed.

(** X6: without normalization [get_patch] checks no bound and never
    raises: from a non-negative corner and size it returns the part of
    the window that lies inside the grid, which is the whole window when it
    fits, a truncated one when it sticks out and a tensor without rows or
    without columns when the corner is beyond the grid. *)
Theorem get_patch_raw_is_clipped (normalization : option string)
  (self : DiagramOffline) (coord_x coord_y size_x size_y : Z) :
  0 <= coord_x -> 0 <= coord_y -> 0 <= size_x -> 0 <= size_y ->
  let size_y_grid := fst (shape (values self)) in
  let size_x_grid := snd (shape (values self)) in
  exists patch,
    get_patch normalization self (coord_x, coord_y) (size_x, size_y) false
    = Returns patch
    /\ shape patch
       = (Z.min (coord_y + size_y) size_y_grid - Z.min coord_y size_y_grid,
          Z.min (coord_x + size_x) size_x_grid - Z.min coord_x size_x_grid)
    /\ (coord_y + size_y <= size_y_grid -> coord_x + size_x <= size_x_grid ->
        shape patch = (size_y, size_x))
    /\ (size_y_grid <= coord_y -> fst (shape patch) = 0)
    /\ (size_x_grid <= coord_x -> snd (shape patch) = 0).
Proof.
  intros Hx Hy Hsx Hsy size_y_grid size_x_grid.
  eexists. split; [reflexivity |].
  assert (Hshape :
    shape (tensor_slice (values self) coord_y (coord_y + size_y)
                        coord_x (coord_x + size_x))
    = (Z.min (coord_y + size_y) size_y_grid - Z.min coord_y size_y_grid,
       Z.min (coord_x + size_x) size_x_grid - Z.min coord_x size_x_grid)).
  { rewrite tensor_slice_shape_any.
    rewrite !slice_len_forward by
      (try assumption; unfold shape; cbn [fst snd]; lia).
    reflexivity. }
  split; [exact Hshape |]. rewrite Hshape. cbn [fst snd].
  split; [| split].
  - intros Hfy Hfx. f_equal; lia.
  - intros Hout. lia.
  - intros Hout. lia.
Qed.

Lemma set_values_norm_fields (min_value max_value : f64)
  (diagram : DiagramOffline) :
  let diagram' := set_values_norm min_value max_value diagram in
  name diagram' = name diagram
  /\ x_axes diagram' = x_axes diagram
  /\ y_axes diagram' = y_axes diagram
  /\ values diagram' = values diagram
  /\ transition_lines diagram' = transition_lines diagram
  /\ charge_areas diagram' = charge_areas diagram.
Proof. cbn. repeat split. Qed.

(** X7: once [normalize_diagrams] has run (outside the oracle mode), the
    'train-set' patch of a diagram is its raw patch with every entry
    rescaled by the global minimum and maximum, so it has the shape of the
    raw patch; on a diagram that was never normalized the same call raises
    a [TypeError]. *)
Theorem get_patch_train_set_after_normalize_diagrams
  (min_value max_value : f64) (diagrams normalized : list DiagramOffline)
  (i : nat) (diagram : DiagramOffline)
  (coord_x coord_y size_x size_y : Z) :
  normalize_diagrams false (Ok (min_value, max_value)) diagrams
  = Ok normalized ->
  nth_error diagrams i = Some diagram ->
  let rescale := fun v => f32_div_scalar (f32_sub_scalar v min_value)
                                         (f64_sub max_value min_value) in
  exists diagram' raw,
    nth_error normalized i = Some diagram'
    /\ get_patch (Some "train-set"%string) diagram (coord_x, coord_y)
                 (size_x, size_y) false = Returns raw
    /\ get_patch (Some "train-set"%string) diagram' (coord_x, coord_y)
                 (size_x, size_y) true = Returns (tensor_map rescale raw)
    /\ shape (tensor_map rescale raw) = shape raw
    /\ (values_norm diagram = None ->
        get_patch (Some "train-set"%string) diagram (coord_x, coord_y)
                  (size_x, size_y) true = Throws TypeError).
Proof.
  intros Hnorm Hnth rescale. cbn in Hnorm. injection Hnorm as <-.
  exists (set_values_norm min_value max_value diagram). eexists.
  split; [rewrite nth_error_map, Hnth; reflexivity |].
  split; [reflexivity |]. split.
  - cbn. rewrite tensor_slice_map. reflexivity.
  - split; [apply tensor_map_shape |].
    intros Hnone. cbn. rewrite Hnone. reflexivity.
Qed.

Lemma tensor_map_wf (f : f32 -> f32) (t : Tensor) :
  tensor_wf t -> tensor_wf (tensor_map f t).
Proof.
  unfold tensor_wf, tensor_map. cbn [cells width]. intros H.
  apply Forall_map. eapply Forall_impl; [| exact H].
  intros r Hr. cbn beta. rewrite length_map. exact Hr.
Qed.

(** X8: [normalize_diagrams] (outside the oracle mode, with statistics
    that load) keeps the diagrams in number and order, touches nothing but
    their normalized grid - name, axes, raw values and annotations stay -
    and leaves each with a normalized grid of the shape of its raw grid. *)
Theorem normalize_diagrams_keeps_raw_data (min_value max_value : f64)
  (diagrams normalized : list DiagramOffline) :
  normalize_diagrams false (Ok (min_value, max_value)) diagrams
  = Ok normalized ->
  Forall2 (fun diagram diagram' =>
             name diagram' = name diagram
             /\ x_axes diagram' = x_axes diagram
             /\ y_axes diagram' = y_axes diagram
             /\ values diagram' = values diagram
             /\ transition_lines diagram' = transition_lines diagram
             /\ charge_areas diagram' = charge_areas diagram
             /\ exists norm,
                  values_norm diagram' = Some norm
                  /\ shape norm = shape (values diagram)
                  /\ (tensor_wf (values diagram) -> tensor_wf norm))
          diagrams normalized.
Proof.
  intros Hnorm. cbn in Hnorm. injection Hnorm as <-.
  induction diagrams as [| d ds IH]; cbn [map]; constructor; [| exact IH].
  cbn. repeat split.
  eexists. split; [reflexivity |].
  split; [apply tensor_map_shape | apply tensor_map_wf].
Qed.

(** X9: normalizing again changes nothing: the normalized grid is always
    computed from the raw values, never from a previous normalization. In
    the oracle mode the statistics are not even read. *)
Theorem normalize_diagrams_idempotent (autotuning_use_oracle : bool)
  (load_normalization : result (f64 * f64))
  (diagrams normalized : list DiagramOffline) :
  normalize_diagrams autotuning_use_oracle load_normalization diagrams
  = Ok normalized ->
  normalize_diagrams autotuning_use_oracle load_normalization normalized
  = Ok normalized
  /\ (autotuning_use_oracle = true -> normalized = diagrams).
Proof.
  unfold normalize_diagrams. destruct autotuning_use_oracle.
  - intros H. injection H as <-. split; reflexivity.
  - destruct load_normalization as [[min_value max_value] | e];
      cbn [bind]; [| discriminate].
    intros H. injection H as <-. split; [| discriminate].
    rewrite map_map. reflexivity.
Qed.

(** ** The sliding window in general *)

Lemma gen_for_windows {A B C : Type} (l : list A) (body : A -> run B)
  (g : B -> C) (h : A -> list C) :
  (forall a, In a l ->
     raised (body a) = None /\ map g (yielded (body a)) = h a) ->
  raised (gen_for l body) = None
  /\ map g (yielded (gen_for l body)) = flat_map h l.
Proof.
  induction l as [| a l IH]; intros H; cbn [gen_for flat_map].
  - split; reflexivity.
  - destruct (H a (or_introl eq_refl)) as [Hr Hy].
    destruct (IH (fun a' Ha' => H a' (or_intror Ha'))) as [Hr' Hy'].
    unfold gen_seq. rewrite Hr. cbn [raised yielded].
    split; [exact Hr' |]. rewrite map_app, Hy, Hy'. reflexivity.
Qed.

Lemma length_flat_map_const {A B : Type} (f : A -> list B) (l : list A)
  (n : nat) :
  (forall a, length (f a) = n) -> length (flat_map f l) = (length l * n)%nat.
Proof.
  intros H. induction l as [| a l IH]; cbn; [reflexivity |].
  rewrite length_app, H, IH. reflexivity.
Qed.

(** X10: with or without the extended window, on a diagram whose axes are
    as long as the sides of its grid and whose line list is present, for a
    label offset between 0 and the patch size and steps that go forward,
    [get_patches] ends without an exception; it visits, row after row, the
    multiples of the step whose (widened) window ends before the last
    index of the axis, and their number is the product of the lengths of
    the two ranges. *)
Theorem get_patches_completes (settings : Settings) (self : DiagramOffline)
  (psx psy ovx ovy ox oy : Z) (ls : list LineString) :
  length (x_axes self) = width (values self) ->
  length (y_axes self) = length (cells (values self)) ->
  transition_lines self = Some ls ->
  let ext := if use_ewma settings then 3 else 0 in
  0 <= ox <= psx -> 0 <= oy <= psy ->
  ovx < psx + ext -> ovy < psy ->
  let r := get_patches settings self (psx, psy) (ovx, ovy) (ox, oy) in
  let size_y := fst (shape (values self)) in
  let size_x := snd (shape (values self)) in
  raised r = None
  /\ map window (yielded r)
     = flat_map (fun y => map (fun x => (x, y))
                              (starts size_x (psx + ext) (psx + ext - ovx)))
                (starts size_y psy (psy - ovy))
  /\ Z.of_nat (length (yielded r))
     = range_len (size_x - (psx + ext)) (psx + ext - ovx)
       * range_len (size_y - psy) (psy - ovy).
Proof.
  intros Hlx Hly Hls ext Hox Hoy Hovx Hovy. cbn zeta.
  assert (Hrun :
    raised (get_patches settings self (psx, psy) (ovx, ovy) (ox, oy)) = None
    /\ map window
         (yielded (get_patches settings self (psx, psy) (ovx, ovy) (ox, oy)))
       = flat_map (fun y => map (fun x => (x, y))
                     (starts (snd (shape (values self))) (psx + ext)
                             (psx + ext - ovx)))
                  (starts (fst (shape (values self))) psy (psy - ovy))).
  { unfold get_patches, shape. cbn [fst snd].
    assert (Hps : (if use_ewma settings then psx + 3 else psx) = psx + ext).
    { unfold ext. destruct (use_ewma settings); lia. }
    assert (Hext : forall z, z + (if use_ewma settings then 1 else 0) * 3
                             = z + ext).
    { intros z. unfold ext. destruct (use_ewma settings); reflexivity. }
    assert (Hext0 : 0 <= ext) by (unfold ext; destruct (use_ewma settings); lia).
    rewrite Hps. rewrite py_range_pos by lia. cbn [gen_try].
    fold (starts (Z.of_nat (length (cells (values self)))) psy (psy - ovy)).
    apply gen_for_windows. intros y Hiny.
    apply starts_In in Hiny; [| lia]. destruct Hiny as [j [Hj [Hyj Hylt]]].
    assert (Hy0 : 0 <= y) by nia.
    rewrite (py_index_nth (y_axes self) (y + oy) (S754_zero false)) by lia.
    cbn [gen_try].
    rewrite (py_index_nth (y_axes self) (y + psy - oy) (S754_zero false))
      by lia.
    cbn [gen_try].
    rewrite py_range_pos by lia. cbn [gen_try].
    fold (starts (Z.of_nat (width (values self))) (psx + ext)
                 (psx + ext - ovx)).
    rewrite <- (flat_map_singleton (fun x => (x, y))).
    apply gen_for_windows. intros x Hinx.
    apply starts_In in Hinx; [| lia]. destruct Hinx as [i [Hi [Hxi Hxlt]]].
    assert (Hx0 : 0 <= x) by nia.
    rewrite Hext.
    rewrite (py_index_nth (x_axes self) (x + ox + ext) (S754_zero false))
      by lia.
    cbn [gen_try].
    rewrite (py_index_nth (x_axes self) (x + (psx + ext) - ox)
                          (S754_zero false)) by lia.
    cbn [gen_try new_Polygon].
    unfold any_line_intersects. rewrite Hls. cbn [gen_try].
    split; reflexivity. }
  destruct Hrun as [Hraised Hwindows].
  split; [exact Hraised |]. split; [exact Hwindows |].
  rewrite <- (length_map window), Hwindows.
  rewrite (length_flat_map_const _ _
             (length (starts (snd (shape (values self))) (psx + ext)
                             (psx + ext - ovx))))
    by (intros; apply length_map).
  unfold starts. rewrite !length_map, !length_seq.
  assert (0 <= ext) by (unfold ext; destruct (use_ewma settings); lia).
  pose proof (range_len_nonneg (snd (shape (values self)) - (psx + ext))
                (psx + ext - ovx)).
  pose proof (range_len_nonneg (fst (shape (values self)) - psy)
                (psy - ovy)).
  lia.
Qed.

Lemma starts_head (size patch step : Z) :
  0 < step -> patch < size ->
  exists rest, starts size patch step = 0 :: rest.
Proof.
  intros Hstep Hfit. unfold starts.
  assert (Hlen : Z.of_nat 0 < range_len (size - patch) step).
  { apply range_len_spec; [assumption | lia]. }
  destruct (Z.to_nat (range_len (size - patch) step)) as [| n] eqn:En;
    [lia |].
  cbn [seq map]. eexists. reflexivity.
Qed.

(** X11: a diagram without transition lines cannot be cut into patches:
    [get_patches] yields nothing on it, and as soon as one window fits
    (axes as long as the grid's sides, label offset within the patch,
    forward steps) it raises a [TypeError] at the first window. *)
Theorem get_patches_without_lines (settings : Settings)
  (self : DiagramOffline) (psx psy ovx ovy ox oy : Z) :
  transition_lines self = None ->
  length (x_axes self) = width (values self) ->
  length (y_axes self) = length (cells (values self)) ->
  let ext := if use_ewma settings then 3 else 0 in
  0 <= ox <= psx -> 0 <= oy <= psy ->
  ovx < psx + ext -> ovy < psy ->
  psx + ext < snd (shape (values self)) ->
  psy < fst (shape (values self)) ->
  get_patches settings self (psx, psy) (ovx, ovy) (ox, oy)
  = mkRun [] (Some TypeError).
Proof.
  intros Hls Hlx Hly ext Hox Hoy Hovx Hovy Hfx Hfy.
  unfold shape in Hfx, Hfy. cbn [fst snd] in Hfx, Hfy.
  unfold get_patches, shape. cbn [fst snd].
  assert (Hps : (if use_ewma settings then psx + 3 else psx) = psx + ext).
  { unfold ext. destruct (use_ewma settings); lia. }
  assert (Hext : forall z, z + (if use_ewma settings then 1 else 0) * 3
                           = z + ext).
  { intros z. unfold ext. destruct (use_ewma settings); reflexivity. }
  assert (Hext0 : 0 <= ext) by (unfold ext; destruct (use_ewma settings); lia).
  rewrite Hps. rewrite py_range_pos by lia. cbn [gen_try].
  fold (starts (Z.of_nat (length (cells (values self)))) psy (psy - ovy)).
  destruct (starts_head (Z.of_nat (length (cells (values self)))) psy
              (psy - ovy)) as [ys ->]; [lia | lia |].
  cbn [gen_for].
  rewrite (py_index_nth (y_axes self) (0 + oy) (S754_zero false)) by lia.
  cbn [gen_try].
  rewrite (py_index_nth (y_axes self) (0 + psy - oy) (S754_zero false))
    by lia.
  cbn [gen_try].
  rewrite py_range_pos by lia. cbn [gen_try].
  fold (starts (Z.of_nat (width (values self))) (psx + ext)
               (psx + ext - ovx)).
  destruct (starts_head (Z.of_nat (width (values self))) (psx + ext)
              (psx + ext - ovx)) as [xs ->]; [lia | lia |].
  cbn [gen_for]. rewrite Hext.
  rewrite (py_index_nth (x_axes self) (0 + ox + ext) (S754_zero false))
    by lia.
  cbn [gen_try].
  rewrite (py_index_nth (x_axes self) (0 + (psx + ext) - ox)
                        (S754_zero false)) by lia.
  cbn [gen_try new_Polygon].
  unfold any_line_intersects. rewrite Hls. reflexivity.
Qed.

(** X12: an overlap equal to the (widened) patch size on either axis
    never yields a patch; on the Y axis the generator raises the
    [ValueError] of a zero range step before anything else. *)
Theorem get_patches_zero_step (settings : Settings) (self : DiagramOffline)
  (psx psy ovx ovy ox oy : Z) :
  psy = ovy \/ psx + (if use_ewma settings then 3 else 0) = ovx ->
  yielded (get_patches settings self (psx, psy) (ovx, ovy) (ox, oy)) = []
  /\ (psy = ovy ->
      get_patches settings self (psx, psy) (ovx, ovy) (ox, oy)
      = mkRun [] (Some (ValueError RangeStepZero))).
Proof.
  intros Hzero. split.
  - destruct (yielded (get_patches settings self (psx, psy) (ovx, ovy)
                                   (ox, oy))) as [| item rest] eqn:E;
      [reflexivity |].
    assert (Hin : In item (yielded (get_patches settings self (psx, psy)
                                                (ovx, ovy) (ox, oy))))
      by (rewrite E; left; reflexivity).
    apply get_patches_inv in Hin. cbn zeta in Hin.
    destruct Hin as (px & py & ys & xs & sxv & syv & exv & eyv & ls
                     & _ & Hys & _ & Hxs & _).
    unfold py_range in Hys, Hxs.
    destruct Hzero as [-> | <-].
    + rewrite Z.sub_diag in Hys. discriminate.
    + rewrite Z.sub_diag in Hxs. discriminate.
  - intros ->. unfold get_patches, shape, py_range.
    rewrite Z.sub_diag. reflexivity.
Qed.

(** X13: with forward steps on a well-formed grid, every yielded window
    lies inside the grid, its end index strictly below the grid size, and
    its patch is complete: never clipped, of the requested (widened)
    shape, and well formed. *)
Theorem get_patches_patches_are_complete (settings : Settings)
  (self : DiagramOffline) (psx psy ovx ovy : Z) (label_offset : Z * Z)
  (item : patch_item) :
  tensor_wf (values self) ->
  let ext := if use_ewma settings then 3 else 0 in
  0 <= psx -> 0 <= psy -> ovx < psx + ext -> ovy < psy ->
  In item (yielded (get_patches settings self (psx, psy) (ovx, ovy)
                                label_offset)) ->
  0 <= fst (window item)
  /\ 0 <= snd (window item)
  /\ fst (window item) + psx + ext < snd (shape (values self))
  /\ snd (window item) + psy < fst (shape (values self))
  /\ shape (patch item) = (psy, psx + ext)
  /\ tensor_wf (patch item).
Proof.
  destruct label_offset as [ox oy].
  intros Hwf ext Hpsx Hpsy Hovx Hovy Hin.
  apply get_patches_inv in Hin. cbn zeta in Hin. fold ext in Hin.
  destruct Hin as (px & py & ys & xs & sxv & syv & exv & eyv & ls
                   & Hw & Hys & Hpy & Hxs & Hpx & _ & _ & _ & _ & _
                   & Hpatch & _).
  assert (Hext0 : 0 <= ext) by (unfold ext; destruct (use_ewma settings); lia).
  apply (py_range_In _ _ _ py) in Hys; [| lia].
  apply (py_range_In _ _ _ px) in Hxs; [| lia].
  apply Hys in Hpy. apply Hxs in Hpx.
  destruct Hpy as [j [Hj [Hpy Hylt]]]. destruct Hpx as [i [Hi [Hpx Hxlt]]].
  rewrite Hw. cbn [fst snd].
  assert (Hx0 : 0 <= px) by nia. assert (Hy0 : 0 <= py) by nia.
  repeat (split; [lia |]).
  rewrite Hpatch.
  replace (psy, psx + ext)
    with (py + psy - py, px + (psx + ext) - px) by (f_equal; lia).
  apply tensor_slice_shape; try assumption; lia.
Qed.

(** X14: without overlap the yielded windows tile the grid: two of them
    are the same window or lie at least one (widened) patch apart along an
    axis, so that their slices share no pixel. *)
Theorem get_patches_windows_do_not_overlap (settings : Settings)
  (self : DiagramOffline) (psx psy : Z) (label_offset : Z * Z)
  (a b : patch_item) :
  let ext := if use_ewma settings then 3 else 0 in
  0 < psx + ext -> 0 < psy ->
  In a (yielded (get_patches settings self (psx, psy) (0, 0)
                             label_offset)) ->
  In b (yielded (get_patches settings self (psx, psy) (0, 0)
                             label_offset)) ->
  window a = window b
  \/ psx + ext <= Z.abs (fst (window a) - fst (window b))
  \/ psy <= Z.abs (snd (window a) - snd (window b)).
Proof.
  destruct label_offset as [ox oy].
  intros ext Hpsx Hpsy Ha Hb.
  apply get_patches_inv in Ha. apply get_patches_inv in Hb.
  cbn zeta in Ha, Hb. fold ext in Ha, Hb.
  destruct Ha as (ax & ay & ys & xs & _ & _ & _ & _ & _
                  & Hwa & Hys & Hay & Hxs & Hax & _).
  destruct Hb as (bx & by_ & ys' & xs' & _ & _ & _ & _ & _
                  & Hwb & Hys' & Hby & Hxs' & Hbx & _).
  rewrite Hys in Hys'. injection Hys' as <-.
  rewrite Hxs in Hxs'. injection Hxs' as <-.
  rewrite Z.sub_0_r in Hys, Hxs.
  apply (py_range_In _ _ _ ay Hpsy Hys) in Hay.
  apply (py_range_In _ _ _ by_ Hpsy Hys) in Hby.
  apply (py_range_In _ _ _ ax Hpsx Hxs) in Hax.
  apply (py_range_In _ _ _ bx Hpsx Hxs) in Hbx.
  destruct Hay as [ja [_ [-> _]]]. destruct Hby as [jb [_ [-> _]]].
  destruct Hax as [ia [_ [-> _]]]. destruct Hbx as [ib [_ [-> _]]].
  rewrite Hwa, Hwb. cbn [fst snd].
  destruct (Z.eq_dec ia ib) as [-> | Hi].
  - destruct (Z.eq_dec ja jb) as [-> | Hj]; [left; reflexivity |].
    right. right. nia.
  - right. left. nia.
Qed.

(** X15: [is_line_in_patch] checks no bound itself: as soon as one of the
    four corner indices is out of range for its axis the call raises an
    [IndexError], whatever the lines; this is the case of a window that
    ends exactly on the boundary of the grid with no offset. *)
Theorem is_line_in_patch_out_of_range (self : DiagramOffline)
  (coord_x coord_y size_x size_y offset_x offset_y : Z) :
  out_of_range (x_axes self) (coord_x + offset_x)
  \/ out_of_range (y_axes self) (coord_y + offset_y)
  \/ out_of_range (x_axes self) (coord_x + size_x - offset_x)
  \/ out_of_range (y_axes self) (coord_y + size_y - offset_y) ->
  is_line_in_patch self (coord_x, coord_y) (size_x, size_y)
                   (offset_x, offset_y)
  = Raise IndexError.
Proof.
  intros Hout. unfold is_line_in_patch, bind.
  destruct (py_index (x_axes self) (coord_x + offset_x)) as [v1 | e] eqn:E1.
  2: { apply py_index_raises in E1. subst e. reflexivity. }
  destruct (py_index (y_axes self) (coord_y + offset_y)) as [v2 | e] eqn:E2.
  2: { apply py_index_raises in E2. subst e. reflexivity. }
  destruct (py_index (x_axes self) (coord_x + size_x - offset_x))
    as [v3 | e] eqn:E3.
  2: { apply py_index_raises in E3. subst e. reflexivity. }
  destruct (py_index (y_axes self) (coord_y + size_y - offset_y))
    as [v4 | e] eqn:E4.
  2: { apply py_index_raises in E4. subst e. reflexivity. }
  destruct Hout as [H | [H | [H | H]]];
    apply py_index_out_of_range in H; congruence.
Qed.

Lemma first_containing_sound (areas : list (ChargeRegime * Polygon))
  (point : Point) :
  first_containing areas point = UNKNOWN
  \/ exists area, In (first_containing areas point, area) areas
                  /\ contains area point = true.
Proof.
  induction areas as [| [regime area] areas IH]; cbn [first_containing].
  - left. reflexivity.
  - destruct (contains area point) eqn:E.
    + right. exists area. split; [left; reflexivity | exact E].
    + destruct IH as [IH | [area' [Hin Hc]]]; [left; exact IH |].
      right. exists area'. split; [right; exact Hin | exact Hc].
Qed.

(** X16: whatever [get_charge] returns is [UNKNOWN] or the regime of a
    region of the diagram whose polygon contains the volt-space point read
    from the axes at the (possibly wrapped) indices. *)
Theorem get_charge_answers_a_containing_region (self : DiagramOffline)
  (coord_x coord_y : Z) (regime : ChargeRegime) :
  get_charge self coord_x coord_y = Ok regime ->
  regime = UNKNOWN
  \/ exists areas area volt_x volt_y,
       charge_areas self = Some areas
       /\ In (regime, area) areas
       /\ py_index (x_axes self) coord_x = Ok volt_x
       /\ py_index (y_axes self) coord_y = Ok volt_y
       /\ contains area (volt_x, volt_y) = true.
Proof.
  unfold get_charge, bind.
  destruct (py_index (x_axes self) coord_x) as [vx | e] eqn:Ex.
  2: { apply py_index_raises in Ex. subst e. intros H.
       injection H as <-. left. reflexivity. }
  destruct (py_index (y_axes self) coord_y) as [vy | e] eqn:Ey.
  2: { apply py_index_raises in Ey. subst e. intros H.
       injection H as <-. left. reflexivity. }
  destruct (charge_areas self) as [areas |] eqn:Ea; [| discriminate].
  intros H. injection H as <-.
  destruct (first_containing_sound areas (vx, vy)) as [Hu | [area [Hin Hc]]].
  - left. exact Hu.
  - right. exists areas, area, vx, vy. repeat split; assumption.
Qed.

End PatchProperties.

(* ================================================================== *)
(** * Further properties of the grid loader                            *)
(* ================================================================== *)

Lemma all_some_inv {A : Type} (l : list (option A)) (r : list A) :
  all_some l = Some r -> l = map Some r.
Proof.
  revert r. induction l as [| [a |] l IH]; intros r H; cbn in H.
  - injection H as <-. reflexivity.
  - destruct (all_some l) as [r' |]; [| discriminate].
    injection H as <-. cbn. rewrite (IH r' eq_refl). reflexivity.
  - discriminate.
Qed.

Lemma all_some_rows_inv {A : Type} (file : list (list (option A)))
  (rows : list (list A)) :
  all_some (map all_some file) = Some rows -> file = map (map Some) rows.
Proof.
  revert rows. induction file as [| r file IH]; intros rows H.
  - cbn in H. injection H as <-. reflexivity.
  - apply all_some_inv in H. destruct rows as [| row rows];
      [discriminate |].
    cbn [map] in H. injection H as Hr Hrest.
    apply all_some_inv in Hr. subst r. cbn [map]. f_equal.
    apply IH. rewrite Hrest. apply all_some_map_Some.
Qed.

Lemma filter_nonblank_idem {A : Type} (file : list (list A)) :
  filter (fun r => negb (is_blank r)) (filter (fun r => negb (is_blank r)) file)
  = filter (fun r => negb (is_blank r)) file.
Proof.
  induction file as [| r file IH]; cbn; [reflexivity |].
  destruct (negb (is_blank r)) eqn:E; cbn; [rewrite E, IH |]; auto.
Qed.

Lemma load_interpolated_csv_skips_blank (file : csv_file) (invert : bool) :
  _load_interpolated_csv (filter (fun r => negb (is_blank r)) file) invert
  = _load_interpolated_csv file invert.
Proof.
  unfold _load_interpolated_csv, loadtxt.
  rewrite filter_nonblank_idem. reflexivity.
Qed.

Lemma load_interpolated_csv_result (file_path : csv_file)
  (invert_y_axis : bool) (x y : list f64) (values : Tensor) :
  _load_interpolated_csv file_path invert_y_axis = Ok (x, y, values) ->
  exists x_start y_start step pad matrix,
    filter (fun r => negb (is_blank r)) file_path
    = map (map Some) ((x_start :: y_start :: step :: pad) :: matrix)
    /\ matrix <> []
    /\ Forall (fun r => length r = (3 + length pad)%nat) matrix
    /\ x = arange_affine (3 + length pad) step x_start
    /\ y = arange_affine (length matrix) step y_start
    /\ values = mkTensor (map (map f32_of_f64)
                              (if invert_y_axis then rev matrix else matrix))
                         (3 + length pad).
Proof.
  intros H.
  assert (Hshape :
    exists x_start y_start step pad matrix,
      filter (fun r => negb (is_blank r)) file_path
      = map (map Some) ((x_start :: y_start :: step :: pad) :: matrix)
      /\ matrix <> []
      /\ Forall (fun r => length r = (3 + length pad)%nat) matrix).
  { unfold _load_interpolated_csv, loadtxt, bind in H.
    destruct (all_some (map all_some (filter _ file_path)))
      as [rows |] eqn:Erows; [| discriminate].
    apply all_some_rows_inv in Erows.
    destruct rows as [| r rest]; [discriminate |].
    destruct (forallb (fun r' => Nat.eqb (length r') (length r)) rest)
      eqn:Eall; [| discriminate].
    destruct rest as [| r1 rest]; [discriminate |].
    destruct r as [| x_start [| y_start [| step pad]]];
      try discriminate.
    exists x_start, y_start, step, pad, (r1 :: rest).
    split; [exact Erows |]. split; [discriminate |].
    apply Forall_forall. intros r' Hr'.
    rewrite forallb_forall in Eall. specialize (Eall r' Hr').
    apply Nat.eqb_eq in Eall. exact Eall. }
  destruct Hshape
    as (x_start & y_start & step & pad & matrix & Hfile & Hne & Hrows).
  exists x_start, y_start, step, pad, matrix.
  rewrite <- load_interpolated_csv_skips_blank, Hfile in H.
  rewrite (load_interpolated_csv_table x_start y_start step pad matrix
             invert_y_axis Hne Hrows) in H.
  injection H as <- <- <-. repeat split; assumption.
Qed.

(** X17: the grid loader returns exactly on the tables it can read: after
    the blank lines are dropped, every cell is a number, row 0 has at
    least the three cells (x_start, y_start, step), at least one more row
    follows and all rows are as long as row 0. On every other file it
    raises. *)
Theorem load_interpolated_csv_returns_iff (file_path : csv_file)
  (invert_y_axis : bool) :
  (exists x y values,
     _load_interpolated_csv file_path invert_y_axis = Ok (x, y, values))
  <->
  (exists x_start y_start step pad matrix,
     filter (fun r => negb (is_blank r)) file_path
     = map (map Some) ((x_start :: y_start :: step :: pad) :: matrix)
     /\ matrix <> []
     /\ Forall (fun r => length r = (3 + length pad)%nat) matrix).
Proof.
  split.
  - intros (x & y & values & H).
    apply load_interpolated_csv_result in H.
    destruct H as (x_start & y_start & step & pad & matrix & Hfile & Hne
                   & Hrows & _).
    exists x_start, y_start, step, pad, matrix. repeat split; assumption.
  - intros (x_start & y_start & step & pad & matrix & Hfile & Hne & Hrows).
    rewrite <- load_interpolated_csv_skips_blank, Hfile.
    rewrite (load_interpolated_csv_table x_start y_start step pad matrix
               invert_y_axis Hne Hrows).
    eexists _, _, _. reflexivity.
Qed.

Lemma loaded_grid_consistent (x_start y_start step : f64) (pad : list f64)
  (matrix : list (list f64)) (invert_y_axis : bool) :
  matrix <> [] ->
  Forall (fun r => length r = (3 + length pad)%nat) matrix ->
  let values := mkTensor (map (map f32_of_f64)
                              (if invert_y_axis then rev matrix else matrix))
                         (3 + length pad) in
  length (arange_affine (3 + length pad) step x_start) = width values
  /\ length (arange_affine (length matrix) step y_start)
     = length (cells values)
  /\ tensor_wf values
  /\ (3 <= width values)%nat
  /\ (1 <= length (cells values))%nat.
Proof.
  intros Hne Hrows. cbn zeta. cbn [cells width].
  assert (Hlen : length (if invert_y_axis then rev matrix else matrix)
                 = length matrix).
  { destruct invert_y_axis; rewrite ?length_rev; reflexivity. }
  split; [apply arange_affine_spec |].
  split; [rewrite length_map, Hlen; apply arange_affine_spec |].
  split; [| split; [lia |]].
  - unfold tensor_wf. cbn [cells width].
    apply Forall_map.
    assert (Hrows' : Forall (fun r => length r = (3 + length pad)%nat)
                       (if invert_y_axis then rev matrix else matrix)).
    { destruct invert_y_axis; [apply Forall_rev |]; exact Hrows. }
    eapply Forall_impl; [| exact Hrows'].
    intros r Hr. cbn beta. rewrite length_map. exact Hr.
  - rewrite length_map, Hlen. destruct matrix; [contradiction | cbn; lia].
Qed.

(** X18: whatever the grid loader returns is consistent: the X axis is as
    long as the grid is wide, the Y axis as long as it is high, every row
    has the width of the grid, and there are at least three columns and
    one row. *)
Theorem load_interpolated_csv_is_consistent (file_path : csv_file)
  (invert_y_axis : bool) (x y : list f64) (values : Tensor) :
  _load_interpolated_csv file_path invert_y_axis = Ok (x, y, values) ->
  length x = width values
  /\ length y = length (cells values)
  /\ tensor_wf values
  /\ (3 <= width values)%nat
  /\ (1 <= length (cells values))%nat.
Proof.
  intros H. apply load_interpolated_csv_result in H.
  destruct H as (x_start & y_start & step & pad & matrix & _ & Hne & Hrows
                 & -> & -> & ->).
  apply loaded_grid_consistent; assumption.
Qed.

(** X19: inverting the Y axis only reverses the rows: a file loads with
    the inversion exactly when it loads without, with the same two axes
    and the same rows in the opposite order. *)
Theorem load_interpolated_csv_invert_reverses (file_path : csv_file)
  (x y : list f64) (values : Tensor) :
  _load_interpolated_csv file_path false = Ok (x, y, values) ->
  _load_interpolated_csv file_path true
  = Ok (x, y, mkTensor (rev (cells values)) (width values)).
Proof.
  intros H. apply load_interpolated_csv_result in H.
  destruct H as (x_start & y_start & step & pad & matrix & Hfile & Hne
                 & Hrows & -> & -> & ->).
  rewrite <- load_interpolated_csv_skips_blank, Hfile.
  rewrite (load_interpolated_csv_table x_start y_start step pad matrix
             true Hne Hrows).
  cbn [cells width]. rewrite map_rev. reflexivity.
Qed.

(* ================================================================== *)
(** * Further properties of the diagram-set loader                     *)
(* ================================================================== *)

Section LoadedProperties.
Context {CR : ChargeRegimes} {DB : DiagramBase} {B : Builtins}.

(** What one successful pass through lines 338-375 did. *)
Lemma load_one_returns (settings : Settings) (load_lines load_areas : bool)
  (st st' : load_state) (diagram_name : zip_entry) (file_basename : string)
  (current_labels : json) (label_pixel_size : f64) :
  load_one settings load_lines load_areas st diagram_name file_basename
           current_labels label_pixel_size = Ok st' ->
  exists file x y values,
    entry_file diagram_name = Some file
    /\ _load_interpolated_csv file true = Ok (x, y, values)
    /\ (st' = no_label st
        \/ exists lines areas,
             st' = append_diagram st
                     (__init__ file_basename x y values lines areas)
             /\ (if load_lines
                 then exists ls, lines = Some ls /\ ls <> []
                 else lines = None)
             /\ (if load_areas
                 then exists ars, areas = Some ars /\ ars <> []
                 else areas = None)).
Proof.
  unfold load_one. intros H.
  destruct (entry_file diagram_name) as [file |]; [| discriminate].
  unfold bind in H.
  destruct (_load_interpolated_csv file true) as [[[x y] values] | e]
    eqn:Ecsv; [| discriminate].
  exists file, x, y, values. split; [reflexivity |].
  split; [exact Ecsv |].
  destruct load_lines.
  - destruct (getitem current_labels "objects") as [objects |];
      [| discriminate].
    destruct (py_iter objects) as [it |]; [| discriminate].
    destruct (_load_lines_annotations _ x y label_pixel_size 1)
      as [[| line ls] |]; [left; congruence | | discriminate].
    destruct load_areas.
    + destruct (_load_charge_annotations _ x y label_pixel_size 1)
        as [[| area ars] |]; [left; congruence | | discriminate].
      right. eexists _, _. split; [injection H as <-; reflexivity |].
      split; eexists; (split; [reflexivity | discriminate]).
    + right. eexists _, _. split; [injection H as <-; reflexivity |].
      split; [eexists; split; [reflexivity | discriminate] | reflexivity].
  - destruct load_areas.
    + destruct (getitem current_labels "objects") as [objects' |];
        [| discriminate].
      destruct (py_iter objects') as [it' |]; [| discriminate].
      destruct (_load_charge_annotations _ x y label_pixel_size 1)
        as [[| area ars] |]; [left; congruence | | discriminate].
      right. eexists _, _. split; [injection H as <-; reflexivity |].
      split; [reflexivity | eexists; split; [reflexivity | discriminate]].
    + right. eexists _, _. split; [injection H as <-; reflexivity |].
      split; reflexivity.
Qed.

(** What one successful iteration of the loop did: it skipped the file
    and counted it, or it appended the diagram of a selected file. *)
Lemma load_entry_returns (settings : Settings)
  (labels : list (string * json)) (single_dot load_lines load_areas : bool)
  (white_list : option (list string)) (st st' : load_state)
  (diagram_name : zip_entry) :
  load_entry settings labels single_dot load_lines load_areas white_list st
             diagram_name = Ok st' ->
  (diagrams st' = diagrams st /\ accounted st' = S (accounted st))
  \/ exists diagram,
       st' = append_diagram st diagram
       /\ name diagram = stem (entry_name diagram_name)
       /\ selected labels single_dot white_list diagram_name
       /\ well_loaded load_lines load_areas diagram.
Proof.
  unfold load_entry. intros H.
  destruct (not_in_white_list white_list (stem (entry_name diagram_name)))
    eqn:Ewl.
  { injection H as <-. left. unfold accounted. cbn. split; [reflexivity | lia]. }
  destruct (assoc _ labels) as [label_data |] eqn:Elabel.
  2: { injection H as <-. left. unfold accounted. cbn.
       split; [reflexivity | lia]. }
  destruct (project_annotations label_data) as [current_labels | e]
    eqn:Eproject.
  2: { destruct e; try discriminate H. injection H as <-. left.
       unfold accounted. cbn. split; [reflexivity | lia]. }
  destruct (classifications current_labels) as [[ps is_single] | e]
    eqn:Ecls.
  2: { destruct e; try discriminate H. injection H as <-. left.
       unfold accounted. cbn. split; [reflexivity | lia]. }
  destruct (negb (Bool.eqb single_dot is_single)) eqn:Edot.
  { injection H as <-. left. unfold accounted. cbn.
    split; [reflexivity | lia]. }
  apply negb_false_iff, Bool.eqb_prop in Edot. subst is_single.
  apply load_one_returns in H.
  destruct H as (file & x & y & values & Hfile & Hcsv & Hst).
  destruct Hst as [-> | (lines & areas & -> & Hlines & Hareas)].
  { left. unfold accounted. cbn. split; [reflexivity | lia]. }
  right. eexists. split; [reflexivity |]. split; [reflexivity |].
  split.
  - unfold selected. split; [exact Ewl |].
    exists label_data, current_labels, ps. repeat split; assumption.
  - apply load_interpolated_csv_result in Hcsv.
    destruct Hcsv as (x_start & y_start & step & pad & matrix & _ & Hne
                      & Hrows & -> & -> & ->).
    destruct (loaded_grid_consistent x_start y_start step pad matrix true
                Hne Hrows) as (H1 & H2 & H3 & H4 & H5).
    unfold well_loaded, __init__.
    cbn [x_axes y_axes values values_norm transition_lines charge_areas].
    repeat split; assumption.
Qed.

Lemma accounted_append (st : load_state) (diagram : DiagramOffline) :
  accounted (append_diagram st diagram) = S (accounted st).
Proof.
  unfold accounted, append_diagram. cbn. rewrite length_app. cbn. lia.
Qed.

(** X20: when the load returns, every file that the archive directory
    lists has been accounted for exactly once: the number of diagrams
    loaded plus the three skip counters is the number of files listed. *)
Theorem load_diagrams_accounts_for_every_file (settings : Settings)
  (pixel_size_mV research_group : string) (diagrams_path : ZipFile)
  (labels_path : list (option json))
  (single_dot load_lines load_areas : bool)
  (white_list : option (list string)) (st : load_state) :
  load_diagrams_run settings pixel_size_mV research_group diagrams_path
    labels_path single_dot load_lines load_areas white_list = Ok st ->
  (length (diagrams st) + nb_no_label st + nb_excluded st + nb_filtered st
   = length (iterdir diagrams_path
               (pixel_size_mV ++ "mV/" ++ research_group ++ "/")%string))%nat.
Proof.
  rewrite load_diagrams_run_unguarded. unfold bind.
  destruct (load_labels labels_path) as [labels |]; [| discriminate].
  intros Hrun. fold (accounted st).
  assert (Hcount : forall entries s s',
            for_each entries
              (load_entry settings labels single_dot load_lines load_areas
                          white_list) s = Ok s' ->
            accounted s' = (accounted s + length entries)%nat).
  { induction entries as [| e entries IH]; intros s s' H.
    - cbn in H. injection H as <-. cbn. lia.
    - cbn [for_each] in H. unfold bind in H.
      destruct (load_entry settings labels single_dot load_lines load_areas
                           white_list s e) as [s1 |] eqn:E1;
        [| discriminate].
      rewrite (IH s1 s' H). cbn [length].
      apply load_entry_returns in E1.
      destruct E1 as [[_ Hacc] | (d & -> & _)];
        [| rewrite accounted_append]; lia. }
  rewrite (Hcount _ _ _ Hrun). reflexivity.
Qed.

(** X21: every diagram that the load returns is well loaded - axes as
    long as the sides of a well-formed grid, no normalized grid, lines and
    areas present and non-empty exactly when asked for - and it bears the
    base name of a file of the archive directory that passed the filters:
    within the whitelist, labelled for the project, of the requested dot
    count. *)
Theorem load_diagrams_returns_well_loaded_diagrams (settings : Settings)
  (pixel_size_mV research_group : string) (diagrams_path : ZipFile)
  (labels_path : list (option json)) (labels : list (string * json))
  (single_dot load_lines load_areas : bool)
  (white_list : option (list string)) (loaded : list DiagramOffline) :
  load_labels labels_path = Ok labels ->
  load_diagrams settings pixel_size_mV research_group diagrams_path
    labels_path single_dot load_lines load_areas white_list = Ok loaded ->
  Forall (fun diagram =>
            well_loaded load_lines load_areas diagram
            /\ not_in_white_list white_list (name diagram) = false
            /\ exists diagram_name,
                 In diagram_name
                    (iterdir diagrams_path
                       (pixel_size_mV ++ "mV/" ++ research_group ++ "/")%string)
                 /\ name diagram = stem (entry_name diagram_name)
                 /\ selected labels single_dot white_list diagram_name)
         loaded.
Proof.
  intros Hlabels. unfold load_diagrams.
  rewrite load_diagrams_run_unguarded, Hlabels. unfold bind.
  set (entries := iterdir diagrams_path _).
  destruct (for_each entries _ _) as [st |] eqn:Erun; [| discriminate].
  intros H. injection H as <-.
  set (good := fun diagram : DiagramOffline =>
         well_loaded load_lines load_areas diagram
         /\ not_in_white_list white_list (name diagram) = false
         /\ exists diagram_name,
              In diagram_name entries
              /\ name diagram = stem (entry_name diagram_name)
              /\ selected labels single_dot white_list diagram_name).
  assert (Hinv : forall done todo s s',
            entries = done ++ todo ->
            Forall good (diagrams s) ->
            for_each todo
              (load_entry settings labels single_dot load_lines load_areas
                          white_list) s = Ok s' ->
            Forall good (diagrams s')).
  { intros done todo. revert done.
    induction todo as [| e todo IH]; intros done s s' Hsplit Hs H.
    - cbn in H. injection H as <-. exact Hs.
    - cbn [for_each] in H. unfold bind in H.
      destruct (load_entry settings labels single_dot load_lines load_areas
                           white_list s e) as [s1 |] eqn:E1;
        [| discriminate].
      apply (IH (done ++ [e]) s1 s'); [| | exact H].
      + rewrite <- app_assoc. exact Hsplit.
      + apply load_entry_returns in E1.
        destruct E1 as [[Hsame _] | (d & -> & Hname & Hsel & Hwell)].
        * rewrite Hsame. exact Hs.
        * unfold append_diagram. cbn [diagrams].
          apply Forall_app. split; [exact Hs |].
          constructor; [| constructor].
          split; [exact Hwell |]. split.
          -- rewrite Hname. exact (proj1 Hsel).
          -- exists e. split; [| split; assumption].
             rewrite Hsplit. apply in_or_app. right. left. reflexivity. }
  apply (Hinv [] entries (mkLoadState [] 0 0 0) st eq_refl);
    [constructor | exact Erun].
Qed.

(** X22: the diagrams come back in the order of the archive: their names
    are the base names of the listed files with some of them left out. *)
Theorem load_diagrams_keeps_archive_order (settings : Settings)
  (pixel_size_mV research_group : string) (diagrams_path : ZipFile)
  (labels_path : list (option json))
  (single_dot load_lines load_areas : bool)
  (white_list : option (list string)) (loaded : list DiagramOffline) :
  load_diagrams settings pixel_size_mV research_group diagrams_path
    labels_path single_dot load_lines load_areas white_list = Ok loaded ->
  subsequence (map name loaded)
    (map (fun diagram_name => stem (entry_name diagram_name))
         (iterdir diagrams_path
            (pixel_size_mV ++ "mV/" ++ research_group ++ "/")%string)).
Proof.
  unfold load_diagrams. rewrite load_diagrams_run_unguarded. unfold bind.
  destruct (load_labels labels_path) as [labels |]; [| discriminate].
  set (entries := iterdir diagrams_path _).
  destruct (for_each entries _ _) as [st |] eqn:Erun; [| discriminate].
  intros H. injection H as <-.
  assert (Hinv : forall todo s s',
            for_each todo
              (load_entry settings labels single_dot load_lines load_areas
                          white_list) s = Ok s' ->
            exists added,
              diagrams s' = diagrams s ++ added
              /\ subsequence (map name added)
                   (map (fun e => stem (entry_name e)) todo)).
  { induction todo as [| e todo IH]; intros s s' H.
    - cbn in H. injection H as <-. exists [].
      split; [rewrite app_nil_r; reflexivity | constructor].
    - cbn [for_each] in H. unfold bind in H.
      destruct (load_entry settings labels single_dot load_lines load_areas
                           white_list s e) as [s1 |] eqn:E1;
        [| discriminate].
      destruct (IH s1 s' H) as (added & Hadded & Hsub).
      apply load_entry_returns in E1.
      destruct E1 as [[Hsame _] | (d & -> & Hname & _)].
      + exists added. rewrite <- Hsame. split; [exact Hadded |].
        cbn [map]. apply subsequence_skip. exact Hsub.
      + exists (d :: added). unfold append_diagram in Hadded.
        cbn [diagrams] in Hadded. rewrite <- app_assoc in Hadded.
        split; [exact Hadded |].
        cbn [map]. rewrite Hname. apply subsequence_take. exact Hsub. }
  destruct (Hinv entries (mkLoadState [] 0 0 0) st Erun)
    as (added & Hadded & Hsub).
  cbn [diagrams app] in Hadded. rewrite Hadded. exact Hsub.
Qed.

(** X23: one unreadable grid fails the whole load: when the load returns,
    every listed file that passed the filters could be opened and its
    table decoded, whether or not a diagram came out of it. *)
Theorem load_diagrams_reads_every_selected_file (settings : Settings)
  (pixel_size_mV research_group : string) (diagrams_path : ZipFile)
  (labels_path : list (option json)) (labels : list (string * json))
  (single_dot load_lines load_areas : bool)
  (white_list : option (list string)) (loaded : list DiagramOffline)
  (diagram_name : zip_entry) :
  load_labels labels_path = Ok labels ->
  load_diagrams settings pixel_size_mV research_group diagrams_path
    labels_path single_dot load_lines load_areas white_list = Ok loaded ->
  In diagram_name
     (iterdir diagrams_path
        (pixel_size_mV ++ "mV/" ++ research_group ++ "/")%string) ->
  selected labels single_dot white_list diagram_name ->
  exists file x y values,
    entry_file diagram_name = Some file
    /\ _load_interpolated_csv file true = Ok (x, y, values).
Proof.
  intros Hlabels. unfold load_diagrams.
  rewrite load_diagrams_run_unguarded, Hlabels. unfold bind.
  set (entries := iterdir diagrams_path _).
  destruct (for_each entries _ _) as [st |] eqn:Erun; [| discriminate].
  intros _ Hin Hsel.
  assert (Hstep : forall todo s s',
            for_each todo
              (load_entry settings labels single_dot load_lines load_areas
                          white_list) s = Ok s' ->
            In diagram_name todo ->
            exists s1 s2,
              load_entry settings labels single_dot load_lines load_areas
                         white_list s1 diagram_name = Ok s2).
  { induction todo as [| e todo IH]; intros s s' H Hin'; [contradiction |].
    cbn [for_each] in H. unfold bind in H.
    destruct (load_entry settings labels single_dot load_lines load_areas
                         white_list s e) as [s1 |] eqn:E1; [| discriminate].
    destruct Hin' as [-> | Hin'].
    - exists s, s1. exact E1.
    - exact (IH s1 s' H Hin'). }
  destruct (Hstep entries _ _ Erun Hin) as (s1 & s2 & Hentry).
  destruct Hsel as (Hwl & label_data & current_labels & ps & Hl & Hp & Hc).
  unfold load_entry in Hentry.
  rewrite Hwl, Hl, Hp, Hc, Bool.eqb_reflx in Hentry. cbn [negb] in Hentry.
  apply load_one_returns in Hentry.
  destruct Hentry as (file & x & y & values & Hfile & Hcsv & _).
  exists file, x, y, values. split; assumption.
Qed.

End LoadedProperties.

(* ================================================================== *)
(** * Properties of the label index and of base names                  *)
(* ================================================================== *)

Lemma for_each_app {A S : Type} (l1 l2 : list A)
  (body : S -> A -> result S) (s : S) :
  for_each (l1 ++ l2) body s
  = (s1 <- for_each l1 body s ;; for_each l2 body s1).
Proof.
  revert s. induction l1 as [| a l1 IH]; intros s; cbn [app for_each bind].
  - reflexivity.
  - unfold bind. destruct (body s a) as [s1 |]; [apply IH | reflexivity].
Qed.

(** X24: in the label index the last line wins: a record appended to a
    file that loads is the one found under its identifier, whatever
    record had that identifier before, and the other identifiers keep
    their record. *)
Theorem load_labels_last_line_wins (annotations_file : list (option json))
  (labels : list (string * json)) (label_data data_row : json)
  (diagram_id : string) :
  load_labels annotations_file = Ok labels ->
  getitem label_data "data_row" = Ok data_row ->
  getitem data_row "external_id" = Ok (JStr diagram_id) ->
  exists labels',
    load_labels (annotations_file ++ [Some label_data]) = Ok labels'
    /\ assoc diagram_id labels' = Some label_data
    /\ forall other, other <> diagram_id ->
         assoc other labels' = assoc other labels.
Proof.
  intros Hload Hrow Hid. unfold load_labels in *.
  rewrite for_each_app, Hload. cbn [bind for_each].
  rewrite Hrow. cbn [bind]. rewrite Hid. cbn [bind].
  eexists. split; [reflexivity |]. split.
  - cbn [assoc]. rewrite String.eqb_refl. reflexivity.
  - intros other Hother. cbn [assoc].
    destruct (String.eqb_spec other diagram_id); [contradiction |].
    reflexivity.
Qed.

Section LabelIndex.
Context {CR : ChargeRegimes} {DB : DiagramBase} {B : Builtins}.

(** X25: a line of the label file that cannot be indexed - no JSON
    document, or a record without data_row or external_id - fails the
    whole load with its exception, before the archive is looked at and
    whatever the diagram it was about. *)
Theorem load_diagrams_bad_label_line_aborts (settings : Settings)
  (pixel_size_mV research_group : string) (diagrams_path : ZipFile)
  (before after : list (option json)) (line : option json)
  (labels : list (string * json)) (e : exn)
  (single_dot load_lines load_areas : bool)
  (white_list : option (list string)) :
  load_labels before = Ok labels ->
  load_labels [line] = Raise e ->
  load_labels (before ++ line :: after) = Raise e
  /\ load_diagrams settings pixel_size_mV research_group diagrams_path
       (before ++ line :: after) single_dot load_lines load_areas white_list
     = Raise e
  /\ (line = None -> e = ValueError InvalidJSON).
Proof.
  intros Hbefore Hline.
  assert (Hall : load_labels (before ++ line :: after) = Raise e).
  { unfold load_labels in *. rewrite for_each_app, Hbefore.
    cbn [bind for_each] in *. unfold bind in *.
    destruct line as [label_data |]; [| congruence].
    destruct (getitem label_data "data_row") as [data_row |];
      [| congruence].
    destruct (getitem data_row "external_id") as [[] |];
      congruence. }
  split; [exact Hall |]. split.
  - unfold load_diagrams, load_diagrams_run. rewrite Hall. reflexivity.
  - intros ->. cbn in Hline. congruence.
Qed.

End LabelIndex.

Lemma rfind_dot_no_dot (s : string) (pos : nat) (found : option nat) :
  has_dot s = false -> rfind_dot s pos found = found.
Proof.
  revert pos found. induction s as [| c s IH]; intros pos found H;
    cbn [rfind_dot]; [reflexivity |].
  cbn [has_dot] in H. apply orb_false_iff in H. destruct H as [Hc Hs].
  rewrite Hc. apply IH. exact Hs.
Qed.

Lemma rfind_dot_last (base ext : string) (pos : nat) (found : option nat) :
  has_dot ext = false ->
  rfind_dot (base ++ String "." ext)%string pos found
  = Some (pos + String.length base)%nat.
Proof.
  intros Hext. revert pos found.
  induction base as [| c base IH]; intros pos found;
    cbn [append rfind_dot String.length].
  - rewrite Ascii.eqb_refl.
    rewrite rfind_dot_no_dot by exact Hext. f_equal. lia.
  - rewrite IH. f_equal. lia.
Qed.

Lemma substring_prefix (base rest : string) :
  substring 0 (String.length base) (base ++ rest)%string = base.
Proof.
  induction base as [| c base IH]; cbn [append String.length substring].
  - destruct rest; reflexivity.
  - rewrite IH. reflexivity.
Qed.

Lemma length_append (a b : string) :
  String.length (a ++ b)%string = (String.length a + String.length b)%nat.
Proof.
  induction a as [| c a IH]; cbn [append String.length];
    [reflexivity | rewrite IH; reflexivity].
Qed.

(** X26: the base name of a file is its name without its last suffix
    only: a name without a dot is kept whole, as is a name that only
    starts with one, and from base.ext the non-empty base is kept,
    further dots included (from x.csv.gz the base name is x.csv). *)
Theorem stem_strips_the_last_suffix_only (base ext : string) :
  has_dot ext = false ->
  stem ext = ext
  /\ stem (String "." ext) = String "." ext
  /\ (base <> EmptyString -> ext <> EmptyString ->
      stem (base ++ String "." ext)%string = base).
Proof.
  intros Hext. unfold stem. split; [| split].
  - rewrite rfind_dot_no_dot by exact Hext. reflexivity.
  - cbn [rfind_dot]. rewrite Ascii.eqb_refl.
    rewrite rfind_dot_no_dot by exact Hext. reflexivity.
  - intros Hbase Hne.
    rewrite rfind_dot_last by exact Hext. cbn [Nat.add].
    rewrite length_append. cbn [String.length].
    assert (Hb : (0 < String.length base)%nat)
      by (destruct base; [contradiction | cbn; lia]).
    assert (He : (0 < String.length ext)%nat)
      by (destruct ext; [contradiction | cbn; lia]).
    destruct (Nat.ltb_spec 0 (String.length base)); [| lia].
    destruct (Nat.ltb_spec (String.length base)
                (String.length base + S (String.length ext) - 1));
      [| lia].
    cbn [andb]. apply substring_prefix.
Qed.

(* ================================================================== *)
(** * Further properties of the annotation loader                      *)
(* ================================================================== *)

Section AnnotationProperties.
Context {CR : ChargeRegimes} {DB : DiagramBase}.

Lemma new_LineString_inv (coords : list (f64 * f64)) (line : LineString) :
  new_LineString coords = Ok line <->
  length coords <> 1%nat /\ line = mkLineString coords.
Proof.
  unfold new_LineString. destruct coords as [| p [| q rest]]; cbn [length].
  - split; [intros H; injection H as <-; split; [lia | reflexivity]
           | intros [_ ->]; reflexivity].
  - split; [discriminate | intros [H _]; lia].
  - split; [intros H; injection H as <-; split; [lia | reflexivity]
           | intros [_ ->]; reflexivity].
Qed.

(** X27: the loader of transition lines returns exactly when every raw
    record converts and holds no single point; it then returns one line
    per record, in the order of the records, each made of the converted
    (x, y) pairs of its record. *)
Theorem load_lines_annotations_in_record_order (lines : lazy json)
  (x y : list f64) (pixel_size : f64) (snap : Z) (out : list LineString) :
  _load_lines_annotations lines x y pixel_size snap = Ok out <->
  exists raws,
    lines = map Ok raws
    /\ Forall2 (fun raw line =>
                  exists coords,
                    volt_coords raw "line" x y pixel_size snap = Ok coords
                    /\ length coords <> 1%nat
                    /\ line = mkLineString coords)
               raws out.
Proof.
  unfold _load_lines_annotations. rewrite lazy_map_Forall2.
  split; intros (raws & Hmap & HF); exists raws; (split; [exact Hmap |]).
  - eapply Forall2_impl; [| exact HF]. intros raw line H. cbn beta in H.
    unfold bind in H.
    destruct (volt_coords raw "line" x y pixel_size snap) as [coords |];
      [| discriminate].
    exists coords. split; [reflexivity |].
    apply new_LineString_inv. exact H.
  - eapply Forall2_impl; [| exact HF].
    intros raw line (coords & Hc & Hlen & ->). cbn beta.
    rewrite Hc. cbn [bind]. apply new_LineString_inv. split; auto.
Qed.

(** X28: a charge-area record whose name is no value of [ChargeRegime]
    is not mapped to [UNKNOWN]: it makes the loader raise a [ValueError],
    whatever the records before it produced. *)
Theorem load_charge_annotations_unknown_regime (before : list json)
  (area : json) (after : lazy json) (x y : list f64) (pixel_size : f64)
  (snap : Z) (coords : list (f64 * f64)) (polygon : Polygon)
  (area_name : string) :
  Forall (fun raw => exists region,
            load_charge_area x y pixel_size snap raw = Ok region) before ->
  volt_coords area "polygon" x y pixel_size snap = Ok coords ->
  new_Polygon coords = Ok polygon ->
  getitem area "name" = Ok (JStr area_name) ->
  ChargeRegime_of_value area_name = None ->
  _load_charge_annotations (map Ok before ++ Ok area :: after) x y
    pixel_size snap
  = Raise (ValueError NotAMember).
Proof.
  intros Hbefore Hcoords Hpolygon Hname Hregime.
  unfold _load_charge_annotations.
  induction Hbefore as [| raw before [region Hraw] Hbefore IH];
    cbn [map app lazy_map].
  - unfold load_charge_area at 1. rewrite Hcoords. cbn [bind].
    rewrite Hpolygon. cbn [bind]. rewrite Hname. cbn [bind].
    unfold ChargeRegime_call. rewrite Hregime. reflexivity.
  - rewrite Hraw. cbn [bind]. rewrite IH. reflexivity.
Qed.

End AnnotationProperties.

(* ================================================================== *)
(** * The further properties on concrete diagrams and archives         *)
(* ================================================================== *)

Section MoreConcrete.
#[local] Existing Instances exact_geometry electron_regimes
  decimal_builtins spec_diagram_base ieee_torch.

Ltac eval_goal :=
  vm_compute; repeat split; first [reflexivity | discriminate].

Lemma get_patches_patch_is_get_patch_on_21 :
  get_patch None (sample_diagram 21) (window ewma_item) (5 + 3, 10) false
  = Returns (patch ewma_item).
Proof.
  exact (get_patches_patch_is_get_patch with_ewma None (sample_diagram 21)
           5 10 (0, 0) (1, 1) ewma_item ewma_item_yielded).
Defined.

(** A window of 4 by 4 at the corner (3, 4) of a grid of 5 by 5: one row
    and two columns are left. *)
Lemma get_patch_raw_is_clipped_on_ramp :
  exists patch,
    get_patch None (ramp_diagram 5) (3, 4) (4, 4) false = Returns patch
    /\ shape patch = (1, 2).
Proof.
  destruct (get_patch_raw_is_clipped None (ramp_diagram 5) 3 4 4 4)
    as (patch & Hpatch & Hshape & _); try (vm_compute; discriminate).
  exists patch. split; [exact Hpatch |].
  rewrite Hshape. reflexivity.
Defined.

Lemma get_patch_train_set_on_ramp :
  exists patch,
    get_patch (Some "train-set"%string) normalized_ramp (1, 1) (2, 2) true
    = Returns patch
    /\ shape patch = (2, 2)
    /\ get_patch (Some "train-set"%string) (ramp_diagram 4) (1, 1) (2, 2)
                 true
       = Throws TypeError.
Proof.
  destruct (get_patch_train_set_after_normalize_diagrams
              (f64_of_int 0) (f64_of_int 40) [ramp_diagram 4]
              [normalized_ramp] 0 (ramp_diagram 4) 1 1 2 2
              eq_refl eq_refl)
    as (diagram' & raw & Hnth & Hraw & Hnorm & Hshape & Hnone).
  cbn [nth_error] in Hnth. injection Hnth as <-.
  eexists. split; [exact Hnorm |]. split.
  - rewrite Hshape. injection Hraw as <-. reflexivity.
  - apply Hnone. reflexivity.
Defined.

Lemma normalize_diagrams_keeps_raw_data_on_ramp :
  values normalized_ramp = values (ramp_diagram 4)
  /\ exists norm,
       values_norm normalized_ramp = Some norm /\ shape norm = (4, 4).
Proof.
  pose proof (normalize_diagrams_keeps_raw_data (f64_of_int 0)
                (f64_of_int 40) [ramp_diagram 4] [normalized_ramp] eq_refl)
    as H.
  inversion H as [| d d' ds ds' Hd _]; subst.
  destruct Hd as (_ & _ & _ & Hvalues & _ & _ & norm & Hnorm & Hshape & _).
  split; [exact Hvalues |].
  exists norm. split; [exact Hnorm |]. rewrite Hshape. reflexivity.
Defined.

Lemma normalize_diagrams_idempotent_on_ramp :
  normalize_diagrams false (Ok sample_statistics) [normalized_ramp]
  = Ok [normalized_ramp].
Proof.
  exact (proj1 (normalize_diagrams_idempotent false (Ok sample_statistics)
                  [ramp_diagram 4] [normalized_ramp] eq_refl)).
Defined.

Lemma sample_axes_21 :
  length (x_axes (sample_diagram 21)) = width (values (sample_diagram 21))
  /\ length (y_axes (sample_diagram 21))
     = length (cells (values (sample_diagram 21))).
Proof. split; reflexivity. Defined.

(** With the extended window on, patches of 5 by 10 and a label offset of
    1 on a grid of 21 by 21: four windows, 8 columns apart. *)
Lemma get_patches_completes_on_21 :
  raised (get_patches with_ewma (sample_diagram 21) (5, 10) (0, 0) (1, 1))
  = None
  /\ map window
       (yielded (get_patches with_ewma (sample_diagram 21) (5, 10) (0, 0)
                             (1, 1)))
     = [(0, 0); (8, 0); (0, 10); (8, 10)]
  /\ length (yielded (get_patches with_ewma (sample_diagram 21) (5, 10)
                                  (0, 0) (1, 1)))
     = 4%nat.
Proof.
  destruct (get_patches_completes with_ewma (sample_diagram 21) 5 10 0 0 1 1
              [mkLineString [volt_point 2 0; volt_point 2 21]]
              (proj1 sample_axes_21) (proj2 sample_axes_21) eq_refl)
    as (Hraised & Hwindows & Hcount); try (vm_compute; split; discriminate);
    try reflexivity.
  split; [exact Hraised |]. split.
  - rewrite Hwindows. reflexivity.
  - apply Nat2Z.inj. rewrite Hcount. reflexivity.
Defined.

Lemma get_patches_without_lines_on_bare_diagram :
  get_patches no_ewma (bare_diagram 21) (10, 10) (0, 0) (0, 0)
  = mkRun [] (Some TypeError).
Proof.
  apply get_patches_without_lines;
    first [reflexivity | vm_compute; split; discriminate].
Defined.

Lemma get_patches_zero_step_on_21 :
  get_patches no_ewma (sample_diagram 21) (10, 10) (0, 10) (0, 0)
  = mkRun [] (Some (ValueError RangeStepZero))
  /\ yielded (get_patches with_ewma (sample_diagram 21) (5, 10) (8, 0)
                          (0, 0))
     = [].
Proof.
  split.
  - apply (get_patches_zero_step no_ewma (sample_diagram 21) 10 10 0 10 0 0);
      [left |]; reflexivity.
  - apply (get_patches_zero_step with_ewma (sample_diagram 21) 5 10 8 0 0 0).
    right. reflexivity.
Defined.

Lemma get_patches_patches_are_complete_on_21 :
  fst (window ewma_item) + 5 + 3 < 21
  /\ shape (patch ewma_item) = (10, 5 + 3).
Proof.
  destruct (get_patches_patches_are_complete with_ewma (sample_diagram 21)
              5 10 0 0 (1, 1) ewma_item (zeros_wf 21 21))
    as (_ & _ & Hx & _ & Hshape & _);
    [discriminate | discriminate | reflexivity | reflexivity
     | exact ewma_item_yielded |].
  split; [exact Hx | exact Hshape].
Defined.

Lemma plain_first_item_yielded :
  In (nth 0 (yielded (get_patches no_ewma (sample_diagram 21) (10, 10)
                                  (0, 0) (1, 1)))
          (mkPatchItem (0, 0) (zeros 0 0) false))
     (yielded (get_patches no_ewma (sample_diagram 21) (10, 10) (0, 0)
                           (1, 1))).
Proof. vm_compute. left. reflexivity. Defined.

(** The first two windows of the sample diagram are 10 columns apart. *)
Lemma get_patches_windows_do_not_overlap_on_21 :
  window (nth 0 (yielded (get_patches no_ewma (sample_diagram 21) (10, 10)
                                      (0, 0) (1, 1)))
              (mkPatchItem (0, 0) (zeros 0 0) false))
  = window plain_second_item
  \/ 10 + 0
     <= Z.abs (fst (window (nth 0 (yielded (get_patches no_ewma
                                              (sample_diagram 21) (10, 10)
                                              (0, 0) (1, 1)))
                                 (mkPatchItem (0, 0) (zeros 0 0) false)))
               - fst (window plain_second_item))
  \/ 10
     <= Z.abs (snd (window (nth 0 (yielded (get_patches no_ewma
                                              (sample_diagram 21) (10, 10)
                                              (0, 0) (1, 1)))
                                 (mkPatchItem (0, 0) (zeros 0 0) false)))
               - snd (window plain_second_item)).
Proof.
  apply (get_patches_windows_do_not_overlap no_ewma (sample_diagram 21)
           10 10 (1, 1));
    [reflexivity | reflexivity | exact plain_first_item_yielded
     | exact plain_second_item_yielded].
Defined.

(** The window that ends on the boundary of a grid of 20 by 20. *)
Lemma is_line_in_patch_flush_window :
  is_line_in_patch (sample_diagram 20) (10, 10) (10, 10) (0, 0)
  = Raise IndexError.
Proof.
  apply is_line_in_patch_out_of_range.
  right. right. left. left. vm_compute. discriminate.
Defined.

Lemma get_charge_answers_a_containing_region_on_sample :
  ELECTRON_2 = UNKNOWN
  \/ exists areas area volt_x volt_y,
       charge_areas (sample_diagram 8) = Some areas
       /\ In (ELECTRON_2, area) areas
       /\ py_index (x_axes (sample_diagram 8)) 5 = Ok volt_x
       /\ py_index (y_axes (sample_diagram 8)) 5 = Ok volt_y
       /\ contains area (volt_x, volt_y) = true.
Proof.
  apply (get_charge_answers_a_containing_region (sample_diagram 8) 5 5
           ELECTRON_2).
  vm_compute. reflexivity.
Defined.

Lemma load_interpolated_csv_is_consistent_on_sample :
  length sample_x_axis = 4%nat /\ length sample_y_axis = 3%nat
  /\ tensor_wf (mkTensor (map (map f32_of_f64) (rev sample_matrix)) 4).
Proof.
  destruct (load_interpolated_csv_is_consistent sample_csv true
              sample_x_axis sample_y_axis
              (mkTensor (map (map f32_of_f64) (rev sample_matrix)) 4)
              eq_refl)
    as (Hx & Hy & Hwf & _).
  split; [exact Hx |]. split; [exact Hy | exact Hwf].
Defined.

Lemma load_interpolated_csv_invert_reverses_on_sample :
  _load_interpolated_csv sample_csv true
  = Ok (sample_x_axis, sample_y_axis,
        mkTensor (rev (map (map f32_of_f64) sample_matrix)) 4).
Proof.
  exact (load_interpolated_csv_invert_reverses sample_csv sample_x_axis
           sample_y_axis (mkTensor (map (map f32_of_f64) sample_matrix) 4)
           eq_refl).
Defined.

Lemma sample_run :
  load_diagrams_run no_ewma "1.0" "louis" sample_archive sample_labels
    true true true None
  = Ok (mkLoadState loaded_d1 2 0 0).
Proof. vm_compute. reflexivity. Defined.

Lemma sample_load :
  load_diagrams no_ewma "1.0" "louis" sample_archive sample_labels
    true true true None
  = Ok loaded_d1.
Proof. vm_compute. reflexivity. Defined.

(** On the sample archive: one diagram, two files without label, three
    files listed. *)
Lemma load_diagrams_accounts_for_every_file_on_sample :
  (length loaded_d1 + 2 + 0 + 0
   = length (iterdir sample_archive "1.0mV/louis/"))%nat.
Proof.
  exact (load_diagrams_accounts_for_every_file no_ewma "1.0" "louis"
           sample_archive sample_labels true true true None
           (mkLoadState loaded_d1 2 0 0) sample_run).
Defined.

Lemma load_diagrams_returns_well_loaded_on_sample :
  Forall (fun diagram =>
            well_loaded true true diagram
            /\ not_in_white_list None (name diagram) = false
            /\ exists diagram_name,
                 In diagram_name (iterdir sample_archive "1.0mV/louis/")
                 /\ name diagram = stem (entry_name diagram_name)
                 /\ selected sample_index true None diagram_name)
         loaded_d1.
Proof.
  exact (load_diagrams_returns_well_loaded_diagrams no_ewma "1.0" "louis"
           sample_archive sample_labels sample_index true true true None
           loaded_d1 sample_labels_load sample_load).
Defined.

Lemma load_diagrams_keeps_archive_order_on_sample :
  subsequence (map name loaded_d1)
    (map (fun diagram_name => stem (entry_name diagram_name))
         (iterdir sample_archive "1.0mV/louis/")).
Proof.
  exact (load_diagrams_keeps_archive_order no_ewma "1.0" "louis"
           sample_archive sample_labels true true true None loaded_d1
           sample_load).
Defined.

Lemma d1_selected :
  selected sample_index true None (mkZipEntry "d1.csv" (Some sample_csv)).
Proof.
  split; [reflexivity |].
  exists (complete_row "d1.png"). eexists. eexists.
  split; [reflexivity |]. split; [reflexivity |].
  vm_compute. reflexivity.
Defined.

Lemma load_diagrams_reads_every_selected_file_on_sample :
  exists file x y values,
    entry_file (mkZipEntry "d1.csv" (Some sample_csv)) = Some file
    /\ _load_interpolated_csv file true = Ok (x, y, values).
Proof.
  apply (load_diagrams_reads_every_selected_file no_ewma "1.0" "louis"
           sample_archive sample_labels sample_index true true true None
           loaded_d1 (mkZipEntry "d1.csv" (Some sample_csv))
           sample_labels_load sample_load).
  - left. reflexivity.
  - exact d1_selected.
Defined.

(** A second record for d1.png replaces the first one in the index. *)
Lemma load_labels_last_line_wins_on_sample :
  exists labels',
    load_labels (sample_labels ++ [Some (row_without_pixel_size "d1.png")])
    = Ok labels'
    /\ assoc "d1.png"%string labels' = Some (row_without_pixel_size "d1.png")
    /\ forall other, other <> "d1.png"%string ->
         assoc other labels' = assoc other sample_index.
Proof.
  exact (load_labels_last_line_wins sample_labels sample_index
           (row_without_pixel_size "d1.png")
           (JDict [("external_id"%string, JStr "d1.png")]) "d1.png"
           sample_labels_load eq_refl eq_refl).
Defined.

Lemma load_diagrams_bad_label_line_aborts_on_sample :
  load_diagrams no_ewma "1.0" "louis" sample_archive
    (sample_labels ++ Some row_without_data_row :: []) true true true None
  = Raise KeyError.
Proof.
  exact (proj1 (proj2
           (load_diagrams_bad_label_line_aborts no_ewma "1.0" "louis"
              sample_archive sample_labels [] (Some row_without_data_row)
              sample_index KeyError true true true None
              sample_labels_load eq_refl))).
Defined.

(** From x.csv.gz the base name is x.csv. *)
Lemma stem_strips_the_last_suffix_only_on_csv_gz :
  stem "x.csv.gz" = "x.csv"%string /\ stem "gz" = "gz"%string.
Proof.
  destruct (stem_strips_the_last_suffix_only "x.csv" "gz" eq_refl)
    as (Hplain & _ & Hsuffix).
  split; [| exact Hplain].
  apply Hsuffix; discriminate.
Defined.

Lemma many_electrons_coords :
  exists coords polygon,
    volt_coords many_electrons_record "polygon" sample_x_axis sample_y_axis
                milli 1 = Ok coords
    /\ new_Polygon coords = Ok polygon.
Proof.
  eexists _, _. split; vm_compute; reflexivity.
Defined.

Lemma load_charge_annotations_unknown_regime_on_sample :
  _load_charge_annotations
    (map Ok [] ++ Ok many_electrons_record :: []) sample_x_axis
    sample_y_axis milli 1
  = Raise (ValueError NotAMember).
Proof.
  destruct many_electrons_coords as (coords & polygon & Hcoords & Hpolygon).
  exact (load_charge_annotations_unknown_regime [] many_electrons_record []
           sample_x_axis sample_y_axis milli 1 coords polygon
           "many_electrons" (Forall_nil _) Hcoords Hpolygon eq_refl eq_refl).
Defined.

End MoreConcrete.
